(** * Deployment approval webhook: a shallow embedding and its properties

    The development follows the three Python modules of the service:
    - [function_app.py]: the HTTP handler [approval_webhook] and
      [verify_signature];
    - [shared/approval_validator.py]: [validate_deployment_user] and
      [_extract_username];
    - [shared/github_client.py]: the GitHub gateway.

    Python values are embedded as a small dynamically typed universe
    ([pyval]); operations that can raise live in an exception monad, and the
    gateway additionally records every operation it is asked to perform.
    Text is a [string] whose characters are code points below 256; byte
    strings are [list byte]. *)

From Stdlib Require Import ZArith List Strings.String Strings.Ascii Strings.Byte Bool Lia.
From Stdlib Require Import Numbers.DecimalString.
Import ListNotations.

Set Implicit Arguments.
Local Open Scope string_scope.
Local Open Scope Z_scope.

(* ===================================================================== *)
(** * Library layer: SHA-256 and HMAC ([hashlib], [hmac])                 *)
(* ===================================================================== *)

Module Sha256.

(** 32-bit words are integers reduced modulo [2^32]. *)
Definition w32 (x : Z) : Z := x mod 4294967296.

Definition add32 (x y : Z) : Z := w32 (x + y).

Definition rotr (n x : Z) : Z :=
  Z.lor (Z.shiftr x n) (w32 (Z.shiftl x (32 - n))).

Definition not32 (x : Z) : Z := Z.lxor x 4294967295.

Definition Ch (x y z : Z) : Z :=
  Z.lxor (Z.land x y) (Z.land (not32 x) z).

Definition Maj (x y z : Z) : Z :=
  Z.lxor (Z.lxor (Z.land x y) (Z.land x z)) (Z.land y z).

Definition Sig0 (x : Z) : Z :=
  Z.lxor (Z.lxor (rotr 2 x) (rotr 13 x)) (rotr 22 x).

Definition Sig1 (x : Z) : Z :=
  Z.lxor (Z.lxor (rotr 6 x) (rotr 11 x)) (rotr 25 x).

Definition sig0 (x : Z) : Z :=
  Z.lxor (Z.lxor (rotr 7 x) (rotr 18 x)) (Z.shiftr x 3).

Definition sig1 (x : Z) : Z :=
  Z.lxor (Z.lxor (rotr 17 x) (rotr 19 x)) (Z.shiftr x 10).

(** The constants are derived from the primes as the standard defines
    them: [H0] from the fractional parts of the square roots of the first
    eight primes, [K] from those of the cube roots of the first
    sixty-four. *)
Definition is_prime (n : Z) : bool :=
  forallb (fun d => negb (n mod d =? 0) || (n <=? d))
          (map Z.of_nat (seq 2 18)).

Definition primes : list Z :=
  filter is_prime (map Z.of_nat (seq 2 310)).

(** Integer cube root, bit by bit from above. *)
Fixpoint cube_root_bits (k : nat) (n acc : Z) : Z :=
  match k with
  | O => acc
  | S j =>
      let c := acc + Z.shiftl 1 (Z.of_nat j) in
      cube_root_bits j n (if c * c * c <=? n then c else acc)
  end.

Definition cube_root (n : Z) : Z := cube_root_bits 40 n 0.

Definition K : list Z :=
  Eval vm_compute in
    map (fun p => w32 (cube_root (Z.shiftl p 96))) primes.

Definition H0 : list Z :=
  Eval vm_compute in
    map (fun p => w32 (Z.sqrt (Z.shiftl p 64))) (firstn 8 primes).

Definition byte_val (b : byte) : Z := Z.of_N (Byte.to_N b).

Definition byte_of_val (z : Z) : byte :=
  match Byte.of_N (Z.to_N (z mod 256)) with
  | Some b => b
  | None => x00
  end.

(** Big-endian encoding of [z] on [n] bytes. *)
Fixpoint be_bytes (n : nat) (z : Z) : list byte :=
  match n with
  | O => []
  | S k => byte_of_val (Z.shiftr z (8 * Z.of_nat k)) :: be_bytes k z
  end.

(** Padding: a [0x80] byte, zero bytes up to 56 modulo 64, then the bit
    length on eight bytes. *)
Definition pad (msg : list byte) : list byte :=
  let len := Z.of_nat (List.length msg) in
  let zeros := Z.to_nat ((55 - len) mod 64) in
  msg ++ x80 :: repeat x00 zeros ++ be_bytes 8 (8 * len).

(** Bytes to big-endian 32-bit words (a trailing partial word is
    dropped; padded messages have none). *)
Fixpoint to_words (bs : list byte) : list Z :=
  match bs with
  | a :: b :: c :: d :: rest =>
      (byte_val a * 16777216 + byte_val b * 65536
       + byte_val c * 256 + byte_val d) :: to_words rest
  | _ => []
  end.

(** Message schedule, most recent word first: [sched] is
    [W(t-1); W(t-2); ...]. *)
Fixpoint extend (n : nat) (sched : list Z) : list Z :=
  match n with
  | O => sched
  | S k =>
      let w := add32 (add32 (sig1 (nth 1 sched 0)) (nth 6 sched 0))
                     (add32 (sig0 (nth 14 sched 0)) (nth 15 sched 0)) in
      extend k (w :: sched)
  end.

Definition schedule (block : list Z) : list Z :=
  rev (extend 48 (rev block)).

Record regs := Regs { ra : Z; rb : Z; rc : Z; rd : Z;
                      re : Z; rf : Z; rg : Z; rh : Z }.

Definition round (r : regs) (kw : Z * Z) : regs :=
  let t1 := add32 (add32 (add32 (rh r) (Sig1 (re r)))
                         (add32 (Ch (re r) (rf r) (rg r)) (fst kw)))
                  (snd kw) in
  let t2 := add32 (Sig0 (ra r)) (Maj (ra r) (rb r) (rc r)) in
  Regs (add32 t1 t2) (ra r) (rb r) (rc r)
       (add32 (rd r) t1) (re r) (rf r) (rg r).

Definition regs_of (h : list Z) : regs :=
  Regs (nth 0 h 0) (nth 1 h 0) (nth 2 h 0) (nth 3 h 0)
       (nth 4 h 0) (nth 5 h 0) (nth 6 h 0) (nth 7 h 0).

Definition list_of (r : regs) : list Z :=
  [ra r; rb r; rc r; rd r; re r; rf r; rg r; rh r].

Definition compress (h : list Z) (block : list Z) : list Z :=
  let r := fold_left round (combine K (schedule block)) (regs_of h) in
  map (fun p => add32 (fst p) (snd p)) (combine h (list_of r)).

(** Fold the compression function over 16-word blocks. *)
Fixpoint blocks (fuel : nat) (h : list Z) (ws : list Z) : list Z :=
  match fuel, ws with
  | S k, _ :: _ => blocks k (compress h (firstn 16 ws)) (skipn 16 ws)
  | _, _ => h
  end.

Definition digest (msg : list byte) : list byte :=
  let ws := to_words (pad msg) in
  flat_map (be_bytes 4) (blocks (List.length ws) H0 ws).

End Sha256.

Module Hmac.

Definition block_size : nat := 64.

Definition xor_byte (p : Z) (b : byte) : byte :=
  Sha256.byte_of_val (Z.lxor p (Sha256.byte_val b)).

(** Keys longer than a block are hashed, shorter ones padded with zero
    bytes. *)
Definition block_key (key : list byte) : list byte :=
  let k := if (block_size <? List.length key)%nat
           then Sha256.digest key else key in
  k ++ repeat x00 (block_size - List.length k).

Definition hmac_sha256 (key msg : list byte) : list byte :=
  let k := block_key key in
  let ipad := map (xor_byte 0x36) k in
  let opad := map (xor_byte 0x5c) k in
  Sha256.digest (opad ++ Sha256.digest (ipad ++ msg)).

Definition hex_digit (z : Z) : ascii :=
  ascii_of_N (Z.to_N (if z <? 10 then 48 + z else 87 + z)).

(** [hexdigest]: two lowercase hexadecimal digits per byte. *)
Fixpoint hexdigest (bs : list byte) : string :=
  match bs with
  | [] => EmptyString
  | b :: rest =>
      let v := Sha256.byte_val b in
      String (hex_digit (v / 16)) (String (hex_digit (v mod 16)) (hexdigest rest))
  end.

End Hmac.

(* ===================================================================== *)
(** * Python text: the string methods the service uses                   *)
(* ===================================================================== *)

Module PyStr.

Definition code (c : ascii) : Z := Z.of_N (N_of_ascii c).
Definition chr (z : Z) : ascii := ascii_of_N (Z.to_N z).

Definition dquote : ascii := chr 34.
Definition squote : ascii := chr 39.
Definition backslash : ascii := chr 92.

(** [str.isascii]. *)
Definition is_ascii_char (c : ascii) : bool := code c <? 128.

Fixpoint isascii (s : string) : bool :=
  match s with
  | EmptyString => true
  | String c r => is_ascii_char c && isascii r
  end.

(** [str.lower], one character: [A-Z] and the accented capitals
    [0xC0-0xDE] except the multiplication sign move up by 32. *)
Definition lower_char (c : ascii) : ascii :=
  let n := code c in
  if ((65 <=? n) && (n <=? 90))
     || ((192 <=? n) && (n <=? 222) && negb (n =? 215))
  then chr (n + 32) else c.

Fixpoint lower (s : string) : string :=
  match s with
  | EmptyString => EmptyString
  | String c r => String (lower_char c) (lower r)
  end.

(** [str.isspace], one character. *)
Definition is_space (c : ascii) : bool :=
  let n := code c in
  ((9 <=? n) && (n <=? 13)) || ((28 <=? n) && (n <=? 32))
  || (n =? 133) || (n =? 160).

Fixpoint lstrip (s : string) : string :=
  match s with
  | EmptyString => EmptyString
  | String c r => if is_space c then lstrip r else s
  end.

(** Drops trailing white space: a character is kept when something
    that is kept follows it, or when it is not white space. *)
Fixpoint rstrip (s : string) : string :=
  match s with
  | EmptyString => EmptyString
  | String c r =>
      match rstrip r with
      | EmptyString => if is_space c then EmptyString else String c EmptyString
      | r' => String c r'
      end
  end.

(** [str.strip()] without argument. *)
Definition strip (s : string) : string := rstrip (lstrip s).

(** [sub in s] for text: [sub] occurs in [s] as a contiguous run. *)
Fixpoint contains (sub s : string) : bool :=
  prefix sub s ||
  match s with
  | EmptyString => false
  | String _ r => contains sub r
  end.

(** [s.startswith(p)]. *)
Fixpoint startswith (p s : string) : bool :=
  match p with
  | EmptyString => true
  | String a p' =>
      match s with
      | EmptyString => false
      | String b s' => Ascii.eqb a b && startswith p' s'
      end
  end.

(** [c in s] for a one-character [c]. *)
Fixpoint has_char (c : ascii) (s : string) : bool :=
  match s with
  | EmptyString => false
  | String a r => Ascii.eqb a c || has_char c r
  end.

(** [s.split(sep)] for a one-character separator. *)
Fixpoint split (sep : ascii) (s : string) : list string :=
  match s with
  | EmptyString => [EmptyString]
  | String a r =>
      if Ascii.eqb a sep then EmptyString :: split sep r
      else match split sep r with
           | h :: t => String a h :: t
           | [] => [String a EmptyString]
           end
  end.

Fixpoint join (sep : string) (l : list string) : string :=
  match l with
  | [] => EmptyString
  | [x] => x
  | x :: r => x ++ sep ++ join sep r
  end.

Definition hex2 (c : ascii) : string :=
  String (Hmac.hex_digit (code c / 16))
    (String (Hmac.hex_digit (code c mod 16)) EmptyString).

(** [str.isprintable], one character below 256. *)
Definition is_printable (c : ascii) : bool :=
  let n := code c in
  ((32 <=? n) && (n <? 127)) || ((161 <=? n) && negb (n =? 173)).

Definition repr_char (quote c : ascii) : string :=
  if Ascii.eqb c backslash then String backslash (String backslash EmptyString)
  else if Ascii.eqb c quote then String backslash (String quote EmptyString)
  else if code c =? 9 then String backslash "t"
  else if code c =? 10 then String backslash "n"
  else if code c =? 13 then String backslash "r"
  else if is_printable c then String c EmptyString
  else String backslash ("x" ++ hex2 c).

Fixpoint repr_body (quote : ascii) (s : string) : string :=
  match s with
  | EmptyString => EmptyString
  | String c r => repr_char quote c ++ repr_body quote r
  end.

(** [repr] of a text: single quotes unless the text has a single quote
    and no double quote. *)
Definition repr (s : string) : string :=
  let quote := if has_char squote s && negb (has_char dquote s)
               then dquote else squote in
  String quote (repr_body quote s ++ String quote EmptyString).

(** UTF-8 encoding of code points below 256. *)
Fixpoint encode_utf8 (s : string) : list byte :=
  match s with
  | EmptyString => []
  | String c r =>
      let n := code c in
      if n <? 128 then Sha256.byte_of_val n :: encode_utf8 r
      else Sha256.byte_of_val (192 + n / 64)
           :: Sha256.byte_of_val (128 + n mod 64) :: encode_utf8 r
  end.

Definition of_int (z : Z) : string := NilZero.string_of_int (Z.to_int z).

End PyStr.

(* ===================================================================== *)
(** * Python values, exceptions and the dynamic operations               *)
(* ===================================================================== *)

(** A float is kept as what the service can observe of it: whether it is
    non-zero (truthiness) and how it prints. *)
Record pyfloat := PyFloat { float_nonzero : bool; float_repr : string }.

(** The values [json.loads] produces, plus [None] for absent results.
    A [dict] keeps its items in insertion order, keys distinct. *)
#[warnings="-register-all"]
Inductive pyval :=
| PNone
| PBool (b : bool)
| PInt (z : Z)
| PFloat (f : pyfloat)
| PStr (s : string)
| PList (l : list pyval)
| PDict (d : list (string * pyval)).

Inductive exn_class :=
| ValueError | AttributeError | TypeError | KeyError | RequestException
| RecursionError.

(** An exception: its class and [str(e)]. *)
Record exn := Exn { exn_kind : exn_class; exn_str : string }.

Inductive res (A : Type) :=
| Ok (a : A)
| Raise (e : exn).
Arguments Ok {A} a.
Arguments Raise {A} e.

Definition exn_class_eqb (a b : exn_class) : bool :=
  match a, b with
  | ValueError, ValueError | AttributeError, AttributeError
  | TypeError, TypeError | KeyError, KeyError
  | RequestException, RequestException
  | RecursionError, RecursionError => true
  | _, _ => false
  end.

Module Py.

Definition type_name (v : pyval) : string :=
  match v with
  | PNone => "NoneType" | PBool _ => "bool" | PInt _ => "int"
  | PFloat _ => "float" | PStr _ => "str" | PList _ => "list"
  | PDict _ => "dict"
  end.

(** Truth value of an object, as [if v:] tests it. *)
Definition truthy (v : pyval) : bool :=
  match v with
  | PNone => false
  | PBool b => b
  | PInt z => negb (z =? 0)
  | PFloat f => float_nonzero f
  | PStr s => negb (String.eqb s "")
  | PList l => match l with [] => false | _ => true end
  | PDict d => match d with [] => false | _ => true end
  end.

(** [a or b]. *)
Definition or_ (a b : pyval) : pyval := if truthy a then a else b.

(** [v == s] for a text [s]. *)
Definition eq_str (v : pyval) (s : string) : bool :=
  match v with
  | PStr t => String.eqb t s
  | _ => false
  end.

Fixpoint lookup (k : string) (d : list (string * pyval)) : option pyval :=
  match d with
  | [] => None
  | (k', v) :: r => if String.eqb k' k then Some v else lookup k r
  end.

(** [repr(v)] and [str(v)]. *)
Fixpoint repr (v : pyval) : string :=
  match v with
  | PNone => "None"
  | PBool true => "True"
  | PBool false => "False"
  | PInt z => PyStr.of_int z
  | PFloat f => float_repr f
  | PStr s => PyStr.repr s
  | PList l => "[" ++ PyStr.join ", " (map repr l) ++ "]"
  | PDict d =>
      "{" ++ PyStr.join ", "
               ((fix items (d : list (string * pyval)) : list string :=
                   match d with
                   | [] => []
                   | (k, x) :: r => (PyStr.repr k ++ ": " ++ repr x) :: items r
                   end) d)
          ++ "}"
  end.

Definition str (v : pyval) : string :=
  match v with
  | PStr s => s
  | _ => repr v
  end.

Definition attribute_error (v : pyval) (attr : string) : exn :=
  Exn AttributeError
      ("'" ++ type_name v ++ "' object has no attribute '" ++ attr ++ "'").

(** [v.get(k, default)]: only a [dict] has the method. *)
Definition get (v : pyval) (k : string) (default : pyval) : res pyval :=
  match v with
  | PDict d => Ok (match lookup k d with Some x => x | None => default end)
  | _ => Raise (attribute_error v "get")
  end.

(** [k in v] for a text [k]: key of a [dict], element of a [list],
    contiguous part of a text; other objects are no containers. *)
Definition contains (k : string) (v : pyval) : res bool :=
  match v with
  | PDict d => Ok (match lookup k d with Some _ => true | None => false end)
  | PList l => Ok (existsb (fun x => eq_str x k) l)
  | PStr s => Ok (PyStr.contains k s)
  | _ => Raise (Exn TypeError
                  ("argument of type '" ++ type_name v ++ "' is not iterable"))
  end.

(** [v[k]] for a text [k]. *)
Definition getitem (v : pyval) (k : string) : res pyval :=
  match v with
  | PDict d =>
      match lookup k d with
      | Some x => Ok x
      | None => Raise (Exn KeyError (PyStr.repr k))
      end
  | PList _ =>
      Raise (Exn TypeError "list indices must be integers or slices, not str")
  | PStr _ =>
      Raise (Exn TypeError "string indices must be integers, not 'str'")
  | _ => Raise (Exn TypeError
                  ("'" ++ type_name v ++ "' object is not subscriptable"))
  end.

(** [v.split(sep)[0]] and [v.split(sep)[-1]]: text only. *)
Definition split_first (v : pyval) (sep : ascii) : res pyval :=
  match v with
  | PStr s => Ok (PStr (hd EmptyString (PyStr.split sep s)))
  | _ => Raise (attribute_error v "split")
  end.

Definition split_last (v : pyval) (sep : ascii) : res pyval :=
  match v with
  | PStr s => Ok (PStr (last (PyStr.split sep s) EmptyString))
  | _ => Raise (attribute_error v "split")
  end.

Definition strip (v : pyval) : res pyval :=
  match v with
  | PStr s => Ok (PStr (PyStr.strip s))
  | _ => Raise (attribute_error v "strip")
  end.

Definition lower (v : pyval) : res string :=
  match v with
  | PStr s => Ok (PyStr.lower s)
  | _ => Raise (attribute_error v "lower")
  end.

End Py.

(* ===================================================================== *)
(** * Computations: exceptions and the record of gateway operations      *)
(* ===================================================================== *)

(** What the handler asks of the gateway, in the order it asks. *)
Inductive gateway_call :=
| GetWorkflowRun (repo_owner repo_name run_id : pyval)
| ApproveDeployment (callback_url : pyval) (comment : string)
| RejectDeployment (callback_url : pyval) (comment : string)
| AddWorkflowSummaryError (repo_owner repo_name run_id : pyval)
                          (error_message : string).

(** A computation yields a value or raises, and leaves the list of the
    gateway operations it started. *)
Definition M (A : Type) : Type := res A * list gateway_call.

Definition ret {A} (a : A) : M A := (Ok a, []).

Definition bind {A B} (m : M A) (f : A -> M B) : M B :=
  match m with
  | (Ok a, t) => let (r, t') := f a in (r, (t ++ t')%list)
  | (Raise e, t) => (Raise e, t)
  end.

Definition lift {A} (r : res A) : M A := (r, []).

Definition tell (c : gateway_call) : M unit := (Ok tt, [c]).

(** [try: m except Exception as e: h e]. *)
Definition try_except {A} (m : M A) (h : exn -> M A) : M A :=
  match m with
  | (Ok a, t) => (Ok a, t)
  | (Raise e, t) => let (r, t') := h e in (r, (t ++ t')%list)
  end.

Declare Scope py_scope.
Delimit Scope py_scope with py.
Notation "x <- m ;; k" := (bind m (fun x => k))
  (at level 100, m at next level, right associativity) : py_scope.
Notation "m ;;; k" := (bind m (fun _ => k))
  (at level 100, right associativity) : py_scope.

(** The same for computations that only raise. *)
Definition rbind {A B} (r : res A) (f : A -> res B) : res B :=
  match r with
  | Ok a => f a
  | Raise e => Raise e
  end.

Notation "x <~ r ;; k" := (rbind r (fun x => k))
  (at level 100, r at next level, right associativity) : py_scope.

(** [try: r except cls as e: h e]: only exceptions of class [cls] are
    handled, the others propagate. *)
Definition rcatch {A} (cls : exn_class) (r : res A) (h : exn -> A) : res A :=
  match r with
  | Ok a => Ok a
  | Raise e => if exn_class_eqb (exn_kind e) cls then Ok (h e) else Raise e
  end.

(* ===================================================================== *)
(** * The HTTP transport ([requests])                                     *)
(* ===================================================================== *)

(** A received response. [json_result] is what [response.json()] does:
    the decoded body, or the exception the decoder raises. The
    [JSONDecodeError] of [requests] for a body that is no JSON is a
    [RequestException]; [response.json()] handles no other exception of
    the decoder, so the [RecursionError] of a body nested too deeply
    comes out as it is. *)
Record Response := {
  status_code : Z;
  reason : string;
  url : string;
  text : string;
  json_result : exn + pyval
}.

(** The network as the client sees it: a request yields a response, or
    [requests] raises a [RequestException] with the given message
    (connection failure, timeout, unusable URL, ...). A URL that is no
    text is turned into text by [requests], which then finds no scheme or
    no connection adapter and raises before anything is sent;
    [url_error] is the message of that exception.

    Not every exception of a request is a [RequestException]: when the
    host of an address has a label that is empty or longer than 63
    characters, the connection layer raises [LocationParseError], a
    [ValueError], and [requests] passes it on unchanged. [host_error]
    gives the exception raised for an address whose host cannot be
    used. *)
Record network := {
  requests_get : string -> list (string * string) -> string + Response;
  requests_post : string -> list (string * string) -> pyval -> string + Response;
  url_error : pyval -> string;
  host_error : string -> option exn
}.

Module Requests.

(** The root of the REST API. Every address under it has the host
    [api.github.com], whose labels the connection layer accepts, so
    [host_error] is asked for the other addresses only. *)
Definition api_root : string := "https://api.github.com/".

Definition under_api (address : string) : bool :=
  PyStr.startswith api_root address.

(** The connection to the host of [address]. *)
Definition connect (net : network) (address : string) : res unit :=
  if under_api address then Ok tt
  else match host_error net address with
       | Some e => Raise e
       | None => Ok tt
       end.

Definition get (net : network) (u : string) (headers : list (string * string))
  : res Response :=
  match connect net u with
  | Raise e => Raise e
  | Ok _ =>
      match requests_get net u headers with
      | inr r => Ok r
      | inl msg => Raise (Exn RequestException msg)
      end
  end.

(** [requests.post(u, headers=..., json=body)]; the caller may pass any
    object as [u]. *)
Definition post (net : network) (u : pyval) (headers : list (string * string))
  (body : pyval) : res Response :=
  match u with
  | PStr address =>
      match connect net address with
      | Raise e => Raise e
      | Ok _ =>
          match requests_post net address headers body with
          | inr r => Ok r
          | inl msg => Raise (Exn RequestException msg)
          end
      end
  | _ => Raise (Exn RequestException (url_error net u))
  end.

(** [response.raise_for_status()]: an [HTTPError] for 4xx and 5xx. *)
Definition raise_for_status (r : Response) : res unit :=
  let c := status_code r in
  if (400 <=? c) && (c <? 500) then
    Raise (Exn RequestException
             (PyStr.of_int c ++ " Client Error: " ++ reason r
              ++ " for url: " ++ url r))
  else if (500 <=? c) && (c <? 600) then
    Raise (Exn RequestException
             (PyStr.of_int c ++ " Server Error: " ++ reason r
              ++ " for url: " ++ url r))
  else Ok tt.

(** [response.json()]. *)
Definition json (r : Response) : res pyval :=
  match json_result r with
  | inr v => Ok v
  | inl e => Raise e
  end.

End Requests.

(* ===================================================================== *)
(** * [shared/github_client.py]                                           *)
(* ===================================================================== *)

Record GitHubClient := {
  token : string;
  base_url : string;
  headers : list (string * string)
}.

(** [GitHubClient.__init__]. *)
Definition new_GitHubClient (tok : string) : GitHubClient :=
  {| token := tok;
     base_url := "https://api.github.com";
     headers := [ ("Authorization", "Bearer " ++ tok);
                  ("Accept", "application/vnd.github+json");
                  ("X-GitHub-Api-Version", "2022-11-28") ] |}.

Section Gateway.

Variable net : network.
Variable self : GitHubClient.

Local Open Scope py_scope.

(** The body of each operation, without the record of the call. *)
Definition get_workflow_run_body (repo_owner repo_name run_id : pyval)
  : res pyval :=
  let u := base_url self ++ "/repos/" ++ Py.str repo_owner ++ "/"
           ++ Py.str repo_name ++ "/actions/runs/" ++ Py.str run_id in
  rcatch RequestException
    (response <~ Requests.get net u (headers self) ;;
     _ <~ Requests.raise_for_status response ;;
     Requests.json response)
    (fun e => PNone).

Definition deployment_payload (state comment : string) : pyval :=
  PDict [ ("state", PStr state); ("comment", PStr comment);
          ("environment_name", PStr "") ].

Definition approve_deployment_body (callback_url : pyval) (comment : string)
  : res pyval :=
  let payload := deployment_payload "approved" comment in
  rcatch RequestException
    (response <~ Requests.post net callback_url (headers self) payload ;;
     _ <~ Requests.raise_for_status response ;;
     if negb (String.eqb (text response) "") then Requests.json response
     else Ok (PDict [("status", PStr "approved")]))
    (fun e => PDict [("error", PStr ("Error approving deployment: " ++ exn_str e))]).

Definition reject_deployment_body (callback_url : pyval) (comment : string)
  : res pyval :=
  let payload := deployment_payload "rejected" comment in
  rcatch RequestException
    (response <~ Requests.post net callback_url (headers self) payload ;;
     _ <~ Requests.raise_for_status response ;;
     if negb (String.eqb (text response) "") then Requests.json response
     else Ok (PDict [("status", PStr "rejected")]))
    (fun e => PDict [("error", PStr ("Error rejecting deployment: " ++ exn_str e))]).

Definition add_workflow_summary_error_body
  (repo_owner repo_name run_id : pyval) (error_message : string) : res pyval :=
  let u := base_url self ++ "/repos/" ++ Py.str repo_owner ++ "/"
           ++ Py.str repo_name ++ "/actions/runs/" ++ Py.str run_id ++ "/jobs" in
  rcatch RequestException
    (response <~ Requests.get net u (headers self) ;;
     _ <~ Requests.raise_for_status response ;;
     body <~ Requests.json response ;;
     jobs <~ Py.get body "jobs" (PList []) ;;
     if negb (Py.truthy jobs) then Ok (PBool false)
     else Ok (PBool true))
    (fun e => PBool false).

Definition cancel_workflow_run_body (repo_owner repo_name run_id : pyval)
  : res pyval :=
  let u := base_url self ++ "/repos/" ++ Py.str repo_owner ++ "/"
           ++ Py.str repo_name ++ "/actions/runs/" ++ Py.str run_id
           ++ "/cancel" in
  rcatch RequestException
    (response <~ Requests.post net (PStr u) (headers self) PNone ;;
     _ <~ Requests.raise_for_status response ;;
     Ok (PDict [("status", PStr "cancelled")]))
    (fun e => PDict [("error", PStr ("Error cancelling workflow run: " ++ exn_str e))]).

Definition get_user_body (username : pyval) : res pyval :=
  let u := base_url self ++ "/users/" ++ Py.str username in
  rcatch RequestException
    (response <~ Requests.get net u (headers self) ;;
     _ <~ Requests.raise_for_status response ;;
     Requests.json response)
    (fun e => PNone).

(** The operations as the handler and the validator call them. *)
Definition get_workflow_run (repo_owner repo_name run_id : pyval) : M pyval :=
  tell (GetWorkflowRun repo_owner repo_name run_id) ;;;
  lift (get_workflow_run_body repo_owner repo_name run_id).

Definition approve_deployment (callback_url : pyval) (comment : string)
  : M pyval :=
  tell (ApproveDeployment callback_url comment) ;;;
  lift (approve_deployment_body callback_url comment).

Definition reject_deployment (callback_url : pyval) (comment : string)
  : M pyval :=
  tell (RejectDeployment callback_url comment) ;;;
  lift (reject_deployment_body callback_url comment).

Definition add_workflow_summary_error (repo_owner repo_name run_id : pyval)
  (error_message : string) : M pyval :=
  tell (AddWorkflowSummaryError repo_owner repo_name run_id error_message) ;;;
  lift (add_workflow_summary_error_body repo_owner repo_name run_id
          error_message).

End Gateway.

(* ===================================================================== *)
(** * [shared/approval_validator.py]                                      *)
(* ===================================================================== *)

Section Validator.

Variable net : network.
Variable github_client : GitHubClient.
Variable authorized_user : string.

Local Open Scope py_scope.

(** [_extract_username]. *)
Definition _extract_username (user_string : pyval) : res pyval :=
  if negb (Py.truthy user_string) then Ok (PStr "")
  else
    (* Remove email domain *)
    has_at <~ Py.contains "@" user_string ;;
    user_string <~ (if has_at then Py.split_first user_string "@"
                    else Ok user_string) ;;
    (* Remove domain prefix *)
    has_bs <~ Py.contains "\" user_string ;;
    user_string <~ (if has_bs then Py.split_last user_string "\"
                    else Ok user_string) ;;
    (* Remove domain prefix (forward slash) *)
    has_sl <~ Py.contains "/" user_string ;;
    user_string <~ (if has_sl then Py.split_last user_string "/"
                    else Ok user_string) ;;
    Py.strip user_string.

(** Method 1: the deployment payload carries the actor. *)
Definition method1 (deployment initiated_by : pyval) : res pyval :=
  has_payload <~ Py.contains "payload" deployment ;;
  has_actor <~ (if has_payload
                then p <~ Py.getitem deployment "payload" ;; Py.contains "actor" p
                else Ok false) ;;
  if has_actor
  then p <~ Py.getitem deployment "payload" ;; Py.getitem p "actor"
  else Ok initiated_by.

(** Method 2: the workflow's triggering actor. *)
Definition method2 (workflow initiated_by : pyval) : res pyval :=
  applies <~ (if negb (Py.truthy initiated_by)
              then Py.contains "triggering_actor" workflow else Ok false) ;;
  if applies then
    triggered_actor <~ Py.getitem workflow "triggering_actor" ;;
    match triggered_actor with
    | PDict _ =>
        login <~ Py.get triggered_actor "login" PNone ;;
        name <~ Py.get triggered_actor "name" PNone ;;
        Ok (Py.or_ login name)
    | _ => Ok triggered_actor
    end
  else Ok initiated_by.

(** Method 3: the sender of the webhook event. *)
Definition method3 (sender initiated_by : pyval) : res pyval :=
  if negb (Py.truthy initiated_by) && Py.truthy sender
  then Py.get sender "login" PNone
  else Ok initiated_by.

(** What method 4 reads off a fetched workflow run. *)
Definition actor_of_run (workflow_run initiated_by : pyval) : res pyval :=
  if Py.truthy workflow_run then
    has_ta <~ Py.contains "triggering_actor" workflow_run ;;
    if has_ta then
      ta <~ Py.getitem workflow_run "triggering_actor" ;;
      Py.get ta "login" PNone
    else
      has_actor <~ Py.contains "actor" workflow_run ;;
      if has_actor then
        a <~ Py.getitem workflow_run "actor" ;;
        Py.get a "login" PNone
      else Ok initiated_by
  else Ok initiated_by.

(** Method 4: ask the workflow run API. *)
Definition method4 (webhook_payload run_id initiated_by : pyval) : M pyval :=
  if negb (Py.truthy initiated_by) && Py.truthy run_id then
    repository <- lift (Py.get webhook_payload "repository" (PDict [])) ;;
    owner <- lift (Py.get repository "owner" (PDict [])) ;;
    repo_owner <- lift (Py.get owner "login" PNone) ;;
    repo_name <- lift (Py.get repository "name" PNone) ;;
    if Py.truthy repo_owner && Py.truthy repo_name then
      workflow_run <- get_workflow_run net github_client
                        repo_owner repo_name run_id ;;
      lift (actor_of_run workflow_run initiated_by)
    else ret initiated_by
  else ret initiated_by.

(** The first part of [validate_deployment_user]: the initiator and the
    run id, before any decision. *)
Definition resolve_initiator (webhook_payload : pyval) : M (pyval * pyval) :=
  deployment <- lift (Py.get webhook_payload "deployment" (PDict [])) ;;
  workflow <- lift (Py.get webhook_payload "workflow" (PDict [])) ;;
  sender <- lift (Py.get webhook_payload "sender" (PDict [])) ;;
  let initiated_by := PNone in
  run_id <- lift (Py.get workflow "id" PNone) ;;
  initiated_by <- lift (method1 deployment initiated_by) ;;
  initiated_by <- lift (method2 workflow initiated_by) ;;
  initiated_by <- lift (method3 sender initiated_by) ;;
  initiated_by <- method4 webhook_payload run_id initiated_by ;;
  ret (initiated_by, run_id).

(** The second part: the decision on a resolved initiator. *)
Definition decide_user (initiated_by run_id : pyval) : res pyval :=
  if negb (Py.truthy initiated_by) then
    Ok (PDict [ ("is_valid", PBool false);
                ("initiated_by", PStr "Unknown");
                ("error", PStr "Could not determine deployment initiator") ])
  else
    username_clean <~ _extract_username initiated_by ;;
    authorized_clean <~ _extract_username (PStr authorized_user) ;;
    u <~ Py.lower username_clean ;;
    a <~ Py.lower authorized_clean ;;
    let is_valid := String.eqb u a in
    let result := [ ("is_valid", PBool is_valid);
                    ("initiated_by", initiated_by);
                    ("username_checked", username_clean) ] in
    if Py.truthy run_id
    then Ok (PDict (result ++ [("run_id", run_id)]))
    else Ok (PDict result).

(** [validate_deployment_user]: the two parts inside [try], and the
    handler of [except Exception]. *)
Definition validate_deployment_user (webhook_payload : pyval) : M pyval :=
  try_except
    (r <- resolve_initiator webhook_payload ;;
     lift (decide_user (fst r) (snd r)))
    (fun e => ret (PDict [ ("is_valid", PBool false);
                           ("initiated_by", PStr "Unknown");
                           ("error", PStr (exn_str e)) ])).

End Validator.

(* ===================================================================== *)
(** * [function_app.py]                                                   *)
(* ===================================================================== *)

(** [hmac.compare_digest] on two texts: texts with a character outside
    ASCII are refused. *)
Definition compare_digest (a b : string) : res bool :=
  if PyStr.isascii a && PyStr.isascii b then Ok (String.eqb a b)
  else Raise (Exn TypeError
                "comparing strings with non-ASCII characters is not supported").

(** [verify_signature]; an absent header is [None]. *)
Definition verify_signature (payload_body : list byte)
  (signature_header : option string) (secret : string) : res bool :=
  match signature_header with
  | None => Ok false
  | Some h =>
      if String.eqb h "" then Ok false
      else
        let hash_object :=
          Hmac.hmac_sha256 (PyStr.encode_utf8 secret) payload_body in
        let expected_signature := "sha256=" ++ Hmac.hexdigest hash_object in
        compare_digest expected_signature h
  end.

(** The request as the hosting runtime hands it over. [headers] has its
    names in lower case, as the runtime stores them; [get_json] is the
    decoded body or the exception of the decoder: a [ValueError] for a
    body that is no JSON, a [RecursionError] for a body nested too
    deeply. *)
Record HttpRequest := {
  req_headers : list (string * string);
  get_body : list byte;
  get_json : exn + pyval
}.

Fixpoint assoc (k : string) (l : list (string * string)) : option string :=
  match l with
  | [] => None
  | (k', v) :: r => if String.eqb k' k then Some v else assoc k r
  end.

(** [req.headers.get(name)]: header names compare without case. *)
Definition headers_get (req : HttpRequest) (name : string) : option string :=
  assoc (PyStr.lower name) (req_headers req).

(** [os.environ], the three variables the handler reads. *)
Record environ := {
  GITHUB_WEBHOOK_SECRET : option string;
  GITHUB_TOKEN : option string;
  AUTHORIZED_USER : option string
}.

(** [func.HttpResponse]: [response_body] is the object given to
    [json.dumps]; the mimetype is always [application/json]. *)
Record HttpResponse := {
  response_body : pyval;
  response_status : Z
}.

Definition nonempty (o : option string) : bool :=
  match o with
  | Some s => negb (String.eqb s "")
  | None => false
  end.

Definition rejection_message (environment_name : pyval) : string :=
  "El usuario utilizado para el despliegue no se encuentra autorizado para desplegar en "
  ++ Py.str environment_name.

Definition success_message (initiated_by environment_name : pyval) : string :=
  "Usuario autorizado: " ++ Py.str initiated_by
  ++ ". Despliegue permitido en " ++ Py.str environment_name.

Section Handler.

Variable env : environ.
Variable net : network.

Local Open Scope py_scope.

Definition json_response (body : list (string * pyval)) (status : Z)
  : HttpResponse :=
  {| response_body := PDict body; response_status := status |}.

(** [req.get_json()]. *)
Definition request_json (req : HttpRequest) : res pyval :=
  match get_json req with
  | inr v => Ok v
  | inl e => Raise e
  end.

(** The part of the handler after the event filter: resolve, decide,
    call back. *)
Definition process_deployment (github_token authorized_user : string)
  (req_body deployment_callback_url deployment repository workflow : pyval)
  : M HttpResponse :=
  (* Extract deployment information *)
  repo_full_name <- lift (Py.get repository "full_name" PNone) ;;
  owner <- lift (Py.get repository "owner" (PDict [])) ;;
  repo_owner <- lift (Py.get owner "login" PNone) ;;
  repo_name <- lift (Py.get repository "name" PNone) ;;
  environment_name <- lift (Py.get deployment "environment" PNone) ;;
  run_id <- lift (Py.get workflow "id" PNone) ;;
  (* Initialize clients *)
  let github_client := new_GitHubClient github_token in
  (* Validate the user who initiated the deployment *)
  validation_result <-
    validate_deployment_user net github_client authorized_user req_body ;;
  is_valid <- lift (Py.getitem validation_result "is_valid") ;;
  if negb (Py.truthy is_valid) then
    (* User is not authorized - reject the deployment *)
    initiated_by <- lift (Py.get validation_result "initiated_by" (PStr "Unknown")) ;;
    let error_message := rejection_message environment_name in
    rejection_result <-
      reject_deployment net github_client deployment_callback_url error_message ;;
    _ <- (if Py.truthy run_id
          then add_workflow_summary_error net github_client
                 repo_owner repo_name run_id error_message
          else ret PNone) ;;
    ret (json_response
           [ ("status", PStr "rejected");
             ("reason", PStr error_message);
             ("initiated_by", initiated_by);
             ("authorized_user", PStr authorized_user);
             ("rejection_result", rejection_result) ] 200)
  else
    (* User is authorized - approve the deployment *)
    initiated_by <- lift (Py.get validation_result "initiated_by" (PStr "Unknown")) ;;
    let message := success_message initiated_by environment_name in
    approval_result <-
      approve_deployment net github_client deployment_callback_url message ;;
    ret (json_response
           [ ("status", PStr "approved");
             ("message", PStr message);
             ("initiated_by", initiated_by);
             ("environment", environment_name);
             ("approval_result", approval_result) ] 200).

(** The signature step: without a configured secret every request
    passes. *)
Definition check_signature (req : HttpRequest) : res bool :=
  let webhook_secret := GITHUB_WEBHOOK_SECRET env in
  match webhook_secret with
  | Some secret =>
      if negb (String.eqb secret "") then
        let signature := headers_get req "X-Hub-Signature-256" in
        verify_signature (get_body req) signature secret
      else Ok true
  | None => Ok true
  end.

(** The body of the [try] block of [approval_webhook]. *)
Definition approval_webhook_try (req : HttpRequest) : M HttpResponse :=
  (* Parse the webhook payload *)
  req_body <- lift (request_json req) ;;
  (* Verify webhook signature *)
  signature_ok <- lift (check_signature req) ;;
  if negb signature_ok then
    ret (json_response [("error", PStr "Invalid signature")] 401)
  else
    (* Initialize GitHub client *)
    let github_token := GITHUB_TOKEN env in
    let authorized_user :=
      match AUTHORIZED_USER env with
      | Some u => u
      | None => "APZW3PRD_BCP"
      end in
    match github_token with
    | None | Some EmptyString =>
        ret (json_response
               [("error", PStr "GitHub configuration is missing (GITHUB_TOKEN)")]
               500)
    | Some github_token =>
        (* Extract webhook information *)
        action <- lift (Py.get req_body "action" PNone) ;;
        deployment_callback_url <-
          lift (Py.get req_body "deployment_callback_url" PNone) ;;
        deployment <- lift (Py.get req_body "deployment" (PDict [])) ;;
        repository <- lift (Py.get req_body "repository" (PDict [])) ;;
        workflow <- lift (Py.get req_body "workflow" (PDict [])) ;;
        (* Validate that this is a deployment_protection_rule event *)
        let event_type :=
          match headers_get req "X-GitHub-Event" with
          | Some e => e
          | None => ""
          end in
        if negb (String.eqb event_type "deployment_protection_rule")
           || negb (Py.eq_str action "requested")
        then
          ret (json_response
                 [("message",
                   PStr "Not a deployment protection rule request, skipping")]
                 200)
        else
          process_deployment github_token authorized_user req_body
            deployment_callback_url deployment repository workflow
    end.

(** [approval_webhook]: the [try] block and its two handlers. The result
    is the response together with the gateway operations performed. *)
Definition approval_webhook (req : HttpRequest)
  : HttpResponse * list gateway_call :=
  match approval_webhook_try req with
  | (Ok response, calls) => (response, calls)
  | (Raise e, calls) =>
      match exn_kind e with
      | ValueError =>
          (json_response
             [("error", PStr ("Invalid request body: " ++ exn_str e))] 400,
           calls)
      | _ =>
          (json_response
             [("error",
               PStr ("Unexpected error processing webhook: " ++ exn_str e))] 500,
           calls)
      end
  end.

End Handler.

(* ===================================================================== *)
(** * The specification's vocabulary                                      *)
(* ===================================================================== *)

Module Spec.

(** The text before the first [c] (all of [s] when there is none). *)
Fixpoint before_first (c : ascii) (s : string) : string :=
  match s with
  | EmptyString => EmptyString
  | String a r => if Ascii.eqb a c then EmptyString
                  else String a (before_first c r)
  end.

(** The text after the last [c] (all of [s] when there is none). *)
Fixpoint after_last (c : ascii) (s : string) : string :=
  match s with
  | EmptyString => EmptyString
  | String a r =>
      if PyStr.has_char c r then after_last c r
      else if Ascii.eqb a c then r else s
  end.

(** Texts made of white space only, and the last character of a text. *)
Fixpoint all_space (s : string) : bool :=
  match s with
  | EmptyString => true
  | String c r => PyStr.is_space c && all_space r
  end.

Fixpoint last_char (s : string) : option ascii :=
  match s with
  | EmptyString => None
  | String c EmptyString => Some c
  | String _ r => last_char r
  end.

(** A step that only applies when its delimiter occurs. *)
Definition when_present (c : ascii) (f : string -> string) (s : string)
  : string :=
  if PyStr.has_char c s then f s else s.

(** [extractUsername]: email suffix, backslash prefix, slash prefix,
    surrounding white space, in this order. *)
Definition extractUsername (raw : string) : string :=
  let s1 := when_present "@" (before_first "@") raw in
  let s2 := when_present "\" (after_last "\") s1 in
  let s3 := when_present "/" (after_last "/") s2 in
  PyStr.strip s3.

(** The signature header GitHub sends for [body] under [secret]:
    [sha256=] and the lowercase hexadecimal HMAC-SHA256. *)
Definition expected_signature (body : list byte) (secret : string) : string :=
  "sha256=" ++ Hmac.hexdigest (Hmac.hmac_sha256 (PyStr.encode_utf8 secret) body).

(** Comparison without regard to case. *)
Definition same_user (a b : string) : bool :=
  String.eqb (PyStr.lower a) (PyStr.lower b).

(** What a proposal does to the current value. *)
Definition adopt (current : pyval) (proposal : option pyval) : pyval :=
  match proposal with
  | Some v => v
  | None => current
  end.

(** A resolution strategy proposes an identity or does not apply. The
    chain consults the strategies in order and stops at the first
    non-empty proposal; a proposal that is empty is kept only until a
    later strategy proposes something else. *)
Fixpoint first_match (strategies : list (M (option pyval))) (current : pyval)
  : M pyval :=
  match strategies with
  | [] => ret current
  | s :: rest =>
      if Py.truthy current then ret current
      else bind s (fun proposal =>
             first_match rest (adopt current proposal))
  end.

Local Open Scope py_scope.

(** Strategy 1: [deployment.payload.actor], if present. *)
Definition deployment_actor (deployment : pyval) : res (option pyval) :=
  has_payload <~ Py.contains "payload" deployment ;;
  if has_payload then
    p <~ Py.getitem deployment "payload" ;;
    has_actor <~ Py.contains "actor" p ;;
    if has_actor then a <~ Py.getitem p "actor" ;; Ok (Some a) else Ok None
  else Ok None.

(** Strategy 2: [workflow.triggering_actor]; an object gives its login,
    or else its name; anything else is taken as it is. *)
Definition triggering_actor (workflow : pyval) : res (option pyval) :=
  present <~ Py.contains "triggering_actor" workflow ;;
  if present then
    ta <~ Py.getitem workflow "triggering_actor" ;;
    match ta with
    | PDict d =>
        let login := match Py.lookup "login" d with Some v => v | None => PNone end in
        let name := match Py.lookup "name" d with Some v => v | None => PNone end in
        Ok (Some (if Py.truthy login then login else name))
    | _ => Ok (Some ta)
    end
  else Ok None.

(** Strategy 3: [sender.login]. *)
Definition sender_login (sender : pyval) : res (option pyval) :=
  if Py.truthy sender then v <~ Py.get sender "login" PNone ;; Ok (Some v)
  else Ok None.

(** [x.login] of the object under key [k] of a fetched run; [None] when
    the run has no such key. *)
Definition login_under (k : string) (run : pyval) : res (option pyval) :=
  present <~ Py.contains k run ;;
  if present then
    x <~ Py.getitem run k ;;
    v <~ Py.get x "login" PNone ;;
    Ok (Some v)
  else Ok None.

(** Reading of a fetched run as the code does it: the run's
    [triggering_actor] key decides; [actor] is used only when the run has
    no [triggering_actor] key. *)
Definition run_identity (run : pyval) : res (option pyval) :=
  if Py.truthy run then
    ta <~ login_under "triggering_actor" run ;;
    match ta with
    | Some v => Ok (Some v)
    | None => login_under "actor" run
    end
  else Ok None.

(** Reading of a fetched run as the claim words it: the login of the
    triggering actor is preferred, and then the login of the actor. *)
Definition claimed_run_identity (run : pyval) : res (option pyval) :=
  if Py.truthy run then
    ta <~ login_under "triggering_actor" run ;;
    a <~ login_under "actor" run ;;
    match ta, a with
    | Some v, Some w => Ok (Some (Py.or_ v w))
    | Some v, None => Ok (Some v)
    | None, o => Ok o
    end
  else Ok None.

Section Chain.

Variable net : network.
Variable github_client : GitHubClient.

(** Strategy 4: with a run id and the repository's owner and name, the
    workflow run fetched through the gateway, read by [read_run]. *)
Definition network_fallback (read_run : pyval -> res (option pyval))
  (webhook_payload run_id : pyval) : M (option pyval) :=
  if Py.truthy run_id then
    repository <- lift (Py.get webhook_payload "repository" (PDict [])) ;;
    owner <- lift (Py.get repository "owner" (PDict [])) ;;
    repo_owner <- lift (Py.get owner "login" PNone) ;;
    repo_name <- lift (Py.get repository "name" PNone) ;;
    if Py.truthy repo_owner && Py.truthy repo_name then
      run <- get_workflow_run net github_client repo_owner repo_name run_id ;;
      lift (read_run run)
    else ret None
  else ret None.

(** The ordered chain over a payload. *)
Definition resolution_chain (read_run : pyval -> res (option pyval))
  (webhook_payload : pyval) : M (pyval * pyval) :=
  deployment <- lift (Py.get webhook_payload "deployment" (PDict [])) ;;
  workflow <- lift (Py.get webhook_payload "workflow" (PDict [])) ;;
  sender <- lift (Py.get webhook_payload "sender" (PDict [])) ;;
  run_id <- lift (Py.get workflow "id" PNone) ;;
  initiated_by <-
    first_match [ lift (deployment_actor deployment);
                  lift (triggering_actor workflow);
                  lift (sender_login sender);
                  network_fallback read_run webhook_payload run_id ] PNone ;;
  ret (initiated_by, run_id).

End Chain.

(** Every gateway operation a computation starts satisfies [P]. *)
Definition calls_satisfy {A} (P : gateway_call -> Prop) (m : M A) : Prop :=
  forall c, In c (snd m) -> P c.

(** The gateway operations that submit a decision. *)
Definition is_decision (c : gateway_call) : bool :=
  match c with
  | ApproveDeployment _ _ | RejectDeployment _ _ => true
  | _ => false
  end.



Definition decision_url (c : gateway_call) : pyval :=
  match c with
  | ApproveDeployment u _ | RejectDeployment u _ => u
  | _ => PNone
  end.

(** The request passed the event filter: its body is a JSON object whose
    [action] is [requested], under the right event header. *)
Definition passed_filter (req : HttpRequest) (body : list (string * pyval))
  : Prop :=
  get_json req = inr (PDict body)
  /\ headers_get req "X-GitHub-Event" = Some "deployment_protection_rule"
  /\ Py.lookup "action" body = Some (PStr "requested").

(** The request reaches the decision: it parses, passes the signature
    step, finds a token and passes the filter. *)
Definition reaches_decision (env : environ) (req : HttpRequest)
  (body : list (string * pyval)) (tok : string) : Prop :=
  passed_filter req body
  /\ check_signature env req = Ok true
  /\ GITHUB_TOKEN env = Some tok /\ tok <> "".

(** The authorized identity the handler uses. *)
Definition authorized_identity (env : environ) : string :=
  match AUTHORIZED_USER env with
  | Some u => u
  | None => "APZW3PRD_BCP"
  end.

(** The value under [k] of a JSON object, [default] when absent. *)
Definition field (k : string) (body : list (string * pyval)) (default : pyval)
  : pyval :=
  match Py.lookup k body with
  | Some v => v
  | None => default
  end.

(** The event has the objects the handler reads fields from. *)
Definition well_formed (body : list (string * pyval)) : Prop :=
  (exists d, field "deployment" body (PDict []) = PDict d)
  /\ (exists w, field "workflow" body (PDict []) = PDict w)
  /\ (exists r o, field "repository" body (PDict []) = PDict r
                  /\ field "owner" r (PDict []) = PDict o).

(** The fields of an event the handler works with. *)
Definition environment_of (body : list (string * pyval)) : pyval :=
  match field "deployment" body (PDict []) with
  | PDict d => field "environment" d PNone
  | _ => PNone
  end.

Definition run_id_of (body : list (string * pyval)) : pyval :=
  match field "workflow" body (PDict []) with
  | PDict w => field "id" w PNone
  | _ => PNone
  end.

Definition callback_of (body : list (string * pyval)) : pyval :=
  field "deployment_callback_url" body PNone.

(** The resolution for a request yields a non-empty text whose
    normalized, lower-cased form is [name]. *)
Definition resolves_to (net : network) (tok : string)
  (body : list (string * pyval)) (name : string) : Prop :=
  exists s run_id t,
    resolve_initiator net (new_GitHubClient tok) (PDict body)
    = (Ok (PStr s, run_id), t)
    /\ s <> ""
    /\ PyStr.lower (extractUsername s) = name.

(** The environment with [AUTHORIZED_USER] set to [user]. *)
Definition with_authorized_user (env : environ) (user : string) : environ :=
  {| GITHUB_WEBHOOK_SECRET := GITHUB_WEBHOOK_SECRET env;
     GITHUB_TOKEN := GITHUB_TOKEN env;
     AUTHORIZED_USER := Some user |}.

(** Exceptions a computation can raise, and values it can return. *)
Definition res_raises {A} (P : exn -> Prop) (r : res A) : Prop :=
  forall e, r = Raise e -> P e.

Definition raises {A} (P : exn -> Prop) (m : M A) : Prop :=
  forall e, fst m = Raise e -> P e.

Definition returns {A} (Q : A -> Prop) (m : M A) : Prop :=
  forall a, fst m = Ok a -> Q a.

Definition not_value_error (e : exn) : Prop := exn_kind e <> ValueError.

(** [e] is raised by one of the three operations the handler itself
    calls on the client with token [tok]. *)
Definition gateway_raises (net : network) (tok : string) (e : exn) : Prop :=
  (exists u c,
     approve_deployment_body net (new_GitHubClient tok) u c = Raise e)
  \/ (exists u c,
        reject_deployment_body net (new_GitHubClient tok) u c = Raise e)
  \/ (exists o n i m,
        add_workflow_summary_error_body net (new_GitHubClient tok) o n i m
        = Raise e).

(** What the handler can raise past the decoding of the request: no
    [ValueError], unless the gateway raises it. *)
Definition past_decoding (net : network) (tok : string) (e : exn) : Prop :=
  not_value_error e \/ gateway_raises net tok e.

(** The responses of the handler that are no answer to an exception,
    with their documented status codes. *)
Inductive outcome : HttpResponse -> Prop :=
| BadSignature :
    outcome (json_response [("error", PStr "Invalid signature")] 401)
| MissingToken :
    outcome (json_response
               [("error", PStr "GitHub configuration is missing (GITHUB_TOKEN)")]
               500)
| Skipped :
    outcome (json_response
               [("message",
                 PStr "Not a deployment protection rule request, skipping")]
               200)
| Rejected (reason : string) (initiated_by : pyval) (authorized : string)
    (rejection_result : pyval) :
    outcome (json_response
               [ ("status", PStr "rejected");
                 ("reason", PStr reason);
                 ("initiated_by", initiated_by);
                 ("authorized_user", PStr authorized);
                 ("rejection_result", rejection_result) ] 200)
| Approved (message : string) (initiated_by environment approval_result : pyval) :
    outcome (json_response
               [ ("status", PStr "approved");
                 ("message", PStr message);
                 ("initiated_by", initiated_by);
                 ("environment", environment);
                 ("approval_result", approval_result) ] 200).

(** A text without the three delimiters and without surrounding white
    space, as GitHub logins are. *)
Definition is_plain (s : string) : bool :=
  negb (PyStr.has_char "@" s) && negb (PyStr.has_char "\" s)
  && negb (PyStr.has_char "/" s) && String.eqb (PyStr.strip s) s.

(** The response completed: its status is outside 400-599. *)
Definition completes (r : Response) : bool :=
  negb ((400 <=? status_code r) && (status_code r <? 600)).

(** The headers every request of a client with token [tok] carries. *)
Definition bearer_headers (tok : string) : list (string * string) :=
  [ ("Authorization", "Bearer " ++ tok);
    ("Accept", "application/vnd.github+json");
    ("X-GitHub-Api-Version", "2022-11-28") ].

(** The address of a workflow run in the REST API. *)
Definition run_address (repo_owner repo_name run_id : pyval) : string :=
  "https://api.github.com/repos/" ++ Py.str repo_owner ++ "/"
  ++ Py.str repo_name ++ "/actions/runs/" ++ Py.str run_id.

(** The addresses of the other endpoints the client uses. *)
Definition jobs_address (repo_owner repo_name run_id : pyval) : string :=
  "https://api.github.com/repos/" ++ Py.str repo_owner ++ "/"
  ++ Py.str repo_name ++ "/actions/runs/" ++ Py.str run_id ++ "/jobs".

Definition cancel_address (repo_owner repo_name run_id : pyval) : string :=
  "https://api.github.com/repos/" ++ Py.str repo_owner ++ "/"
  ++ Py.str repo_name ++ "/actions/runs/" ++ Py.str run_id ++ "/cancel".

Definition user_address (username : pyval) : string :=
  "https://api.github.com/users/" ++ Py.str username.

(** The message of the [HTTPError] of a response that did not complete. *)
Definition http_error (r : Response) : string :=
  match Requests.raise_for_status r with
  | Raise e => exn_str e
  | Ok _ => ""
  end.

(** The uses of the gateway in one request, in order: at most one fetch
    of the workflow run, then one decision, then, after a rejection only,
    at most one summary step with the comment of the rejection. *)
Inductive fetch_part : list gateway_call -> Prop :=
| no_fetch : fetch_part []
| one_fetch (o n i : pyval) : fetch_part [GetWorkflowRun o n i].

Inductive handler_trace : list gateway_call -> Prop :=
| trace_idle : handler_trace []
| trace_approve (f : list gateway_call) (u : pyval) (m : string) :
    fetch_part f -> handler_trace (f ++ [ApproveDeployment u m])
| trace_reject (f : list gateway_call) (u : pyval) (m : string) :
    fetch_part f -> handler_trace (f ++ [RejectDeployment u m])
| trace_reject_summary (f : list gateway_call) (u : pyval) (m : string)
    (o n i : pyval) :
    fetch_part f ->
    handler_trace (f ++ [RejectDeployment u m; AddWorkflowSummaryError o n i m]).

(** The error object of a decision that could not be submitted. *)
Definition decision_error (verb msg : string) : pyval :=
  PDict [("error", PStr ("Error " ++ verb ++ " deployment: " ++ msg))].

(** What an operation of the gateway does with an exception of the
    transport or of the decoder: a [RequestException] is answered by
    [h e], every other exception reaches the caller. *)
Definition gateway_catch (h : exn -> pyval) (e : exn) : res pyval :=
  match exn_kind e with
  | RequestException => Ok (h e)
  | _ => Raise e
  end.

(** The exception of the connection layer for a text address, if any:
    none under the API root. *)
Definition refusal (net : network) (address : string) : option exn :=
  if Requests.under_api address then None else host_error net address.

(** What a decision does for the answer of the network to its POST: the
    decoded body, the synthetic status object for an empty body, the
    error object for a [RequestException]; every other exception of the
    connection layer or of the decoder is raised. *)
Definition decision_result (state verb : string) (refused : option exn)
  (answer : string + Response) : res pyval :=
  let failed := fun e => decision_error verb (exn_str e) in
  match refused with
  | Some e => gateway_catch failed e
  | None =>
      match answer with
      | inl msg => Ok (decision_error verb msg)
      | inr response =>
          if completes response then
            if String.eqb (text response) ""
            then Ok (PDict [("status", PStr state)])
            else match json_result response with
                 | inr v => Ok v
                 | inl e => gateway_catch failed e
                 end
          else Ok (decision_error verb (http_error response))
      end
  end.

(** The answer of the handler to an exception of its [try] block. *)
Definition error_answer (e : exn) : HttpResponse :=
  match exn_kind e with
  | ValueError =>
      json_response
        [("error", PStr ("Invalid request body: " ++ exn_str e))] 400
  | _ =>
      json_response
        [("error",
          PStr ("Unexpected error processing webhook: " ++ exn_str e))] 500
  end.

(** The two answers to a decided request. *)
Definition approved_answer (message : string)
  (initiated_by environment approval_result : pyval) : HttpResponse :=
  json_response
    [ ("status", PStr "approved");
      ("message", PStr message);
      ("initiated_by", initiated_by);
      ("environment", environment);
      ("approval_result", approval_result) ] 200.

Definition rejected_answer (reason : string) (initiated_by : pyval)
  (authorized : string) (rejection_result : pyval) : HttpResponse :=
  json_response
    [ ("status", PStr "rejected");
      ("reason", PStr reason);
      ("initiated_by", initiated_by);
      ("authorized_user", PStr authorized);
      ("rejection_result", rejection_result) ] 200.

(** White space as the trimming step understands it, by code point:
    tab to carriage return, the four separators, space, next line and
    the no-break space. *)
Definition white_space : list Z :=
  [9; 10; 11; 12; 13; 28; 29; 30; 31; 32; 133; 160].

Definition is_white (c : ascii) : bool :=
  existsb (Z.eqb (PyStr.code c)) white_space.

Fixpoint all_white (s : string) : bool :=
  match s with
  | EmptyString => true
  | String c r => is_white c && all_white r
  end.

Definition starts_white (s : string) : bool :=
  match s with
  | EmptyString => false
  | String c _ => is_white c
  end.

Definition ends_white (s : string) : bool :=
  match last_char s with
  | Some c => is_white c
  | None => false
  end.

(** [u] is [s] without its surrounding white space: [s] is [u] between
    two runs of white space, and [u] neither starts nor ends with white
    space. *)
Definition trimmed (s u : string) : Prop :=
  exists l t,
    s = l ++ u ++ t
    /\ all_white l = true /\ all_white t = true
    /\ starts_white u = false /\ ends_white u = false.

(** The three cuts of the normalization, before the trimming. *)
Definition cut_delimiters (raw : string) : string :=
  when_present "/" (after_last "/")
    (when_present "\" (after_last "\")
       (when_present "@" (before_first "@") raw)).

End Spec.

(* ===================================================================== *)
(** * Sample inputs                                                       *)
(* ===================================================================== *)

Module Sample.

(** A network that is down. *)
Definition no_scheme (u : pyval) : string :=
  "Invalid URL " ++ PyStr.repr (Py.str u)
  ++ ": No scheme supplied. Perhaps you meant https://" ++ Py.str u ++ "?".

Definition offline : network :=
  {| requests_get := fun _ _ => inl "connection refused";
     requests_post := fun _ _ _ => inl "connection refused";
     url_error := no_scheme;
     host_error := fun _ => None |}.

Definition ok_response (t : string) (j : pyval) : Response :=
  {| status_code := 200; reason := "OK"; url := "https://api.github.com";
     text := t; json_result := inr j |}.

(** A network where every GET answers 200 with the JSON value [j] (as
    text [t]) and every POST answers 200 with an empty body. *)
Definition answering (t : string) (j : pyval) : network :=
  {| requests_get := fun _ _ => inr (ok_response t j);
     requests_post :=
       fun _ _ _ =>
         inr {| status_code := 204; reason := "No Content";
                url := "https://api.github.com"; text := "";
                json_result :=
                  inl (Exn RequestException
                         "Expecting value: line 1 column 1 (char 0)") |};
     url_error := no_scheme;
     host_error := fun _ => None |}.

Definition client : GitHubClient := new_GitHubClient "ghp_token".

(** Token configured, no webhook secret, no authorized user. *)
Definition env_default : environ :=
  {| GITHUB_WEBHOOK_SECRET := None;
     GITHUB_TOKEN := Some "ghp_token";
     AUTHORIZED_USER := None |}.

Definition env_secret : environ :=
  {| GITHUB_WEBHOOK_SECRET := Some "s3cret";
     GITHUB_TOKEN := Some "ghp_token";
     AUTHORIZED_USER := Some "carol" |}.

(** A request carrying the JSON object [body] under the event header
    [event]. *)
Definition event_request (event : string) (body : list (string * pyval))
  : HttpRequest :=
  {| req_headers := [("x-github-event", event)];
     get_body := [];
     get_json := inr (PDict body) |}.

Definition protection_request (body : list (string * pyval)) : HttpRequest :=
  event_request "deployment_protection_rule" body.

(** A well-formed event sent by [login] for run 7 of [octo/app]. *)
Definition event_of (login : string) : list (string * pyval) :=
  [ ("action", PStr "requested");
    ("deployment_callback_url", PStr "https://api.github.com/cb/1");
    ("deployment", PDict [("environment", PStr "production")]);
    ("workflow", PDict [("id", PInt 7)]);
    ("repository", PDict [ ("full_name", PStr "octo/app");
                           ("name", PStr "app");
                           ("owner", PDict [("login", PStr "octo")]) ]);
    ("sender", PDict [("login", PStr login)]) ].

(** The same event without sender, so that only the run API can tell
    who started it. *)
Definition event_without_sender : pyval :=
  PDict [ ("action", PStr "requested");
          ("workflow", PDict [("id", PInt 7)]);
          ("repository", PDict [ ("name", PStr "app");
                                 ("owner", PDict [("login", PStr "octo")]) ]) ].

(** A fetched run whose triggering actor has no login, while its actor
    has one. *)
Definition run_without_trigger_login : pyval :=
  PDict [ ("triggering_actor", PDict [("name", PStr "Bob B.")]);
          ("actor", PDict [("login", PStr "bob")]) ].

(** An event with the filter's fields only: no callback URL. *)
Definition event_without_callback : list (string * pyval) :=
  [ ("action", PStr "requested") ].

(** The one-character text U+00E9. *)
Definition e_acute : string := String (PyStr.chr 233) EmptyString.

(** A request with body [{}] that carries [signature] as its signature
    header. *)
Definition signed_request (signature : string) : HttpRequest :=
  {| req_headers := [ ("x-github-event", "deployment_protection_rule");
                      ("x-hub-signature-256", signature) ];
     get_body := list_byte_of_string "{}";
     get_json := inr (PDict []) |}.

(** The host of an address: what stands between the two slashes after
    the scheme and the next slash. *)
Definition host_of (address : string) : string :=
  nth 2 (PyStr.split "/" address) EmptyString.

(** A host the connection layer cannot use: one of its labels is empty
    or longer than 63 characters. *)
Definition bad_label (label : string) : bool :=
  (String.length label =? 0)%nat || (63 <? String.length label)%nat.

Definition unusable_host (host : string) : bool :=
  existsb bad_label (PyStr.split "." host).

(** A network without connection, whose connection layer first looks at
    the host. *)
Definition unreachable : network :=
  {| requests_get := fun _ _ => inl "connection refused";
     requests_post := fun _ _ _ => inl "connection refused";
     url_error := no_scheme;
     host_error :=
       fun address =>
         if negb (String.eqb (host_of address) "")
            && unusable_host (host_of address)
         then Some (Exn ValueError
                      ("Failed to parse: '" ++ host_of address
                       ++ "', label empty or too long"))
         else None |}.

(** An address whose host has a label of 64 characters. *)
Definition long_label_address : string :=
  "http://aaaaaaaaaaaaaaaaaaaaaaaaaaaaaaaaaaaaaaaaaaaaaaaaaaaaaaaaaaaaaaaa.com/cb".

(** The event of [event_of], with its callback at [address]. *)
Definition event_at (address login : string) : list (string * pyval) :=
  [ ("action", PStr "requested");
    ("deployment_callback_url", PStr address);
    ("deployment", PDict [("environment", PStr "production")]);
    ("workflow", PDict [("id", PInt 7)]);
    ("repository", PDict [ ("full_name", PStr "octo/app");
                           ("name", PStr "app");
                           ("owner", PDict [("login", PStr "octo")]) ]);
    ("sender", PDict [("login", PStr login)]) ].

(** A request whose body is nested deeper than the decoder goes. *)
Definition nested_request : HttpRequest :=
  {| req_headers := [("x-github-event", "deployment_protection_rule")];
     get_body := repeat "["%byte 2000;
     get_json :=
       inl (Exn RecursionError
              "maximum recursion depth exceeded while decoding a JSON array from a unicode string") |}.

(** A text with white space around it: a tab and a space before, a
    space and a line feed after. *)
Definition padded (s : string) : string :=
  String (PyStr.chr 9) (" " ++ s ++ " " ++ String (PyStr.chr 10) EmptyString).

(** A request whose body is no JSON. *)
Definition garbled_request : HttpRequest :=
  {| req_headers := [("x-github-event", "deployment_protection_rule")];
     get_body := list_byte_of_string "{";
     get_json :=
       inl (Exn ValueError
              "Expecting property name enclosed in double quotes: line 1 column 2 (char 1)") |}.

End Sample.

(* ===================================================================== *)
(** * Basic facts: computations                                           *)
(* ===================================================================== *)

Lemma bind_ok_inv {A B} (m : M A) (f : A -> M B) (b : B) (t : list gateway_call) :
  bind m f = (Ok b, t) ->
  exists a t1 t2, m = (Ok a, t1) /\ f a = (Ok b, t2) /\ t = (t1 ++ t2)%list.
Proof.
  unfold bind. destruct m as [[a|e] t1]; [|discriminate].
  destruct (f a) as [r t2] eqn:Hf. intros H; inversion H; subst.
  exists a, t1, t2. auto.
Qed.

Lemma bind_lift {A B} (r : res A) (f : A -> M B) :
  bind (lift r) f = match r with Ok a => f a | Raise e => (Raise e, []) end.
Proof.
  unfold bind, lift. destruct r as [a|e]; [|reflexivity].
  destruct (f a); reflexivity.
Qed.

Lemma bind_ret {A B} (a : A) (f : A -> M B) : bind (ret a) f = f a.
Proof. unfold bind, ret. destruct (f a); reflexivity. Qed.

Lemma bind_calls {A B} (m : M A) (f : A -> M B) (c : gateway_call) :
  In c (snd (bind m f)) ->
  In c (snd m) \/ exists a, fst m = Ok a /\ In c (snd (f a)).
Proof.
  unfold bind. destruct m as [[a|e] t]; simpl.
  - destruct (f a) as [r t'] eqn:Hf. simpl. intros H.
    apply in_app_or in H. destruct H as [H|H]; [left; exact H|].
    right. exists a. rewrite Hf. auto.
  - auto.
Qed.

Lemma lift_calls {A} (r : res A) : snd (lift r) = [].
Proof. reflexivity. Qed.

(* ===================================================================== *)
(** * Basic facts: text                                                   *)
(* ===================================================================== *)

Lemma contains_char (c : ascii) (s : string) :
  PyStr.contains (String c EmptyString) s = PyStr.has_char c s.
Proof.
  induction s as [|a r IH]; [reflexivity|].
  cbn [PyStr.contains PyStr.has_char prefix]. rewrite IH.
  destruct (ascii_dec c a) as [->|Hne].
  - rewrite Ascii.eqb_refl. destruct r; reflexivity.
  - destruct (Ascii.eqb a c) eqn:E; [|reflexivity].
    apply Ascii.eqb_eq in E. congruence.
Qed.

Lemma split_cons (c : ascii) (s : string) :
  exists h t, PyStr.split c s = h :: t.
Proof.
  induction s as [|a r IH]; cbn [PyStr.split]; [eauto|].
  destruct (Ascii.eqb a c); [eauto|].
  destruct IH as (h & t & ->). eauto.
Qed.

Lemma hd_split (c : ascii) (s : string) :
  hd EmptyString (PyStr.split c s) = Spec.before_first c s.
Proof.
  induction s as [|a r IH]; [reflexivity|].
  cbn [PyStr.split Spec.before_first].
  destruct (Ascii.eqb a c); [reflexivity|].
  destruct (split_cons c r) as (h & t & E). rewrite E in *.
  cbn in *. congruence.
Qed.

Lemma split_no_sep (c : ascii) (s : string) :
  PyStr.has_char c s = false -> PyStr.split c s = [s].
Proof.
  induction s as [|a r IH]; [reflexivity|].
  cbn [PyStr.has_char PyStr.split]. intros H.
  apply orb_false_iff in H. destruct H as [Ha Hr].
  rewrite Ha, (IH Hr). reflexivity.
Qed.

Lemma last_split (c : ascii) (s : string) :
  last (PyStr.split c s) EmptyString = Spec.after_last c s.
Proof.
  induction s as [|a r IH]; [reflexivity|].
  cbn [PyStr.split Spec.after_last].
  destruct (split_cons c r) as (h & t & E).
  destruct (PyStr.has_char c r) eqn:Hr.
  - rewrite <- IH, E. destruct (Ascii.eqb a c).
    + reflexivity.
    + destruct t; [|reflexivity].
      (* a single piece would mean no separator in [r] *)
      exfalso. clear IH.
      assert (Hone : forall s, PyStr.has_char c s = true ->
                forall x, PyStr.split c s <> [x]).
      { clear. induction s as [|b u IHu]; [discriminate|].
        cbn [PyStr.has_char PyStr.split]. intros H x.
        destruct (Ascii.eqb b c) eqn:Eb.
        - destruct (split_cons c u) as (h & t & ->). discriminate.
        - simpl in H. specialize (IHu H).
          destruct (split_cons c u) as (h & t & Eu). rewrite Eu.
          destruct t; [|discriminate]. exfalso. apply (IHu h). exact Eu. }
      apply (Hone r Hr h). exact E.
  - rewrite (split_no_sep c r Hr). destruct (Ascii.eqb a c); reflexivity.
Qed.

(** [_extract_username] on a text is the specification's
    [extractUsername]. *)
Lemma extract_username_text (s : string) :
  _extract_username (PStr s) = Ok (PStr (Spec.extractUsername s)).
Proof.
  unfold _extract_username, Spec.extractUsername, Spec.when_present.
  destruct s as [|a r]; [reflexivity|].
  cbn [Py.truthy String.eqb negb Py.contains rbind].
  rewrite !contains_char.
  set (s := String a r).
  destruct (PyStr.has_char "@" s);
    cbn [Py.split_first rbind Py.contains]; rewrite ?hd_split, !contains_char.
  - set (s1 := Spec.before_first "@" s).
    destruct (PyStr.has_char "\" s1);
      cbn [Py.split_last rbind Py.contains]; rewrite ?last_split, !contains_char.
    + set (s2 := Spec.after_last "\" s1).
      destruct (PyStr.has_char "/" s2);
        cbn [Py.split_last rbind Py.strip]; rewrite ?last_split; reflexivity.
    + destruct (PyStr.has_char "/" s1);
        cbn [Py.split_last rbind Py.strip]; rewrite ?last_split; reflexivity.
  - destruct (PyStr.has_char "\" s);
      cbn [Py.split_last rbind Py.contains]; rewrite ?last_split, !contains_char.
    + set (s2 := Spec.after_last "\" s).
      destruct (PyStr.has_char "/" s2);
        cbn [Py.split_last rbind Py.strip]; rewrite ?last_split; reflexivity.
    + destruct (PyStr.has_char "/" s);
        cbn [Py.split_last rbind Py.strip]; rewrite ?last_split; reflexivity.
Qed.

(** The two cutting functions are determined by these decompositions. *)
Lemma before_first_decomposes (c : ascii) (s : string) :
  PyStr.has_char c s = true ->
  PyStr.has_char c (Spec.before_first c s) = false
  /\ exists rest, s = Spec.before_first c s ++ String c rest.
Proof.
  induction s as [|a r IH]; [discriminate|].
  cbn [PyStr.has_char Spec.before_first]. intros H.
  destruct (Ascii.eqb a c) eqn:E.
  - apply Ascii.eqb_eq in E. subst a. split; [reflexivity|]. exists r. reflexivity.
  - simpl in H. destruct (IH H) as [Hn [rest Hr]].
    cbn [PyStr.has_char]. rewrite E, Hn. split; [reflexivity|].
    exists rest. cbn [append]. congruence.
Qed.

Lemma after_last_decomposes (c : ascii) (s : string) :
  PyStr.has_char c s = true ->
  PyStr.has_char c (Spec.after_last c s) = false
  /\ exists front, s = front ++ String c (Spec.after_last c s).
Proof.
  induction s as [|a r IH]; [discriminate|].
  cbn [PyStr.has_char Spec.after_last]. intros H.
  destruct (PyStr.has_char c r) eqn:Hr.
  - destruct (IH eq_refl) as [Hn [front Hf]]. split; [exact Hn|].
    exists (String a front). cbn [append]. congruence.
  - rewrite orb_false_r in H. rewrite H. apply Ascii.eqb_eq in H. subst a.
    split; [exact Hr|]. exists EmptyString. reflexivity.
Qed.

(** [strip] removes white space at both ends and nothing else. *)
Lemma lstrip_decomposes (s : string) :
  exists l, s = l ++ PyStr.lstrip s /\ Spec.all_space l = true.
Proof.
  induction s as [|c r IH].
  - exists EmptyString. split; reflexivity.
  - cbn [PyStr.lstrip]. destruct (PyStr.is_space c) eqn:E.
    + destruct IH as (l & Hl & Hs). exists (String c l). split.
      * cbn [append]. congruence.
      * cbn [Spec.all_space]. rewrite E, Hs. reflexivity.
    + exists EmptyString. split; reflexivity.
Qed.

Lemma rstrip_decomposes (s : string) :
  exists t, s = PyStr.rstrip s ++ t /\ Spec.all_space t = true.
Proof.
  induction s as [|c r IH].
  - exists EmptyString. split; reflexivity.
  - cbn [PyStr.rstrip]. destruct IH as (t & Ht & Hs).
    destruct (PyStr.rstrip r) as [|a r'] eqn:Er.
    + cbn [append] in Ht. subst t. destruct (PyStr.is_space c) eqn:E.
      * exists (String c r). split; [reflexivity|].
        cbn [Spec.all_space]. rewrite E, Hs. reflexivity.
      * exists r. split; [reflexivity|exact Hs].
    + exists t. split; [|exact Hs]. cbn [append] in *. congruence.
Qed.

Lemma rstrip_ends_clean (s : string) :
  match Spec.last_char (PyStr.rstrip s) with
  | Some c => PyStr.is_space c = false
  | None => True
  end.
Proof.
  induction s as [|c r IH]; [exact I|].
  cbn [PyStr.rstrip]. destruct (PyStr.rstrip r) as [|a r'] eqn:Er.
  - destruct (PyStr.is_space c) eqn:E; [exact I|exact E].
  - exact IH.
Qed.

Lemma strip_starts_clean (s : string) :
  match PyStr.strip s with
  | EmptyString => True
  | String c _ => PyStr.is_space c = false
  end.
Proof.
  unfold PyStr.strip.
  assert (Hl : match PyStr.lstrip s with
               | EmptyString => True
               | String c _ => PyStr.is_space c = false
               end).
  { induction s as [|a r IH]; [exact I|].
    cbn [PyStr.lstrip]. destruct (PyStr.is_space a) eqn:E; [exact IH|exact E]. }
  destruct (PyStr.lstrip s) as [|a r]; [exact I|].
  cbn [PyStr.rstrip]. destruct (PyStr.rstrip r); [|exact Hl].
  rewrite Hl. exact Hl.
Qed.

Lemma strip_decomposes (s : string) :
  exists l t, s = l ++ PyStr.strip s ++ t
              /\ Spec.all_space l = true /\ Spec.all_space t = true.
Proof.
  destruct (lstrip_decomposes s) as (l & Hl & Hsl).
  destruct (rstrip_decomposes (PyStr.lstrip s)) as (t & Ht & Hst).
  exists l, t. unfold PyStr.strip. rewrite <- Ht. auto.
Qed.

Lemma strip_ends_clean (s : string) :
  match Spec.last_char (PyStr.strip s) with
  | Some c => PyStr.is_space c = false
  | None => True
  end.
Proof. apply rstrip_ends_clean. Qed.

(** White space, character by character, is the listed code points. *)
Lemma is_space_white (c : ascii) : PyStr.is_space c = Spec.is_white c.
Proof. destruct c as [[] [] [] [] [] [] [] []]; vm_compute; reflexivity. Qed.

Lemma all_space_white (s : string) : Spec.all_space s = Spec.all_white s.
Proof.
  induction s as [|c r IH]; [reflexivity|].
  cbn [Spec.all_space Spec.all_white]. rewrite is_space_white, IH. reflexivity.
Qed.

(** [strip] gives the trimmed text. *)
Lemma strip_trims (s : string) : Spec.trimmed s (PyStr.strip s).
Proof.
  destruct (strip_decomposes s) as (l & t & Hs & Hl & Ht).
  exists l, t. rewrite <- !all_space_white. repeat split; try assumption.
  - pose proof (strip_starts_clean s) as H. unfold Spec.starts_white.
    destruct (PyStr.strip s) as [|c r]; [reflexivity|].
    rewrite <- is_space_white. exact H.
  - pose proof (strip_ends_clean s) as H. unfold Spec.ends_white.
    destruct (Spec.last_char (PyStr.strip s)) as [c|]; [|reflexivity].
    rewrite <- is_space_white. exact H.
Qed.

Lemma lstrip_white (l x : string) :
  Spec.all_white l = true -> PyStr.lstrip (l ++ x) = PyStr.lstrip x.
Proof.
  induction l as [|c r IH]; [reflexivity|].
  cbn [Spec.all_white append PyStr.lstrip]. intros H.
  apply andb_true_iff in H. destruct H as [Hc Hr].
  rewrite is_space_white, Hc. apply IH. exact Hr.
Qed.

Lemma lstrip_all_white (t : string) :
  Spec.all_white t = true -> PyStr.lstrip t = EmptyString.
Proof.
  induction t as [|c r IH]; [reflexivity|].
  cbn [Spec.all_white PyStr.lstrip]. intros H.
  apply andb_true_iff in H. destruct H as [Hc Hr].
  rewrite is_space_white, Hc. apply IH. exact Hr.
Qed.

Lemma rstrip_all_white (t : string) :
  Spec.all_white t = true -> PyStr.rstrip t = EmptyString.
Proof.
  induction t as [|c r IH]; [reflexivity|].
  cbn [Spec.all_white PyStr.rstrip]. intros H.
  apply andb_true_iff in H. destruct H as [Hc Hr].
  rewrite (IH Hr), is_space_white, Hc. reflexivity.
Qed.

Lemma rstrip_between (u t : string) :
  Spec.ends_white u = false -> Spec.all_white t = true ->
  PyStr.rstrip (u ++ t) = u.
Proof.
  intros Hu Ht. induction u as [|c r IH].
  - apply rstrip_all_white. exact Ht.
  - cbn [append PyStr.rstrip]. destruct r as [|a r'].
    + cbn [append]. rewrite (rstrip_all_white t Ht).
      unfold Spec.ends_white in Hu. cbn [Spec.last_char] in Hu.
      rewrite is_space_white, Hu. reflexivity.
    + rewrite IH; [reflexivity|]. exact Hu.
Qed.

(** The trimmed text is determined: it is what [strip] gives. *)
Lemma trimmed_strip (s u : string) : Spec.trimmed s u -> u = PyStr.strip s.
Proof.
  intros (l & t & -> & Hl & Ht & Hstart & Hend).
  unfold PyStr.strip. rewrite (lstrip_white l (u ++ t) Hl).
  destruct u as [|c r].
  - cbn [append]. rewrite (lstrip_all_white t Ht). reflexivity.
  - cbn [append PyStr.lstrip]. cbn [Spec.starts_white] in Hstart.
    rewrite is_space_white, Hstart.
    symmetry. apply (rstrip_between (String c r) t Hend Ht).
Qed.

(* ===================================================================== *)
(** * Signature verification                                              *)
(* ===================================================================== *)

Lemma hex_digit_ascii (b : byte) :
  PyStr.is_ascii_char (Hmac.hex_digit (Sha256.byte_val b / 16)) = true
  /\ PyStr.is_ascii_char (Hmac.hex_digit (Sha256.byte_val b mod 16)) = true.
Proof. destruct b; split; reflexivity. Qed.

Lemma hexdigest_ascii (bs : list byte) : PyStr.isascii (Hmac.hexdigest bs) = true.
Proof.
  induction bs as [|b r IH]; [reflexivity|].
  cbn [Hmac.hexdigest PyStr.isascii].
  destruct (hex_digit_ascii b) as [H1 H2]. rewrite H1, H2, IH. reflexivity.
Qed.

Lemma expected_signature_ascii (body : list byte) (secret : string) :
  PyStr.isascii (Spec.expected_signature body secret) = true.
Proof. unfold Spec.expected_signature. cbn. apply hexdigest_ascii. Qed.

(** Absent or empty header: [False]. *)
Lemma verify_signature_without_header (body : list byte) (secret : string) :
  verify_signature body None secret = Ok false
  /\ verify_signature body (Some "") secret = Ok false.
Proof. split; reflexivity. Qed.

(** A header made of ASCII characters: the comparison with the expected
    signature. *)
Lemma verify_signature_ascii_header (body : list byte) (secret h : string) :
  h <> "" -> PyStr.isascii h = true ->
  verify_signature body (Some h) secret
  = Ok (String.eqb (Spec.expected_signature body secret) h).
Proof.
  intros Hne Ha. unfold verify_signature.
  destruct (String.eqb h "") eqn:E; [apply String.eqb_eq in E; contradiction|].
  unfold compare_digest. fold (Spec.expected_signature body secret).
  rewrite expected_signature_ascii, Ha. reflexivity.
Qed.

(** A header with a character outside ASCII: the comparison raises. *)
Lemma verify_signature_other_header (body : list byte) (secret h : string) :
  PyStr.isascii h = false ->
  verify_signature body (Some h) secret
  = Raise (Exn TypeError
             "comparing strings with non-ASCII characters is not supported").
Proof.
  intros Ha. unfold verify_signature.
  destruct (String.eqb h "") eqn:E.
  - apply String.eqb_eq in E. subst h. discriminate.
  - unfold compare_digest. rewrite Ha, andb_false_r. reflexivity.
Qed.

(** [True] is returned for the expected signature and for no other
    header. *)
Lemma verify_signature_true_iff (body : list byte) (secret h : string) :
  verify_signature body (Some h) secret = Ok true
  <-> h = Spec.expected_signature body secret.
Proof.
  destruct (String.eqb h "") eqn:E.
  { apply String.eqb_eq in E. subst h. split; discriminate. }
  assert (Hne : h <> "") by (intros ->; discriminate).
  destruct (PyStr.isascii h) eqn:Ha.
  - rewrite (verify_signature_ascii_header body secret Hne Ha). split.
    + intros H.
      destruct (String.eqb (Spec.expected_signature body secret) h) eqn:E';
        [|discriminate].
      apply String.eqb_eq in E'. congruence.
    + intros ->. rewrite String.eqb_refl. reflexivity.
  - rewrite (verify_signature_other_header body secret h Ha). split.
    + discriminate.
    + intros ->. rewrite expected_signature_ascii in Ha. discriminate.
Qed.

(** C2, at the input where the code leaves it: with a signature header
    that has a character outside ASCII, [verify_signature] returns neither
    [True] nor [False] but raises [TypeError], and the handler answers 500
    where a failed check answers 401. *)
Theorem verify_signature_non_ascii_header :
  verify_signature (list_byte_of_string "{}") (Some Sample.e_acute) "s3cret"
  = Raise (Exn TypeError
             "comparing strings with non-ASCII characters is not supported")
  /\ response_status
       (fst (approval_webhook Sample.env_secret Sample.offline
               (Sample.signed_request Sample.e_acute))) = 500
  /\ response_status
       (fst (approval_webhook Sample.env_secret Sample.offline
               (Sample.signed_request "sha256=00"))) = 401.
Proof. vm_compute. repeat split; reflexivity. Qed.

(* ===================================================================== *)
(** * Username extraction                                                 *)
(* ===================================================================== *)

(** C9: [_extract_username] applies, in order and each only when its
    delimiter occurs, the cut before the first [@], the cut after the last
    backslash, the cut after the last slash, and then trims white space:
    its result is the cut text without the white space around it, that
    is, the cut text is the result between two runs of white space and
    the result neither starts nor ends with white space, which determines
    it. The five documented examples hold; white space around a name is
    removed, at the ends of the text or left there by a cut, and white
    space inside a name is kept. *)
Theorem extract_username_steps (raw : string) :
  (exists u,
     _extract_username (PStr raw) = Ok (PStr u)
     /\ Spec.trimmed (Spec.cut_delimiters raw) u
     /\ forall u', Spec.trimmed (Spec.cut_delimiters raw) u' -> u' = u)
  /\ _extract_username (PStr "user@example.com") = Ok (PStr "user")
  /\ _extract_username (PStr "DOMAIN\user") = Ok (PStr "user")
  /\ _extract_username (PStr "org/user") = Ok (PStr "user")
  /\ _extract_username (PStr "plainuser") = Ok (PStr "plainuser")
  /\ _extract_username (PStr "") = Ok (PStr "")
  /\ _extract_username (PStr "  user  ") = Ok (PStr "user")
  /\ _extract_username (PStr (Sample.padded "user")) = Ok (PStr "user")
  /\ _extract_username (PStr "CORP\ user @example.com") = Ok (PStr "user")
  /\ _extract_username (PStr " first last ") = Ok (PStr "first last").
Proof.
  split.
  - exists (PyStr.strip (Spec.cut_delimiters raw)). split; [|split].
    + apply extract_username_text.
    + apply strip_trims.
    + intros u' H. apply trimmed_strip. exact H.
  - repeat split; reflexivity.
Qed.

(* ===================================================================== *)
(** * The decision on a resolved initiator                                *)
(* ===================================================================== *)

Section Decision.

Variable net : network.
Variable github_client : GitHubClient.
Variable authorized_user : string.

Lemma truthy_text (s : string) : s <> "" -> Py.truthy (PStr s) = true.
Proof.
  intros Hs. simpl. destruct (String.eqb s "") eqn:E; [|reflexivity].
  apply String.eqb_eq in E. contradiction.
Qed.

Lemma decide_user_text (s : string) (run_id : pyval) :
  s <> "" ->
  decide_user authorized_user (PStr s) run_id
  = Ok (PDict ([ ("is_valid",
                  PBool (Spec.same_user (Spec.extractUsername s)
                           (Spec.extractUsername authorized_user)));
                 ("initiated_by", PStr s);
                 ("username_checked", PStr (Spec.extractUsername s)) ]
               ++ (if Py.truthy run_id then [("run_id", run_id)] else []))).
Proof.
  intros Hs. unfold decide_user.
  rewrite (truthy_text Hs). cbn [negb]. rewrite !extract_username_text.
  cbn [rbind Py.lower]. fold (Spec.same_user (Spec.extractUsername s)
                                (Spec.extractUsername authorized_user)).
  destruct (Py.truthy run_id); [reflexivity|].
  rewrite app_nil_r. reflexivity.
Qed.

Lemma decide_user_empty (v run_id : pyval) :
  Py.truthy v = false ->
  decide_user authorized_user v run_id
  = Ok (PDict [ ("is_valid", PBool false);
                ("initiated_by", PStr "Unknown");
                ("error", PStr "Could not determine deployment initiator") ]).
Proof. intros H. unfold decide_user. rewrite H. reflexivity. Qed.

Lemma validate_after_resolution (payload : pyval) (r : pyval * pyval)
  (t : list gateway_call) (v : pyval) :
  resolve_initiator net github_client payload = (Ok r, t) ->
  decide_user authorized_user (fst r) (snd r) = Ok v ->
  validate_deployment_user net github_client authorized_user payload = (Ok v, t).
Proof.
  intros Hr Hd. unfold validate_deployment_user, bind, lift.
  rewrite Hr, Hd. cbn. rewrite app_nil_r. reflexivity.
Qed.

(** C3: when the resolution yields a non-empty text, the result has
    [is_valid] true exactly when the normalized initiator and the
    normalized authorized identity are equal without regard to case;
    [initiated_by] is the resolved text as it is, [username_checked] its
    normalized form, and [run_id] is there when the workflow id is known. *)
Theorem validate_resolved_identity (payload : pyval) (s : string)
  (run_id : pyval) (t : list gateway_call) :
  resolve_initiator net github_client payload = (Ok (PStr s, run_id), t) ->
  s <> "" ->
  validate_deployment_user net github_client authorized_user payload
  = (Ok (PDict ([ ("is_valid",
                   PBool (String.eqb
                            (PyStr.lower (Spec.extractUsername s))
                            (PyStr.lower (Spec.extractUsername authorized_user))));
                  ("initiated_by", PStr s);
                  ("username_checked", PStr (Spec.extractUsername s)) ]
                ++ (if Py.truthy run_id then [("run_id", run_id)] else []))),
     t).
Proof.
  intros Hr Hs. apply validate_after_resolution with (r := (PStr s, run_id)); [exact Hr|].
  cbn [fst snd]. apply decide_user_text. exact Hs.
Qed.

(** C8: when the resolution ends without a non-empty identity, the result
    is exactly the "could not determine" record. *)
Theorem validate_unresolved (payload v run_id : pyval)
  (t : list gateway_call) :
  resolve_initiator net github_client payload = (Ok (v, run_id), t) ->
  Py.truthy v = false ->
  validate_deployment_user net github_client authorized_user payload
  = (Ok (PDict [ ("is_valid", PBool false);
                 ("initiated_by", PStr "Unknown");
                 ("error", PStr "Could not determine deployment initiator") ]),
     t).
Proof.
  intros Hr Hv. apply validate_after_resolution with (r := (v, run_id)); [exact Hr|].
  cbn [fst snd]. apply decide_user_empty. exact Hv.
Qed.

End Decision.

Lemma validate_resolved_identity_witness :
  validate_deployment_user Sample.offline Sample.client "carol"
    (PDict (Sample.event_of "Carol"))
  = (Ok (PDict [ ("is_valid", PBool true);
                 ("initiated_by", PStr "Carol");
                 ("username_checked", PStr "Carol");
                 ("run_id", PInt 7) ]), []).
Proof.
  apply (@validate_resolved_identity Sample.offline Sample.client "carol"
           (PDict (Sample.event_of "Carol")) "Carol" (PInt 7) []).
  - reflexivity.
  - discriminate.
Defined.

Lemma validate_unresolved_witness :
  validate_deployment_user Sample.offline Sample.client "carol" (PDict [])
  = (Ok (PDict [ ("is_valid", PBool false);
                 ("initiated_by", PStr "Unknown");
                 ("error", PStr "Could not determine deployment initiator") ]),
     []).
Proof.
  apply (@validate_unresolved Sample.offline Sample.client "carol"
           (PDict []) PNone PNone []).
  - reflexivity.
  - reflexivity.
Defined.

(* ===================================================================== *)
(** * The resolution chain                                                *)
(* ===================================================================== *)

Lemma bind_assoc {A B C} (m : M A) (f : A -> M B) (g : B -> M C) :
  bind (bind m f) g = bind m (fun a => bind (f a) g).
Proof.
  unfold bind. destruct m as [[a|e] t]; [|reflexivity].
  destruct (f a) as [[b|e'] t']; [|reflexivity].
  destruct (g b) as [r t'']. rewrite app_assoc. reflexivity.
Qed.

Lemma bind_raise {A B} (e : exn) (f : A -> M B) :
  bind (Raise e, []) f = (Raise e, []).
Proof. reflexivity. Qed.

Lemma first_match_settled (rest : list (M (option pyval))) (v : pyval) :
  Py.truthy v = true -> Spec.first_match rest v = ret v.
Proof. intros H. destruct rest; cbn [Spec.first_match]; rewrite ?H; reflexivity. Qed.

Lemma method1_proposal (deployment : pyval) :
  method1 deployment PNone
  = rbind (Spec.deployment_actor deployment) (fun p => Ok (Spec.adopt PNone p)).
Proof.
  unfold method1, Spec.deployment_actor.
  destruct (Py.contains "payload" deployment) as [[|]|e]; cbn [rbind]; try reflexivity.
  destruct (Py.getitem deployment "payload") as [p|e]; cbn [rbind]; try reflexivity.
  destruct (Py.contains "actor" p) as [[|]|e]; cbn [rbind]; try reflexivity.
  destruct (Py.getitem p "actor"); reflexivity.
Qed.

Lemma method2_proposal (workflow i : pyval) :
  method2 workflow i
  = if Py.truthy i then Ok i
    else rbind (Spec.triggering_actor workflow) (fun p => Ok (Spec.adopt i p)).
Proof.
  unfold method2, Spec.triggering_actor.
  destruct (Py.truthy i); cbn [negb rbind]; [reflexivity|].
  destruct (Py.contains "triggering_actor" workflow) as [[|]|e];
    cbn [rbind]; try reflexivity.
  destruct (Py.getitem workflow "triggering_actor") as [ta|e];
    cbn [rbind]; try reflexivity.
  destruct ta; try reflexivity.
Qed.

Lemma method3_proposal (sender i : pyval) :
  method3 sender i
  = if Py.truthy i then Ok i
    else rbind (Spec.sender_login sender) (fun p => Ok (Spec.adopt i p)).
Proof.
  unfold method3, Spec.sender_login.
  destruct (Py.truthy i); cbn [negb andb]; [reflexivity|].
  destruct (Py.truthy sender); [|reflexivity].
  destruct (Py.get sender "login" PNone); reflexivity.
Qed.

Lemma actor_of_run_proposal (run i : pyval) :
  actor_of_run run i = rbind (Spec.run_identity run) (fun p => Ok (Spec.adopt i p)).
Proof.
  unfold actor_of_run, Spec.run_identity, Spec.login_under.
  destruct (Py.truthy run); [|reflexivity].
  destruct (Py.contains "triggering_actor" run) as [[|]|e];
    cbn [rbind]; try reflexivity.
  - destruct (Py.getitem run "triggering_actor") as [ta|e];
      cbn [rbind]; try reflexivity.
    destruct (Py.get ta "login" PNone); reflexivity.
  - destruct (Py.contains "actor" run) as [[|]|e]; cbn [rbind]; try reflexivity.
    destruct (Py.getitem run "actor") as [a|e]; cbn [rbind]; try reflexivity.
    destruct (Py.get a "login" PNone); reflexivity.
Qed.

Section ChainFacts.

Variable net : network.
Variable github_client : GitHubClient.

Lemma method4_proposal (payload run_id i : pyval) :
  method4 net github_client payload run_id i
  = if Py.truthy i then ret i
    else bind (Spec.network_fallback net github_client Spec.run_identity
                 payload run_id)
              (fun p => ret (Spec.adopt i p)).
Proof.
  unfold method4, Spec.network_fallback.
  destruct (Py.truthy i); cbn [negb andb]; [reflexivity|].
  destruct (Py.truthy run_id); [|reflexivity].
  rewrite !bind_lift.
  destruct (Py.get payload "repository" (PDict [])) as [repository|e];
    [|reflexivity].
  rewrite !bind_lift.
  destruct (Py.get repository "owner" (PDict [])) as [owner|e]; [|reflexivity].
  rewrite !bind_lift.
  destruct (Py.get owner "login" PNone) as [repo_owner|e]; [|reflexivity].
  rewrite !bind_lift.
  destruct (Py.get repository "name" PNone) as [repo_name|e]; [|reflexivity].
  destruct (Py.truthy repo_owner && Py.truthy repo_name); [|reflexivity].
  unfold get_workflow_run, tell, lift, bind, ret.
  destruct (get_workflow_run_body net github_client repo_owner repo_name run_id)
    as [run|e]; [|reflexivity].
  rewrite actor_of_run_proposal.
  destruct (Spec.run_identity run); reflexivity.
Qed.

Lemma first_match_step (s : M (option pyval)) (rest : list (M (option pyval)))
  (v : pyval) :
  Py.truthy v = false ->
  Spec.first_match (s :: rest) v
  = bind s (fun p => Spec.first_match rest (Spec.adopt v p)).
Proof. intros H. cbn [Spec.first_match]. rewrite H. reflexivity. Qed.

Section Tails.

Variables payload sender workflow run_id : pyval.

Lemma chain_from_method4 (i : pyval) :
  bind (method4 net github_client payload run_id i)
       (fun i4 => ret (i4, run_id))
  = bind (Spec.first_match
            [ Spec.network_fallback net github_client Spec.run_identity
                payload run_id ] i)
         (fun i4 => ret (i4, run_id)).
Proof.
  rewrite method4_proposal. destruct (Py.truthy i) eqn:T.
  - rewrite (first_match_settled _ _ T). reflexivity.
  - rewrite (first_match_step _ _ _ T). reflexivity.
Qed.

Lemma chain_from_method3 (i : pyval) :
  bind (lift (method3 sender i))
       (fun i3 => bind (method4 net github_client payload run_id i3)
                       (fun i4 => ret (i4, run_id)))
  = bind (Spec.first_match
            [ lift (Spec.sender_login sender);
              Spec.network_fallback net github_client Spec.run_identity
                payload run_id ] i)
         (fun i4 => ret (i4, run_id)).
Proof.
  rewrite method3_proposal, bind_lift. destruct (Py.truthy i) eqn:T.
  - rewrite chain_from_method4, !(first_match_settled _ _ T). reflexivity.
  - rewrite (first_match_step _ _ _ T), bind_assoc, bind_lift.
    destruct (Spec.sender_login sender) as [p|e]; cbn [rbind]; [|reflexivity].
    apply chain_from_method4.
Qed.

Lemma chain_from_method2 (i : pyval) :
  bind (lift (method2 workflow i))
       (fun i2 =>
          bind (lift (method3 sender i2))
               (fun i3 => bind (method4 net github_client payload run_id i3)
                               (fun i4 => ret (i4, run_id))))
  = bind (Spec.first_match
            [ lift (Spec.triggering_actor workflow);
              lift (Spec.sender_login sender);
              Spec.network_fallback net github_client Spec.run_identity
                payload run_id ] i)
         (fun i4 => ret (i4, run_id)).
Proof.
  rewrite method2_proposal, bind_lift. destruct (Py.truthy i) eqn:T.
  - rewrite chain_from_method3, !(first_match_settled _ _ T). reflexivity.
  - rewrite (first_match_step _ _ _ T), bind_assoc, bind_lift.
    destruct (Spec.triggering_actor workflow) as [p|e]; cbn [rbind];
      [|reflexivity].
    apply chain_from_method3.
Qed.

End Tails.

(** C4, as the code has it: the initiator is resolved by the ordered
    chain (1) [deployment.payload.actor] if present, (2)
    [workflow.triggering_actor], a text taken as it is and an object giving
    its login or else its name, (3) [sender.login], (4) with a workflow id
    and the repository's owner and name, the run fetched through the
    gateway, which gives the login of its [triggering_actor] when it has
    that key and the login of its [actor] only when it has not; a strategy
    is consulted only while no earlier one has yielded a non-empty
    identity. *)
Theorem resolution_is_first_match (payload : pyval) :
  resolve_initiator net github_client payload
  = Spec.resolution_chain net github_client Spec.run_identity payload.
Proof.
  unfold resolve_initiator, Spec.resolution_chain.
  rewrite !bind_lift.
  destruct (Py.get payload "deployment" (PDict [])) as [deployment|e];
    [|reflexivity].
  rewrite !bind_lift.
  destruct (Py.get payload "workflow" (PDict [])) as [workflow|e]; [|reflexivity].
  rewrite !bind_lift.
  destruct (Py.get payload "sender" (PDict [])) as [sender|e]; [|reflexivity].
  rewrite !bind_lift.
  destruct (Py.get workflow "id" PNone) as [run_id|e]; [|reflexivity].
  rewrite (first_match_step _ _ _ (eq_refl : Py.truthy PNone = false)).
  rewrite method1_proposal, bind_assoc, !bind_lift.
  destruct (Spec.deployment_actor deployment) as [p|e]; cbn [rbind];
    [|reflexivity].
  apply chain_from_method2.
Qed.

End ChainFacts.

Lemma resolution_claimed_differs :
  let net := Sample.answering "{}" Sample.run_without_trigger_login in
  fst (resolve_initiator net Sample.client Sample.event_without_sender)
  = Ok (PNone, PInt 7)
  /\ fst (Spec.resolution_chain net Sample.client Spec.claimed_run_identity
            Sample.event_without_sender)
     = Ok (PStr "bob", PInt 7)
  /\ resolve_initiator net Sample.client Sample.event_without_sender
     <> Spec.resolution_chain net Sample.client Spec.claimed_run_identity
          Sample.event_without_sender.
Proof.
  cbv zeta. split; [reflexivity|]. split; [reflexivity|].
  intros H. apply (f_equal fst) in H. vm_compute in H. discriminate.
Qed.

(** The specification's example: with both [deployment.payload.actor] and
    [sender.login], the earlier strategy wins and the network is not
    asked. *)
Lemma earlier_strategy_wins (net : network) (client : GitHubClient) :
  resolve_initiator net client
    (PDict [ ("deployment", PDict [("payload", PDict [("actor", PStr "alice")])]);
             ("workflow", PDict [("id", PInt 7)]);
             ("repository", PDict [ ("name", PStr "app");
                                    ("owner", PDict [("login", PStr "octo")]) ]);
             ("sender", PDict [("login", PStr "bob")]) ])
  = (Ok (PStr "alice", PInt 7), []).
Proof. reflexivity. Qed.

(* ===================================================================== *)
(** * Which gateway operations a computation starts                       *)
(* ===================================================================== *)

Lemma sat_ret {A} (P : gateway_call -> Prop) (a : A) :
  Spec.calls_satisfy P (ret a).
Proof. intros c []. Qed.

Lemma sat_lift {A} (P : gateway_call -> Prop) (r : res A) :
  Spec.calls_satisfy P (lift r).
Proof. intros c []. Qed.

Lemma sat_tell (P : gateway_call -> Prop) (c : gateway_call) :
  P c -> Spec.calls_satisfy P (tell c).
Proof. intros H c' [<-|[]]. exact H. Qed.

Lemma sat_bind {A B} (P : gateway_call -> Prop) (m : M A) (f : A -> M B) :
  Spec.calls_satisfy P m -> (forall a, Spec.calls_satisfy P (f a)) ->
  Spec.calls_satisfy P (bind m f).
Proof.
  intros Hm Hf c Hc. apply bind_calls in Hc.
  destruct Hc as [Hc|[a [_ Hc]]]; [apply (Hm c Hc)|apply (Hf a c Hc)].
Qed.

Lemma sat_try_except {A} (P : gateway_call -> Prop) (m : M A) (h : exn -> M A) :
  Spec.calls_satisfy P m -> (forall e, Spec.calls_satisfy P (h e)) ->
  Spec.calls_satisfy P (try_except m h).
Proof.
  intros Hm Hh c. unfold try_except. destruct m as [[a|e] t]; [apply Hm|].
  specialize (Hh e). destruct (h e) as [r t']. cbn [snd]. intros Hc.
  apply in_app_or in Hc. destruct Hc as [Hc|Hc]; [apply (Hm c Hc)|apply (Hh c Hc)].
Qed.

Lemma sat_weaken {A} (P Q : gateway_call -> Prop) (m : M A) :
  (forall c, P c -> Q c) -> Spec.calls_satisfy P m -> Spec.calls_satisfy Q m.
Proof. intros H Hm c Hc. apply H, Hm, Hc. Qed.

Ltac sat_step :=
  first [ apply sat_ret | apply sat_lift
        | apply sat_tell
        | apply sat_bind; [|intros ?]
        | apply sat_try_except; [|intros ?] ].

Ltac sat_case :=
  match goal with
  | |- Spec.calls_satisfy _ (if ?b then _ else _) => destruct b
  | |- Spec.calls_satisfy _ (match ?x with _ => _ end) => destruct x
  end.

Section Calls.

Variable net : network.

(** The validator only ever fetches a workflow run. *)
Lemma validate_calls (github_client : GitHubClient) (authorized_user : string)
  (payload : pyval) :
  Spec.calls_satisfy (fun c => Spec.is_decision c = false)
    (validate_deployment_user net github_client authorized_user payload).
Proof.
  unfold validate_deployment_user, resolve_initiator, method4, get_workflow_run.
  repeat first [ sat_step | sat_case ]. reflexivity.
Qed.

(** Past the filter, a decision goes to the callback URL of the event,
    whatever that value is. *)
Lemma process_calls (github_token authorized_user : string)
  (req_body callback_url deployment repository workflow : pyval) :
  Spec.calls_satisfy
    (fun c => Spec.is_decision c = true -> Spec.decision_url c = callback_url)
    (process_deployment net github_token authorized_user req_body
       callback_url deployment repository workflow).
Proof.
  unfold process_deployment.
  repeat (apply sat_bind; [apply sat_lift|intros ?]).
  apply sat_bind.
  { eapply sat_weaken; [|apply validate_calls]. cbn beta. intros c H H'.
    congruence. }
  intros validation_result.
  unfold reject_deployment, approve_deployment, add_workflow_summary_error.
  repeat first [ sat_step | sat_case ]; cbn; congruence.
Qed.

End Calls.

Lemma webhook_calls (env : environ) (net : network) (req : HttpRequest) :
  snd (approval_webhook env net req) = snd (approval_webhook_try env net req).
Proof.
  unfold approval_webhook. destruct (approval_webhook_try env net req) as [[r|e] t];
    [reflexivity|]. destruct (exn_kind e); reflexivity.
Qed.

Lemma eq_str_true (v : pyval) (s : string) :
  Py.eq_str v s = true -> v = PStr s.
Proof.
  destruct v; try discriminate. cbn. intros H. apply String.eqb_eq in H.
  congruence.
Qed.

(* ===================================================================== *)
(** * When the handler submits a decision                                 *)
(* ===================================================================== *)

(** The handler past parsing, signature and token, on a JSON object. *)
Lemma webhook_try_on_object (env : environ) (net : network) (req : HttpRequest)
  (body : list (string * pyval)) (tok : string) :
  get_json req = inr (PDict body) ->
  check_signature env req = Ok true ->
  GITHUB_TOKEN env = Some tok -> tok <> "" ->
  approval_webhook_try env net req
  = if negb (String.eqb (match headers_get req "X-GitHub-Event" with
                         | Some e => e
                         | None => ""
                         end) "deployment_protection_rule")
       || negb (Py.eq_str (Spec.field "action" body PNone) "requested")
    then ret (json_response
                [("message",
                  PStr "Not a deployment protection rule request, skipping")]
                200)
    else process_deployment net tok (Spec.authorized_identity env) (PDict body)
           (Spec.field "deployment_callback_url" body PNone)
           (Spec.field "deployment" body (PDict []))
           (Spec.field "repository" body (PDict []))
           (Spec.field "workflow" body (PDict [])).
Proof.
  intros HJ HS HT Hne. unfold approval_webhook_try, request_json.
  rewrite HJ, bind_lift, HS, bind_lift. cbn [negb]. rewrite HT.
  destruct tok as [|a tok]; [contradiction|].
  cbn [Py.get]. rewrite !bind_lift. reflexivity.
Qed.

(** C1, as the code has it: approveDeployment or rejectDeployment is
    called only for a request that passed the event filter, and the call
    goes to the payload's [deployment_callback_url] whatever it is: the
    presence of the field is not checked, and an absent field is passed
    on as [None]. *)
Theorem decision_only_past_filter (env : environ) (net : network)
  (req : HttpRequest) (c : gateway_call) :
  In c (snd (approval_webhook env net req)) ->
  Spec.is_decision c = true ->
  exists body,
    Spec.passed_filter req body
    /\ Spec.decision_url c = Spec.field "deployment_callback_url" body PNone.
Proof.
  rewrite webhook_calls. intros Hc Hd.
  destruct (get_json req) as [msg|v] eqn:HJ.
  { unfold approval_webhook_try, request_json in Hc. rewrite HJ in Hc.
    destruct Hc. }
  destruct (check_signature env req) as [[|]|e] eqn:HS.
  2,3: unfold approval_webhook_try, request_json in Hc;
       rewrite HJ, bind_lift, HS, ?bind_lift in Hc; destruct Hc.
  destruct (GITHUB_TOKEN env) as [[|a tok]|] eqn:HT.
  1,3: unfold approval_webhook_try, request_json in Hc;
       rewrite HJ, bind_lift, HS, bind_lift, HT in Hc; destruct Hc.
  destruct v as [| | | | |l|body].
  1-6: unfold approval_webhook_try, request_json in Hc;
       rewrite HJ, bind_lift, HS, bind_lift, HT in Hc; destruct Hc.
  rewrite (@webhook_try_on_object env net req body _ HJ HS HT) in Hc by discriminate.
  exists body.
  destruct (headers_get req "X-GitHub-Event") as [ev|] eqn:HE.
  - destruct (String.eqb ev "deployment_protection_rule") eqn:E1;
      [|destruct Hc].
    destruct (Py.eq_str (Spec.field "action" body PNone) "requested") eqn:E2;
      [|destruct Hc].
    cbn [negb orb] in Hc. apply String.eqb_eq in E1. subst ev.
    apply eq_str_true in E2. split.
    + repeat split; try assumption.
      unfold Spec.field in E2. destruct (Py.lookup "action" body); congruence.
    + apply (@process_calls net _ _ _ _ _ _ _ c Hc Hd).
  - destruct Hc.
Qed.

Lemma decision_only_past_filter_witness :
  exists body,
    Spec.passed_filter (Sample.protection_request (Sample.event_of "mallory")) body
    /\ Spec.decision_url
         (RejectDeployment (PStr "https://api.github.com/cb/1")
            (rejection_message (PStr "production")))
       = Spec.field "deployment_callback_url" body PNone.
Proof.
  apply (@decision_only_past_filter Sample.env_default Sample.offline
           (Sample.protection_request (Sample.event_of "mallory"))).
  - cbn. left. reflexivity.
  - reflexivity.
Defined.

Lemma decision_without_callback_url :
  exists c,
    In c (snd (approval_webhook Sample.env_default Sample.offline
                 (Sample.protection_request Sample.event_without_callback)))
    /\ Spec.is_decision c = true
    /\ Py.lookup "deployment_callback_url" Sample.event_without_callback = None.
Proof.
  exists (RejectDeployment PNone (rejection_message PNone)).
  repeat split. cbn. left. reflexivity.
Qed.

(* ===================================================================== *)
(** * The gateway and the transport                                       *)
(* ===================================================================== *)

Section GatewayFacts.

Variable net : network.
Variable self : GitHubClient.

(** Under the API root the connection layer raises nothing. *)
Lemma connect_under_api (address : string) :
  Requests.under_api address = true -> Requests.connect net address = Ok tt.
Proof. intros H. unfold Requests.connect. rewrite H. reflexivity. Qed.

(** A callback URL that is no text: the operation returns its error
    object whatever the network would answer. *)
Lemma reject_without_address (u : pyval) (comment : string) :
  (forall address, u <> PStr address) ->
  reject_deployment_body net self u comment
  = Ok (PDict [("error",
                PStr ("Error rejecting deployment: " ++ url_error net u))]).
Proof.
  intros H. unfold reject_deployment_body, Requests.post.
  destruct u; try reflexivity. exfalso. apply (H s). reflexivity.
Qed.

Lemma approve_without_address (u : pyval) (comment : string) :
  (forall address, u <> PStr address) ->
  approve_deployment_body net self u comment
  = Ok (PDict [("error",
                PStr ("Error approving deployment: " ++ url_error net u))]).
Proof.
  intros H. unfold approve_deployment_body, Requests.post.
  destruct u; try reflexivity. exfalso. apply (H s). reflexivity.
Qed.


End GatewayFacts.

(** C6, at the input where the code leaves it: when the jobs endpoint
    answers 200 with a JSON value that is no object, the [AttributeError]
    of [.get] is no [RequestException], and
    [add_workflow_summary_error] raises it to its caller instead of
    returning [False]. *)
Theorem summary_error_escapes_gateway :
  add_workflow_summary_error (Sample.answering "[]" (PList [])) Sample.client
    (PStr "octo") (PStr "app") (PInt 7) "not authorized"
  = (Raise (Exn AttributeError "'list' object has no attribute 'get'"),
     [AddWorkflowSummaryError (PStr "octo") (PStr "app") (PInt 7)
        "not authorized"]).
Proof. reflexivity. Qed.

(* ===================================================================== *)
(** * The validator as a total function                                   *)
(* ===================================================================== *)

(** An initiator that is non-empty but no text makes the normalization
    raise. *)
Lemma extract_username_non_text (v : pyval) :
  Py.truthy v = true -> (forall s, v <> PStr s) ->
  exists e, _extract_username v = Raise e.
Proof.
  intros Ht Hs. unfold _extract_username. rewrite Ht. cbn [negb].
  destruct v as [|b|z|f|s|l|d]; try discriminate;
    try (eexists; reflexivity).
  - exfalso. apply (Hs s). reflexivity.
  - cbn [Py.contains rbind].
    destruct (existsb (fun x => Py.eq_str x "@") l); cbn [Py.split_first rbind];
      [eexists; reflexivity|].
    cbn [Py.contains rbind].
    destruct (existsb (fun x => Py.eq_str x "\") l); cbn [Py.split_last rbind];
      [eexists; reflexivity|].
    cbn [Py.contains rbind].
    destruct (existsb (fun x => Py.eq_str x "/") l); cbn [Py.split_last rbind];
      eexists; reflexivity.
  - cbn [Py.contains rbind].
    destruct (Py.lookup "@" d); cbn [Py.split_first rbind];
      [eexists; reflexivity|].
    cbn [Py.contains rbind].
    destruct (Py.lookup "\" d); cbn [Py.split_last rbind];
      [eexists; reflexivity|].
    cbn [Py.contains rbind].
    destruct (Py.lookup "/" d); cbn [Py.split_last rbind];
      eexists; reflexivity.
Qed.

Section ValidatorFacts.

Variable net : network.
Variable github_client : GitHubClient.
Variable authorized_user : string.

(** The decision says valid only for a non-empty text that matches. *)
Lemma decide_user_valid (v run_id : pyval) (rest : list (string * pyval)) :
  decide_user authorized_user v run_id
  = Ok (PDict (("is_valid", PBool true) :: rest)) ->
  exists s, v = PStr s /\ s <> ""
            /\ Spec.same_user (Spec.extractUsername s)
                 (Spec.extractUsername authorized_user) = true.
Proof.
  intros H. destruct (Py.truthy v) eqn:Ht.
  2: { rewrite (@decide_user_empty authorized_user v run_id Ht) in H.
       discriminate. }
  destruct v as [|b|z|f|s|l|d].
  5: { assert (Hs : s <> "") by (intros ->; discriminate).
       rewrite (@decide_user_text authorized_user s run_id Hs) in H.
       exists s. repeat split; try assumption.
       cbn in H. inversion H. reflexivity. }
  all: exfalso;
    match goal with
    | H : decide_user _ ?v _ = _ |- _ =>
        destruct (@extract_username_non_text v Ht) as [e He];
          [intros s; discriminate|];
        unfold decide_user in H; rewrite Ht, He in H; discriminate
    end.
Qed.

(** The shape of every decision that is returned. *)
Lemma decide_user_shape (v run_id result : pyval) :
  decide_user authorized_user v run_id = Ok result ->
  exists b i rest,
    result = PDict (("is_valid", PBool b) :: ("initiated_by", i) :: rest).
Proof.
  unfold decide_user. destruct (Py.truthy v).
  2: { intros H. inversion H. eauto. }
  cbn [negb]. destruct (_extract_username v) as [u|e]; [|discriminate].
  cbn [rbind]. destruct (_extract_username (PStr authorized_user)) as [a|e];
    [|discriminate].
  cbn [rbind]. destruct (Py.lower u) as [lu|e]; [|discriminate].
  cbn [rbind]. destruct (Py.lower a) as [la|e]; [|discriminate].
  cbn [rbind]. destruct (Py.truthy run_id); intros H; inversion H; eauto.
Qed.

(** [validate_deployment_user] always returns a record with [is_valid]
    and [initiated_by]; [is_valid] is true exactly when the resolution
    yields a non-empty text that matches the authorized identity. *)
Lemma validate_cases (payload : pyval) :
  exists b i rest t,
    validate_deployment_user net github_client authorized_user payload
    = (Ok (PDict (("is_valid", PBool b) :: ("initiated_by", i) :: rest)), t)
    /\ (b = true <->
        exists s run_id,
          resolve_initiator net github_client payload = (Ok (PStr s, run_id), t)
          /\ s <> ""
          /\ Spec.same_user (Spec.extractUsername s)
               (Spec.extractUsername authorized_user) = true).
Proof.
  unfold validate_deployment_user.
  destruct (resolve_initiator net github_client payload) as [[[v run_id]|e] t]
    eqn:Hr.
  2: { exists false, (PStr "Unknown"), [("error", PStr (exn_str e))], t.
       cbn. rewrite app_nil_r. split; [reflexivity|].
       split; [discriminate|]. intros (s & r & H & _). discriminate. }
  unfold bind, lift. cbn [fst snd].
  destruct (decide_user authorized_user v run_id) as [result|e] eqn:Hd.
  2: { exists false, (PStr "Unknown"), [("error", PStr (exn_str e))], t.
       cbn. rewrite !app_nil_r. split; [reflexivity|].
       split; [discriminate|]. intros (s & r & H & Hs & _).
       inversion H; subst. rewrite (@decide_user_text authorized_user s r Hs) in Hd.
       discriminate. }
  destruct (@decide_user_shape v run_id result Hd) as (b & i & rest & ->).
  exists b, i, rest, t. cbn. rewrite app_nil_r. split; [reflexivity|].
  split.
  - intros ->. destruct (@decide_user_valid v run_id _ Hd) as (s & -> & Hs & Hm).
    exists s, run_id. auto.
  - intros (s & r & H & Hs & Hm). inversion H; subst.
    rewrite (@decide_user_text authorized_user s r Hs) in Hd.
    cbn in Hd. inversion Hd. exact Hm.
Qed.

End ValidatorFacts.

(* ===================================================================== *)
(** * The handler past the filter                                         *)
(* ===================================================================== *)

Section ProcessFacts.

Variable net : network.
Variable github_token authorized_user : string.
Variables req_body callback_url : pyval.
Variables d r o w : list (string * pyval).

Hypothesis Howner : Spec.field "owner" r (PDict []) = PDict o.

Variables (b : bool) (i : pyval) (rest : list (string * pyval))
          (t : list gateway_call).

Hypothesis Hvalidate :
  validate_deployment_user net (new_GitHubClient github_token)
    authorized_user req_body
  = (Ok (PDict (("is_valid", PBool b) :: ("initiated_by", i) :: rest)), t).

(** The approving branch: one approveDeployment, whose result is in the
    answer; its exception, if it raises, is the exception of the whole. *)
Lemma process_approves :
  b = true ->
  let environment_name := Spec.field "environment" d PNone in
  let message := success_message i environment_name in
  process_deployment net github_token authorized_user req_body callback_url
    (PDict d) (PDict r) (PDict w)
  = (match approve_deployment_body net (new_GitHubClient github_token)
             callback_url message with
     | Ok v => Ok (Spec.approved_answer message i environment_name v)
     | Raise e => Raise e
     end,
     (t ++ [ApproveDeployment callback_url message])%list).
Proof.
  intros Hb environment_name message. subst message environment_name.
  unfold process_deployment.
  cbn [Py.get]. rewrite !bind_lift.
  unfold Spec.field in *. rewrite Howner. cbn [Py.get]. rewrite !bind_lift.
  rewrite Hvalidate. unfold bind at 1.
  cbn [Py.getitem Py.lookup String.eqb Ascii.eqb Bool.eqb].
  subst b. rewrite bind_lift. cbn [Py.truthy negb]. rewrite bind_lift.
  cbn [Py.get Py.lookup String.eqb Ascii.eqb Bool.eqb].
  unfold approve_deployment, tell, lift, bind, ret.
  match goal with |- context [approve_deployment_body ?a ?b ?c ?d] =>
    destruct (approve_deployment_body a b c d)
  end; reflexivity.
Qed.

(** The rejecting branch: one rejectDeployment; when it returns, the
    summary step for a known run id, and then the answer with the result
    of the rejection. An exception of either operation ends the branch. *)
Lemma process_rejects :
  b = false ->
  let environment_name := Spec.field "environment" d PNone in
  let run_id := Spec.field "id" w PNone in
  let message := rejection_message environment_name in
  let summary :=
    AddWorkflowSummaryError (Spec.field "login" o PNone)
      (Spec.field "name" r PNone) run_id message in
  process_deployment net github_token authorized_user req_body callback_url
    (PDict d) (PDict r) (PDict w)
  = match reject_deployment_body net (new_GitHubClient github_token)
            callback_url message with
    | Raise e => (Raise e, (t ++ [RejectDeployment callback_url message])%list)
    | Ok v =>
        (match (if Py.truthy run_id
                then add_workflow_summary_error_body net
                       (new_GitHubClient github_token)
                       (Spec.field "login" o PNone) (Spec.field "name" r PNone)
                       run_id message
                else Ok PNone) with
         | Ok _ => Ok (Spec.rejected_answer message i authorized_user v)
         | Raise e => Raise e
         end,
         (t ++ RejectDeployment callback_url message
               :: (if Py.truthy run_id then [summary] else []))%list)
    end.
Proof.
  intros Hb environment_name run_id message summary.
  subst summary message run_id environment_name.
  unfold process_deployment.
  cbn [Py.get]. rewrite !bind_lift.
  unfold Spec.field in *. rewrite Howner. cbn [Py.get]. rewrite !bind_lift.
  rewrite Hvalidate. unfold bind at 1.
  cbn [Py.getitem Py.lookup String.eqb Ascii.eqb Bool.eqb].
  subst b. rewrite bind_lift. cbn [Py.truthy negb]. rewrite bind_lift.
  cbn [Py.get Py.lookup String.eqb Ascii.eqb Bool.eqb].
  unfold reject_deployment, add_workflow_summary_error, tell, lift, bind, ret.
  match goal with |- context [reject_deployment_body ?a ?b ?c ?d] =>
    destruct (reject_deployment_body a b c d)
  end; [|reflexivity].
  destruct (Py.truthy match Py.lookup "id" w with
                      | Some x => x
                      | None => PNone
                      end).
  - match goal with |- context [add_workflow_summary_error_body ?a ?b ?c ?d ?e ?f] =>
      destruct (add_workflow_summary_error_body a b c d e f)
    end; reflexivity.
  - reflexivity.
Qed.

(** The operations of the rejecting branch. *)
Lemma process_rejects_calls :
  b = false ->
  let run_id := Spec.field "id" w PNone in
  let message := rejection_message (Spec.field "environment" d PNone) in
  let summary :=
    AddWorkflowSummaryError (Spec.field "login" o PNone)
      (Spec.field "name" r PNone) run_id message in
  exists tail,
    snd (process_deployment net github_token authorized_user req_body
           callback_url (PDict d) (PDict r) (PDict w))
    = (t ++ RejectDeployment callback_url message :: tail)%list
    /\ (tail = [] \/ tail = [summary]).
Proof.
  intros Hb run_id message summary.
  pose proof (process_rejects Hb) as Hp. cbv zeta in Hp.
  fold run_id message summary in Hp. rewrite Hp.
  destruct (reject_deployment_body net (new_GitHubClient github_token)
              callback_url message).
  - destruct (Py.truthy run_id); eexists; split; try reflexivity; auto.
  - exists []. split; [reflexivity|]. auto.
Qed.

End ProcessFacts.

Lemma webhook_past_filter (env : environ) (net : network) (req : HttpRequest)
  (body : list (string * pyval)) (tok : string) :
  Spec.reaches_decision env req body tok ->
  approval_webhook_try env net req
  = process_deployment net tok (Spec.authorized_identity env) (PDict body)
      (Spec.callback_of body)
      (Spec.field "deployment" body (PDict []))
      (Spec.field "repository" body (PDict []))
      (Spec.field "workflow" body (PDict [])).
Proof.
  intros ((HJ & HE & HA) & HS & HT & Hne).
  rewrite (@webhook_try_on_object env net req body tok HJ HS HT Hne).
  rewrite HE. unfold Spec.field at 1. rewrite HA. reflexivity.
Qed.

Lemma webhook_of_try (env : environ) (net : network) (req : HttpRequest)
  (response : HttpResponse) (t : list gateway_call) :
  approval_webhook_try env net req = (Ok response, t) ->
  approval_webhook env net req = (response, t).
Proof. intros H. unfold approval_webhook. rewrite H. reflexivity. Qed.

(** C7, at the input where the code leaves it: a well-formed event of an
    unauthorized sender is rejected at the callback, then the jobs
    endpoint answers 200 with a JSON array, the summary step raises, and
    the handler answers 500 instead of the 200 [rejected] body. *)
Theorem rejection_lost_when_summary_raises :
  approval_webhook Sample.env_default (Sample.answering "[]" (PList []))
    (Sample.protection_request (Sample.event_of "mallory"))
  = (json_response
       [("error",
         PStr "Unexpected error processing webhook: 'list' object has no attribute 'get'")]
       500,
     [ RejectDeployment (PStr "https://api.github.com/cb/1")
         (rejection_message (PStr "production"));
       AddWorkflowSummaryError (PStr "octo") (PStr "app") (PInt 7)
         (rejection_message (PStr "production")) ]).
Proof. vm_compute. reflexivity. Qed.

Lemma webhook_of_raise (env : environ) (net : network) (req : HttpRequest)
  (e : exn) (t : list gateway_call) :
  approval_webhook_try env net req = (Raise e, t) ->
  approval_webhook env net req = (Spec.error_answer e, t).
Proof.
  intros H. unfold approval_webhook, Spec.error_answer. rewrite H.
  destruct (exn_kind e); reflexivity.
Qed.

(** The whole of a rejection: one rejectDeployment with a comment that
    ends in the environment; when it returns, the summary step only for
    a known run id; when that returns too, the 200 [rejected] body. An
    exception of either operation is answered like every exception. *)
Lemma rejection_flow (env : environ) (net : network) (req : HttpRequest)
  (body : list (string * pyval)) (tok : string) (i : pyval)
  (rest : list (string * pyval)) (t : list gateway_call)
  (d w r o : list (string * pyval)) :
  Spec.reaches_decision env req body tok ->
  Spec.field "deployment" body (PDict []) = PDict d ->
  Spec.field "workflow" body (PDict []) = PDict w ->
  Spec.field "repository" body (PDict []) = PDict r ->
  Spec.field "owner" r (PDict []) = PDict o ->
  validate_deployment_user net (new_GitHubClient tok)
    (Spec.authorized_identity env) (PDict body)
  = (Ok (PDict (("is_valid", PBool false) :: ("initiated_by", i) :: rest)), t) ->
  let run_id := Spec.field "id" w PNone in
  let message := rejection_message (Spec.field "environment" d PNone) in
  let summary :=
    AddWorkflowSummaryError (Spec.field "login" o PNone)
      (Spec.field "name" r PNone) run_id message in
  approval_webhook env net req
  = match reject_deployment_body net (new_GitHubClient tok)
            (Spec.callback_of body) message with
    | Raise e =>
        (Spec.error_answer e,
         (t ++ [RejectDeployment (Spec.callback_of body) message])%list)
    | Ok v =>
        (match (if Py.truthy run_id
                then add_workflow_summary_error_body net (new_GitHubClient tok)
                       (Spec.field "login" o PNone) (Spec.field "name" r PNone)
                       run_id message
                else Ok PNone) with
         | Ok _ =>
             Spec.rejected_answer message i (Spec.authorized_identity env) v
         | Raise e => Spec.error_answer e
         end,
         (t ++ RejectDeployment (Spec.callback_of body) message
               :: (if Py.truthy run_id then [summary] else []))%list)
    end.
Proof.
  intros Hreach Hd Hw Hr Ho Hv run_id message summary.
  pose proof (webhook_past_filter net Hreach) as Htry.
  rewrite Hd, Hw, Hr in Htry.
  pose proof (@process_rejects net tok (Spec.authorized_identity env)
                (PDict body) (Spec.callback_of body) d r o w Ho
                false i rest t Hv eq_refl) as Hp.
  cbv zeta in Hp. fold run_id message in Hp. rewrite Hp in Htry. clear Hp.
  destruct (reject_deployment_body net (new_GitHubClient tok)
              (Spec.callback_of body) message) as [v|e].
  2: { apply webhook_of_raise. exact Htry. }
  destruct (if Py.truthy run_id
            then add_workflow_summary_error_body net (new_GitHubClient tok)
                   (Spec.field "login" o PNone) (Spec.field "name" r PNone)
                   run_id message
            else Ok PNone) as [x|e].
  - apply webhook_of_try. exact Htry.
  - apply webhook_of_raise. exact Htry.
Qed.

(* ===================================================================== *)
(** * The default authorized identity                                     *)
(* ===================================================================== *)

Lemma well_formed_objects (body : list (string * pyval)) :
  Spec.well_formed body ->
  exists d w r o,
    Spec.field "deployment" body (PDict []) = PDict d
    /\ Spec.field "workflow" body (PDict []) = PDict w
    /\ Spec.field "repository" body (PDict []) = PDict r
    /\ Spec.field "owner" r (PDict []) = PDict o.
Proof.
  intros ((d & Hd) & (w & Hw) & (r & o & Hr & Ho)). exists d, w, r, o. auto.
Qed.




Lemma sample_is_approved :
  Spec.resolves_to Sample.offline "ghp_token"
    (Sample.event_of "CORP\Apzw3prd_bcp") "apzw3prd_bcp"
  /\ approval_webhook Sample.env_default Sample.offline
       (Sample.protection_request (Sample.event_of "CORP\Apzw3prd_bcp"))
     = (json_response
          [ ("status", PStr "approved");
            ("message",
             PStr "Usuario autorizado: CORP\Apzw3prd_bcp. Despliegue permitido en production");
            ("initiated_by", PStr "CORP\Apzw3prd_bcp");
            ("environment", PStr "production");
            ("approval_result",
             PDict [("error",
                     PStr "Error approving deployment: connection refused")]) ]
          200,
        [ApproveDeployment (PStr "https://api.github.com/cb/1")
           "Usuario autorizado: CORP\Apzw3prd_bcp. Despliegue permitido en production"]).
Proof.
  split.
  - exists "CORP\Apzw3prd_bcp", (PInt 7), []. repeat split. discriminate.
  - vm_compute. reflexivity.
Qed.

(* ===================================================================== *)
(** * What the handler can raise and return                               *)
(* ===================================================================== *)

Lemma res_raises_ok {A} (P : exn -> Prop) (a : A) : Spec.res_raises P (Ok a).
Proof. intros e H. discriminate. Qed.

Lemma raises_ret {A} (P : exn -> Prop) (a : A) : Spec.raises P (ret a).
Proof. intros e H. discriminate. Qed.

Lemma raises_lift {A} (P : exn -> Prop) (r : res A) :
  Spec.res_raises P r -> Spec.raises P (lift r).
Proof. intros H e He. exact (H e He). Qed.

Lemma raises_tell (P : exn -> Prop) (c : gateway_call) : Spec.raises P (tell c).
Proof. intros e H. discriminate. Qed.

Lemma raises_bind {A B} (P : exn -> Prop) (m : M A) (f : A -> M B) :
  Spec.raises P m -> (forall a, Spec.raises P (f a)) ->
  Spec.raises P (bind m f).
Proof.
  intros Hm Hf e. unfold bind. destruct m as [[a|e'] t].
  - specialize (Hf a). destruct (f a) as [r t']. exact (Hf e).
  - cbn [fst]. intros H. inversion H. subst. exact (Hm e eq_refl).
Qed.

Lemma raises_try_except {A} (P : exn -> Prop) (m : M A) (h : exn -> M A) :
  (forall e, Spec.raises P (h e)) -> Spec.raises P (try_except m h).
Proof.
  intros Hh e. unfold try_except. destruct m as [[a|e'] t]; [discriminate|].
  specialize (Hh e'). destruct (h e') as [r t']. exact (Hh e).
Qed.

Lemma returns_ret {A} (Q : A -> Prop) (a : A) : Q a -> Spec.returns Q (ret a).
Proof. intros H a' H'. inversion H'. subst. exact H. Qed.

Lemma returns_bind {A B} (Q : B -> Prop) (m : M A) (f : A -> M B) :
  (forall a, Spec.returns Q (f a)) -> Spec.returns Q (bind m f).
Proof.
  intros Hf b. unfold bind. destruct m as [[a|e] t]; [|discriminate].
  specialize (Hf a). destruct (f a) as [r t']. exact (Hf b).
Qed.

(** The dynamic operations raise [AttributeError], [TypeError] or
    [KeyError]. *)
Ltac leaf_raises v :=
  intros e; destruct v; cbn; intros H; try discriminate;
  inversion H; discriminate.

Lemma get_not_value_error (v : pyval) (k : string) (d : pyval) :
  Spec.res_raises Spec.not_value_error (Py.get v k d).
Proof. leaf_raises v. Qed.

Lemma getitem_not_value_error (v : pyval) (k : string) :
  Spec.res_raises Spec.not_value_error (Py.getitem v k).
Proof.
  intros e; destruct v; cbn; try destruct (Py.lookup k d); intros H;
    try discriminate; inversion H; discriminate.
Qed.

Lemma verify_signature_not_value_error (body : list byte)
  (h : option string) (secret : string) :
  Spec.res_raises Spec.not_value_error (verify_signature body h secret).
Proof.
  unfold verify_signature, compare_digest. intros e.
  destruct h as [h|]; [|discriminate].
  destruct (String.eqb h ""); [discriminate|].
  match goal with |- context [if ?b then _ else _] => destruct b end;
    intros H; inversion H. discriminate.
Qed.

Lemma check_signature_not_value_error (env : environ) (req : HttpRequest) :
  Spec.res_raises Spec.not_value_error (check_signature env req).
Proof.
  unfold check_signature. destruct (GITHUB_WEBHOOK_SECRET env) as [s|];
    [|apply res_raises_ok].
  destruct (negb (String.eqb s "")); [|apply res_raises_ok].
  apply verify_signature_not_value_error.
Qed.

Lemma validate_raises_nothing (P : exn -> Prop) (net : network)
  (client : GitHubClient) (auth : string) (payload : pyval) :
  Spec.raises P (validate_deployment_user net client auth payload).
Proof.
  unfold validate_deployment_user. apply raises_try_except.
  intros e. apply raises_ret.
Qed.

Lemma res_raises_weaken {A} (P Q : exn -> Prop) (r : res A) :
  (forall e, P e -> Q e) -> Spec.res_raises P r -> Spec.res_raises Q r.
Proof. intros H Hr e He. apply H. exact (Hr e He). Qed.

Lemma process_raises (net : network) (tok auth : string)
  (req_body url deployment repository workflow : pyval) :
  Spec.raises (Spec.past_decoding net tok)
    (process_deployment net tok auth req_body url deployment repository
       workflow).
Proof.
  assert (Hleaf : forall A (r : res A),
            Spec.res_raises Spec.not_value_error r ->
            Spec.raises (Spec.past_decoding net tok) (lift r)).
  { intros A r Hr. apply raises_lift.
    apply (res_raises_weaken (P := Spec.not_value_error)); [|exact Hr].
    intros e He. left. exact He. }
  unfold process_deployment.
  repeat (apply raises_bind;
          [apply Hleaf; apply get_not_value_error|intros ?]).
  apply raises_bind; [apply validate_raises_nothing|intros vr].
  apply raises_bind;
    [apply Hleaf; apply getitem_not_value_error|intros is_valid].
  unfold reject_deployment, approve_deployment, add_workflow_summary_error.
  destruct (negb (Py.truthy is_valid)).
  - apply raises_bind;
      [apply Hleaf; apply get_not_value_error|intros ?].
    apply raises_bind.
    { apply raises_bind; [apply raises_tell|intros _].
      apply raises_lift. intros e He. right. right. left. eauto. }
    intros ?. apply raises_bind; [|intros ?; apply raises_ret].
    match goal with |- context [if ?c then _ else _] => destruct c end;
      [|apply raises_ret].
    apply raises_bind; [apply raises_tell|intros _].
    apply raises_lift. intros e He. right. right. right. eauto 6.
  - apply raises_bind;
      [apply Hleaf; apply get_not_value_error|intros ?].
    apply raises_bind; [|intros ?; apply raises_ret].
    apply raises_bind; [apply raises_tell|intros _].
    apply raises_lift. intros e He. right. left. eauto.
Qed.

Lemma process_outcome (net : network) (tok auth : string)
  (req_body url deployment repository workflow : pyval) :
  Spec.returns Spec.outcome
    (process_deployment net tok auth req_body url deployment repository
       workflow).
Proof.
  unfold process_deployment.
  do 8 (apply returns_bind; intros ?).
  match goal with |- context [if ?c then _ else _] => destruct c end.
  - do 3 (apply returns_bind; intros ?). apply returns_ret. constructor.
  - do 2 (apply returns_bind; intros ?). apply returns_ret. constructor.
Qed.

Lemma webhook_try_outcome (env : environ) (net : network) (req : HttpRequest) :
  Spec.returns Spec.outcome (approval_webhook_try env net req).
Proof.
  unfold approval_webhook_try.
  apply returns_bind; intros req_body.
  apply returns_bind; intros signature_ok.
  destruct (negb signature_ok); [apply returns_ret; constructor|].
  destruct (GITHUB_TOKEN env) as [[|a tok]|];
    try (apply returns_ret; constructor).
  do 5 (apply returns_bind; intros ?).
  match goal with |- context [if ?b then _ else _] => destruct b end.
  - apply returns_ret. constructor.
  - apply process_outcome.
Qed.

(** Past the decoding of the request, a [ValueError] of the [try] block
    is one that the gateway raised. *)
Lemma webhook_try_raises (env : environ) (net : network)
  (req : HttpRequest) (v : pyval) (e : exn) :
  get_json req = inr v ->
  fst (approval_webhook_try env net req) = Raise e ->
  exn_kind e = ValueError ->
  exists tok, GITHUB_TOKEN env = Some tok /\ Spec.gateway_raises net tok e.
Proof.
  intros HJ He Hk.
  set (Q := fun e' : exn =>
              Spec.not_value_error e'
              \/ exists tok, GITHUB_TOKEN env = Some tok
                             /\ Spec.gateway_raises net tok e').
  assert (Hleaf : forall A (r : res A),
            Spec.res_raises Spec.not_value_error r ->
            Spec.raises Q (lift r)).
  { intros A r Hr. apply raises_lift.
    apply (res_raises_weaken (P := Spec.not_value_error)); [|exact Hr].
    intros e' He'. left. exact He'. }
  assert (Hr : Spec.raises Q (approval_webhook_try env net req)).
  { unfold approval_webhook_try, request_json. rewrite HJ, bind_lift.
    apply raises_bind;
      [apply Hleaf, check_signature_not_value_error|intros signature_ok].
    destruct (negb signature_ok); [apply raises_ret|].
    destruct (GITHUB_TOKEN env) as [[|a tok]|] eqn:HT; try apply raises_ret.
    do 5 (apply raises_bind;
          [apply Hleaf, get_not_value_error|intros ?]).
    match goal with |- context [if ?b then _ else _] => destruct b end.
    - apply raises_ret.
    - intros e' He'.
      match type of He' with
      | fst (process_deployment ?n ?t ?au ?b ?u ?d ?r ?w) = _ =>
          destruct (@process_raises n t au b u d r w e' He') as [Hn|Hg]
      end.
      + left. exact Hn.
      + right. exists (String a tok). split; [reflexivity|exact Hg]. }
  destruct (Hr e He) as [Hn|Hg]; [contradiction|exact Hg].
Qed.

(** The status codes, case by case. A body the decoder refuses with a
    [ValueError] gives 400; a parsed body with a configured secret and a
    signature check that returns [False] gives 401; past the signature
    step a missing token gives 500; every response that is no answer to
    an exception is the 200 of an approved, rejected or skipped outcome,
    the 401 or the 500 of the missing token; an exception is answered 400
    when it is a [ValueError] and 500 otherwise, and a [ValueError] is
    one of the decoder of the request or one the gateway raised. *)
Lemma status_code_cases (env : environ) (net : network) (req : HttpRequest) :
  let response := fst (approval_webhook env net req) in
  (forall e,
     get_json req = inl e -> response = Spec.error_answer e)
  /\ (forall body secret,
        get_json req = inr body ->
        GITHUB_WEBHOOK_SECRET env = Some secret -> secret <> "" ->
        verify_signature (get_body req)
          (headers_get req "X-Hub-Signature-256") secret = Ok false ->
        response = json_response [("error", PStr "Invalid signature")] 401)
  /\ (forall body,
        get_json req = inr body ->
        check_signature env req = Ok true ->
        nonempty (GITHUB_TOKEN env) = false ->
        response
        = json_response
            [("error", PStr "GitHub configuration is missing (GITHUB_TOKEN)")]
            500)
  /\ (forall r t,
        approval_webhook_try env net req = (Ok r, t) ->
        response = r /\ Spec.outcome r)
  /\ (forall e t,
        approval_webhook_try env net req = (Raise e, t) ->
        response = Spec.error_answer e
        /\ (exn_kind e = ValueError ->
            get_json req = inl e
            \/ exists tok,
                 GITHUB_TOKEN env = Some tok
                 /\ Spec.gateway_raises net tok e)).
Proof.
  intros response. subst response. repeat split.
  - intros e HJ.
    assert (H : approval_webhook_try env net req = (Raise e, [])).
    { unfold approval_webhook_try, request_json. rewrite HJ. reflexivity. }
    rewrite (webhook_of_raise _ _ _ H). reflexivity.
  - intros body secret HJ Hsec Hne Hver.
    assert (HS : check_signature env req = Ok false).
    { unfold check_signature. rewrite Hsec.
      destruct (String.eqb secret "") eqn:E;
        [apply String.eqb_eq in E; contradiction|exact Hver]. }
    unfold approval_webhook, approval_webhook_try, request_json.
    rewrite HJ, bind_lift, HS, bind_lift. reflexivity.
  - intros body HJ HS Htok.
    unfold approval_webhook, approval_webhook_try, request_json.
    rewrite HJ, bind_lift, HS, bind_lift. cbn [negb].
    destruct (GITHUB_TOKEN env) as [[|a tok]|]; try reflexivity.
    discriminate.
  - rewrite (webhook_of_try _ _ _ H). reflexivity.
  - apply (@webhook_try_outcome env net req r). rewrite H. reflexivity.
  - rewrite (webhook_of_raise _ _ _ H). reflexivity.
  - intros Hk. destruct (get_json req) as [e'|v] eqn:HJ.
    + left. unfold approval_webhook_try, request_json in H. rewrite HJ in H.
      cbn in H. inversion H. reflexivity.
    + right. apply (@webhook_try_raises env net req v e HJ); [|exact Hk].
      rewrite H. reflexivity.
Qed.

(** The documented codes on sample requests: 400 for a body that is no
    JSON, 401 for a wrong signature, 500 without a token, 200 for
    another event. *)
Example documented_status_codes :
  fst (approval_webhook Sample.env_secret Sample.offline Sample.garbled_request)
  = json_response
      [("error",
        PStr "Invalid request body: Expecting property name enclosed in double quotes: line 1 column 2 (char 1)")]
      400
  /\ fst (approval_webhook Sample.env_secret Sample.offline
            (Sample.signed_request "sha256=00"))
     = json_response [("error", PStr "Invalid signature")] 401
  /\ fst (approval_webhook
            {| GITHUB_WEBHOOK_SECRET := None; GITHUB_TOKEN := None;
               AUTHORIZED_USER := None |}
            Sample.offline (Sample.protection_request []))
     = json_response
         [("error", PStr "GitHub configuration is missing (GITHUB_TOKEN)")] 500
  /\ fst (approval_webhook Sample.env_default Sample.offline
            (Sample.event_request "push" []))
     = json_response
         [("message", PStr "Not a deployment protection rule request, skipping")]
         200.
Proof. vm_compute. repeat split; reflexivity. Qed.

(** C5, at the inputs where the code leaves it. A well-formed event of
    an unauthorized sender, whose callback address has a host label of 64
    characters: the rejection raises the [ValueError] of the connection
    layer, which is no [RequestException], and the handler answers 400
    [Invalid request body] for a body that parsed. A body nested deeper
    than the decoder goes: the decoder raises [RecursionError], which is
    no [ValueError], and the handler answers 500. A signature header with
    a character outside ASCII under a configured secret: the check raises
    and the handler answers 500 where a failed check answers 401. *)
Theorem status_code_mapping_diverges :
  approval_webhook Sample.env_default Sample.unreachable
    (Sample.protection_request
       (Sample.event_at Sample.long_label_address "mallory"))
  = (json_response
       [("error",
         PStr "Invalid request body: Failed to parse: 'aaaaaaaaaaaaaaaaaaaaaaaaaaaaaaaaaaaaaaaaaaaaaaaaaaaaaaaaaaaaaaaa.com', label empty or too long")]
       400,
     [ RejectDeployment (PStr Sample.long_label_address)
         (rejection_message (PStr "production")) ])
  /\ approval_webhook Sample.env_default Sample.unreachable
       Sample.nested_request
     = (json_response
          [("error",
            PStr "Unexpected error processing webhook: maximum recursion depth exceeded while decoding a JSON array from a unicode string")]
          500,
        [])
  /\ approval_webhook Sample.env_secret Sample.unreachable
       (Sample.signed_request Sample.e_acute)
     = (json_response
          [("error",
            PStr "Unexpected error processing webhook: comparing strings with non-ASCII characters is not supported")]
          500,
        []).
Proof. vm_compute. repeat split; reflexivity. Qed.

(* ===================================================================== *)
(** * Published test vectors of the hashing layer                         *)
(* ===================================================================== *)

Example sha256_abc :
  Hmac.hexdigest (Sha256.digest (list_byte_of_string "abc"))
  = "ba7816bf8f01cfea414140de5dae2223b00361a396177a9cb410ff61f20015ad".
Proof. vm_compute. reflexivity. Qed.

Example sha256_empty :
  Hmac.hexdigest (Sha256.digest [])
  = "e3b0c44298fc1c149afbf4c8996fb92427ae41e4649b934ca495991b7852b855".
Proof. vm_compute. reflexivity. Qed.

Example hmac_sha256_fox :
  Hmac.hexdigest (Hmac.hmac_sha256 (list_byte_of_string "key")
     (list_byte_of_string "The quick brown fox jumps over the lazy dog"))
  = "f7bc83f430538424b13298e6aa6fb143ef4d59a14946175997479dbc2d1a3cd8".
Proof. vm_compute. reflexivity. Qed.

Example sha256_two_blocks :
  Hmac.hexdigest
    (Sha256.digest
       (list_byte_of_string
          "abcdbcdecdefdefgefghfghighijhijkijkljklmklmnlmnomnopnopq"))
  = "248d6a61d20638b8e5c026930c3e6039a33ce45964ff2167f6ecedd419db06c1".
Proof. vm_compute. reflexivity. Qed.

Example sha256_full_block :
  Hmac.hexdigest (Sha256.digest (repeat "a"%byte 64))
  = "ffe054fe7ae0cb6dc65c3af9b61d5209f439851db43d0ba5997337df154668eb".
Proof. vm_compute. reflexivity. Qed.

Example hmac_sha256_long_key :
  Hmac.hexdigest (Hmac.hmac_sha256 (repeat "k"%byte 100)
                    (list_byte_of_string "payload"))
  = "d1f7df739bab9a7fe462c212b3057053056af9cc307e5f9d64122aaaf148e9fe".
Proof. vm_compute. reflexivity. Qed.

(** A secret with a character outside ASCII is keyed by its UTF-8 form. *)
Example expected_signature_accented_secret :
  Spec.expected_signature (list_byte_of_string "{}")
    ("cl" ++ Sample.e_acute)
  = "sha256=601f34a13f988e6e9f3a8069cc08856e777dd3fbb72f8fe98b9dc72c91b76269".
Proof. vm_compute. reflexivity. Qed.

Example verify_signature_accepts :
  verify_signature (list_byte_of_string "{}")
    (Some "sha256=adbde1ce40c89c14215687d5d762a47df6dfaefcfad61e2e86718ffc8498571b")
    "s3cret" = Ok true.
Proof. vm_compute. reflexivity. Qed.

Example verify_signature_rejects_other_body :
  verify_signature (list_byte_of_string "{ }")
    (Some "sha256=adbde1ce40c89c14215687d5d762a47df6dfaefcfad61e2e86718ffc8498571b")
    "s3cret" = Ok false.
Proof. vm_compute. reflexivity. Qed.

(* ===================================================================== *)
(** * The contract of each gateway operation                              *)
(* ===================================================================== *)

Lemma raise_for_status_cases (r : Response) :
  (Spec.completes r = true /\ Requests.raise_for_status r = Ok tt)
  \/ (Spec.completes r = false
      /\ Requests.raise_for_status r
         = Raise (Exn RequestException (Spec.http_error r))).
Proof.
  unfold Spec.completes, Spec.http_error, Requests.raise_for_status.
  destruct (Z.leb_spec 400 (status_code r)), (Z.ltb_spec (status_code r) 500),
    (Z.leb_spec 500 (status_code r)), (Z.ltb_spec (status_code r) 600);
    cbn; auto; lia.
Qed.

(** An address of the client under its base URL is under the API
    root. *)
Lemma get_at_api (net : network) (u : string)
  (h : list (string * string)) :
  Requests.under_api u = true ->
  Requests.get net u h
  = match requests_get net u h with
    | inr r => Ok r
    | inl msg => Raise (Exn RequestException msg)
    end.
Proof.
  intros H. unfold Requests.get. rewrite (connect_under_api net u H).
  reflexivity.
Qed.

Lemma catch_request_exception (h : exn -> pyval) (e : exn) :
  rcatch RequestException (Raise e) h = Spec.gateway_catch h e.
Proof. unfold rcatch, Spec.gateway_catch. destruct (exn_kind e); reflexivity. Qed.

(** X1: [get_workflow_run] asks for the run at its REST address with the
    bearer headers, and returns the decoded answer when the request
    completes with a status outside 400-599 and a decodable body. A
    transport error, a status in 400-599 and a decoding error that is a
    [RequestException] give [None]; any other exception of the decoder
    is raised to the caller. *)
Theorem get_workflow_run_contract (net : network) (tok : string)
  (repo_owner repo_name run_id : pyval) :
  get_workflow_run_body net (new_GitHubClient tok) repo_owner repo_name run_id
  = match requests_get net
            (Spec.run_address repo_owner repo_name run_id)
            (Spec.bearer_headers tok) with
    | inl _ => Ok PNone
    | inr response =>
        if Spec.completes response then
          match json_result response with
          | inr run => Ok run
          | inl e => Spec.gateway_catch (fun _ => PNone) e
          end
        else Ok PNone
    end.
Proof.
  unfold get_workflow_run_body.
  change (base_url (new_GitHubClient tok) ++ "/repos/" ++ Py.str repo_owner
          ++ "/" ++ Py.str repo_name ++ "/actions/runs/" ++ Py.str run_id)
    with (Spec.run_address repo_owner repo_name run_id).
  change (headers (new_GitHubClient tok)) with (Spec.bearer_headers tok).
  rewrite get_at_api by reflexivity.
  destruct (requests_get net (Spec.run_address repo_owner repo_name run_id)
              (Spec.bearer_headers tok)) as [msg|response]; [reflexivity|].
  cbn [rbind].
  destruct (raise_for_status_cases response) as [[Hc Hr]|[Hc Hr]];
    rewrite Hc, Hr; [|reflexivity].
  cbn [rbind]. unfold Requests.json.
  destruct (json_result response); [apply catch_request_exception|reflexivity].
Qed.

(** X2: [get_user] does the same at the address of the user. *)
Theorem get_user_contract (net : network) (tok : string) (username : pyval) :
  get_user_body net (new_GitHubClient tok) username
  = match requests_get net (Spec.user_address username)
            (Spec.bearer_headers tok) with
    | inl _ => Ok PNone
    | inr response =>
        if Spec.completes response then
          match json_result response with
          | inr user => Ok user
          | inl e => Spec.gateway_catch (fun _ => PNone) e
          end
        else Ok PNone
    end.
Proof.
  unfold get_user_body.
  change (base_url (new_GitHubClient tok) ++ "/users/" ++ Py.str username)
    with (Spec.user_address username).
  change (headers (new_GitHubClient tok)) with (Spec.bearer_headers tok).
  rewrite get_at_api by reflexivity.
  destruct (requests_get net (Spec.user_address username)
              (Spec.bearer_headers tok)) as [msg|response]; [reflexivity|].
  cbn [rbind].
  destruct (raise_for_status_cases response) as [[Hc Hr]|[Hc Hr]];
    rewrite Hc, Hr; [|reflexivity].
  cbn [rbind]. unfold Requests.json.
  destruct (json_result response); [apply catch_request_exception|reflexivity].
Qed.

(** X3: [approve_deployment] and [reject_deployment] post the state, the
    comment and an empty environment name to a text callback address. A
    transport error, a status in 400-599 and a decoding error of a
    non-empty body that is a [RequestException] give the object with the
    [error] field; an empty body gives the synthetic status object; any
    other body is returned decoded. An exception that is no
    [RequestException], of the connection layer for an address outside
    the API root or of the decoder, is raised to the caller. *)
Theorem decision_contract (net : network) (tok address comment : string) :
  approve_deployment_body net (new_GitHubClient tok) (PStr address) comment
  = Spec.decision_result "approved" "approving" (Spec.refusal net address)
      (requests_post net address (Spec.bearer_headers tok)
         (PDict [ ("state", PStr "approved"); ("comment", PStr comment);
                  ("environment_name", PStr "") ]))
  /\ reject_deployment_body net (new_GitHubClient tok) (PStr address) comment
     = Spec.decision_result "rejected" "rejecting" (Spec.refusal net address)
         (requests_post net address (Spec.bearer_headers tok)
            (PDict [ ("state", PStr "rejected"); ("comment", PStr comment);
                     ("environment_name", PStr "") ])).
Proof.
  split.
  - unfold approve_deployment_body, Requests.post, Requests.connect,
      deployment_payload, Spec.decision_result, Spec.refusal.
    change (headers (new_GitHubClient tok)) with (Spec.bearer_headers tok).
    destruct (Requests.under_api address);
      [|destruct (host_error net address) as [e|];
        [apply catch_request_exception|]].
    all: match goal with |- context [requests_post ?n ?a ?h ?b] =>
           destruct (requests_post n a h b) as [msg|response]
         end; [reflexivity|].
    all: cbn [rbind].
    all: destruct (raise_for_status_cases response) as [[Hc Hr]|[Hc Hr]];
           rewrite Hc, Hr; [|reflexivity].
    all: cbn [rbind]; unfold Requests.json.
    all: destruct (String.eqb (text response) ""); [reflexivity|].
    all: cbn [negb].
    all: destruct (json_result response);
           [apply catch_request_exception|reflexivity].
  - unfold reject_deployment_body, Requests.post, Requests.connect,
      deployment_payload, Spec.decision_result, Spec.refusal.
    change (headers (new_GitHubClient tok)) with (Spec.bearer_headers tok).
    destruct (Requests.under_api address);
      [|destruct (host_error net address) as [e|];
        [apply catch_request_exception|]].
    all: match goal with |- context [requests_post ?n ?a ?h ?b] =>
           destruct (requests_post n a h b) as [msg|response]
         end; [reflexivity|].
    all: cbn [rbind].
    all: destruct (raise_for_status_cases response) as [[Hc Hr]|[Hc Hr]];
           rewrite Hc, Hr; [|reflexivity].
    all: cbn [rbind]; unfold Requests.json.
    all: destruct (String.eqb (text response) ""); [reflexivity|].
    all: cbn [negb].
    all: destruct (json_result response);
           [apply catch_request_exception|reflexivity].
Qed.

(** At the address with a host label of 64 characters the rejection
    raises, and so does a decision whose answer is nested too deeply. *)
Example decision_raises :
  reject_deployment_body Sample.unreachable Sample.client
    (PStr Sample.long_label_address) "no"
  = Raise (Exn ValueError
             "Failed to parse: 'aaaaaaaaaaaaaaaaaaaaaaaaaaaaaaaaaaaaaaaaaaaaaaaaaaaaaaaaaaaaaaaa.com', label empty or too long").
Proof. vm_compute. reflexivity. Qed.

(** X4: with a callback address that is no text (an absent field gives
    [None]), a decision returns its error object whatever the network
    would answer: nothing is sent. *)
Theorem decision_without_address (net : network) (self : GitHubClient)
  (callback_url : pyval) (comment : string) :
  (forall address, callback_url <> PStr address) ->
  approve_deployment_body net self callback_url comment
  = Ok (Spec.decision_error "approving" (url_error net callback_url))
  /\ reject_deployment_body net self callback_url comment
     = Ok (Spec.decision_error "rejecting" (url_error net callback_url)).
Proof.
  intros H. split.
  - apply approve_without_address. exact H.
  - apply reject_without_address. exact H.
Qed.

Lemma decision_without_address_witness :
  approve_deployment_body Sample.offline Sample.client PNone "ok"
  = Ok (Spec.decision_error "approving" (url_error Sample.offline PNone))
  /\ reject_deployment_body Sample.offline Sample.client PNone "ok"
     = Ok (Spec.decision_error "rejecting" (url_error Sample.offline PNone)).
Proof.
  apply (@decision_without_address Sample.offline Sample.client PNone "ok").
  intros address. discriminate.
Defined.

(** X5: [add_workflow_summary_error] asks for the jobs of the run and
    returns [True] exactly when the request completes with a JSON object
    whose [jobs] entry is non-empty; a transport error, a status in
    400-599, a decoding error that is a [RequestException] and an object
    without jobs give [False]; a decoded body that is no object makes it
    raise [AttributeError], and any other exception of the decoder is
    raised as well. *)
Theorem add_workflow_summary_error_contract (net : network) (tok : string)
  (repo_owner repo_name run_id : pyval) (error_message : string) :
  add_workflow_summary_error_body net (new_GitHubClient tok)
    repo_owner repo_name run_id error_message
  = match requests_get net (Spec.jobs_address repo_owner repo_name run_id)
            (Spec.bearer_headers tok) with
    | inl _ => Ok (PBool false)
    | inr response =>
        if Spec.completes response then
          match json_result response with
          | inl e => Spec.gateway_catch (fun _ => PBool false) e
          | inr (PDict d) =>
              Ok (PBool (Py.truthy (Spec.field "jobs" d (PList []))))
          | inr v => Raise (Py.attribute_error v "get")
          end
        else Ok (PBool false)
    end.
Proof.
  unfold add_workflow_summary_error_body.
  change (base_url (new_GitHubClient tok) ++ "/repos/" ++ Py.str repo_owner
          ++ "/" ++ Py.str repo_name ++ "/actions/runs/" ++ Py.str run_id
          ++ "/jobs")
    with (Spec.jobs_address repo_owner repo_name run_id).
  change (headers (new_GitHubClient tok)) with (Spec.bearer_headers tok).
  rewrite get_at_api by reflexivity.
  destruct (requests_get net (Spec.jobs_address repo_owner repo_name run_id)
              (Spec.bearer_headers tok)) as [msg|response]; [reflexivity|].
  cbn [rbind].
  destruct (raise_for_status_cases response) as [[Hc Hr]|[Hc Hr]];
    rewrite Hc, Hr; [|reflexivity].
  cbn [rbind]. unfold Requests.json.
  destruct (json_result response) as [e|v];
    [apply catch_request_exception|].
  destruct v; try reflexivity.
  cbn [rbind Py.get rcatch]. unfold Spec.field.
  destruct (Py.truthy match Py.lookup "jobs" d with
                      | Some x => x
                      | None => PList []
                      end); reflexivity.
Qed.

(** X6: [cancel_workflow_run] posts to the cancel address without a body
    and never raises: it returns the [cancelled] status object when the
    request completes with a status outside 400-599, whatever the answer
    holds, and the object with the [error] field otherwise. *)
Theorem cancel_workflow_run_contract (net : network) (tok : string)
  (repo_owner repo_name run_id : pyval) :
  cancel_workflow_run_body net (new_GitHubClient tok)
    repo_owner repo_name run_id
  = Ok (match requests_post net
                (Spec.cancel_address repo_owner repo_name run_id)
                (Spec.bearer_headers tok) PNone with
        | inl msg =>
            PDict [("error", PStr ("Error cancelling workflow run: " ++ msg))]
        | inr response =>
            if Spec.completes response
            then PDict [("status", PStr "cancelled")]
            else PDict [("error",
                         PStr ("Error cancelling workflow run: "
                               ++ Spec.http_error response))]
        end).
Proof.
  unfold cancel_workflow_run_body, Requests.post.
  change (base_url (new_GitHubClient tok) ++ "/repos/" ++ Py.str repo_owner
          ++ "/" ++ Py.str repo_name ++ "/actions/runs/" ++ Py.str run_id
          ++ "/cancel")
    with (Spec.cancel_address repo_owner repo_name run_id).
  change (headers (new_GitHubClient tok)) with (Spec.bearer_headers tok).
  rewrite (connect_under_api net
             (Spec.cancel_address repo_owner repo_name run_id) eq_refl).
  destruct (requests_post net (Spec.cancel_address repo_owner repo_name run_id)
              (Spec.bearer_headers tok) PNone) as [msg|response];
    [reflexivity|].
  cbn [rbind].
  destruct (raise_for_status_cases response) as [[Hc Hr]|[Hc Hr]];
    rewrite Hc, Hr; reflexivity.
Qed.

(* ===================================================================== *)
(** * Normalized user names                                               *)
(* ===================================================================== *)

Lemma has_char_app (c : ascii) (a b : string) :
  PyStr.has_char c (a ++ b) = PyStr.has_char c a || PyStr.has_char c b.
Proof.
  induction a as [|x a IH]; [reflexivity|].
  cbn [append PyStr.has_char]. rewrite IH, orb_assoc. reflexivity.
Qed.

Lemma has_char_inner (c : ascii) (l m t : string) :
  PyStr.has_char c (l ++ m ++ t) = false -> PyStr.has_char c m = false.
Proof.
  rewrite !has_char_app. intros H.
  apply orb_false_iff in H. destruct H as [_ H].
  apply orb_false_iff in H. tauto.
Qed.

Lemma has_char_strip (c : ascii) (s : string) :
  PyStr.has_char c s = false -> PyStr.has_char c (PyStr.strip s) = false.
Proof.
  destruct (strip_decomposes s) as (l & t & Hs & _ & _).
  intros H. rewrite Hs in H. apply (has_char_inner _ _ _ _ H).
Qed.

Lemma cut_before_clean (c : ascii) (s : string) :
  PyStr.has_char c (Spec.when_present c (Spec.before_first c) s) = false.
Proof.
  unfold Spec.when_present. destruct (PyStr.has_char c s) eqn:H; [|exact H].
  apply (before_first_decomposes c s H).
Qed.

Lemma cut_after_clean (c : ascii) (s : string) :
  PyStr.has_char c (Spec.when_present c (Spec.after_last c) s) = false.
Proof.
  unfold Spec.when_present. destruct (PyStr.has_char c s) eqn:H; [|exact H].
  apply (after_last_decomposes c s H).
Qed.

Lemma cut_after_keeps_clean (c d : ascii) (s : string) :
  PyStr.has_char d s = false ->
  PyStr.has_char d (Spec.when_present c (Spec.after_last c) s) = false.
Proof.
  unfold Spec.when_present. intros Hd.
  destruct (PyStr.has_char c s) eqn:H; [|exact Hd].
  destruct (after_last_decomposes c s H) as [_ [front Hs]].
  rewrite Hs in Hd. change (String c (Spec.after_last c s))
    with (String c EmptyString ++ Spec.after_last c s) in Hd.
  rewrite !has_char_app in Hd.
  apply orb_false_iff in Hd. destruct Hd as [_ Hd].
  apply orb_false_iff in Hd. tauto.
Qed.

Lemma lstrip_clean (s : string) :
  match s with
  | EmptyString => True
  | String c _ => PyStr.is_space c = false
  end ->
  PyStr.lstrip s = s.
Proof. destruct s as [|c r]; [reflexivity|]. cbn. intros ->. reflexivity. Qed.

Lemma rstrip_clean (s : string) :
  match Spec.last_char s with
  | Some c => PyStr.is_space c = false
  | None => True
  end ->
  PyStr.rstrip s = s.
Proof.
  induction s as [|c r IH]; [reflexivity|].
  cbn [PyStr.rstrip]. destruct r as [|a r'].
  - cbn. intros ->. reflexivity.
  - intros H. change (Spec.last_char (String c (String a r')))
      with (Spec.last_char (String a r')) in H.
    rewrite (IH H). reflexivity.
Qed.

Lemma strip_strip (s : string) : PyStr.strip (PyStr.strip s) = PyStr.strip s.
Proof.
  unfold PyStr.strip at 1.
  rewrite (lstrip_clean _ (strip_starts_clean s)).
  apply rstrip_clean, strip_ends_clean.
Qed.

Lemma is_plain_parts (s : string) :
  Spec.is_plain s = true <->
  PyStr.has_char "@" s = false /\ PyStr.has_char "\" s = false
  /\ PyStr.has_char "/" s = false /\ PyStr.strip s = s.
Proof.
  unfold Spec.is_plain. rewrite !andb_true_iff, !negb_true_iff, String.eqb_eq.
  tauto.
Qed.

Lemma extract_plain (s : string) :
  Spec.is_plain s = true -> Spec.extractUsername s = s.
Proof.
  intros H. apply is_plain_parts in H. destruct H as (Ha & Hb & Hs & Hst).
  unfold Spec.extractUsername, Spec.when_present.
  rewrite Ha, Hb, Hs. exact Hst.
Qed.

Lemma extract_is_plain (s : string) :
  Spec.is_plain (Spec.extractUsername s) = true.
Proof.
  apply is_plain_parts. unfold Spec.extractUsername.
  set (s1 := Spec.when_present "@" (Spec.before_first "@") s).
  set (s2 := Spec.when_present "\" (Spec.after_last "\") s1).
  set (s3 := Spec.when_present "/" (Spec.after_last "/") s2).
  assert (H1 : PyStr.has_char "@" s1 = false) by apply cut_before_clean.
  assert (H2 : PyStr.has_char "\" s2 = false) by apply cut_after_clean.
  assert (H3 : PyStr.has_char "/" s3 = false) by apply cut_after_clean.
  assert (H12 : PyStr.has_char "@" s2 = false)
    by (apply cut_after_keeps_clean; exact H1).
  assert (H13 : PyStr.has_char "@" s3 = false)
    by (apply cut_after_keeps_clean; exact H12).
  assert (H23 : PyStr.has_char "\" s3 = false)
    by (apply cut_after_keeps_clean; exact H2).
  repeat split; try (apply has_char_strip; assumption).
  apply strip_strip.
Qed.

(** X7: whatever text it is given, [_extract_username] returns a text
    without [@], backslash and slash and without white space at its ends,
    and normalizing that text again gives it back. *)
Theorem extract_username_normal_form (raw : string) :
  exists u,
    _extract_username (PStr raw) = Ok (PStr u)
    /\ PyStr.has_char "@" u = false
    /\ PyStr.has_char "\" u = false
    /\ PyStr.has_char "/" u = false
    /\ PyStr.strip u = u
    /\ _extract_username (PStr u) = Ok (PStr u).
Proof.
  exists (Spec.extractUsername raw).
  pose proof (extract_is_plain raw) as Hp.
  destruct (proj1 (is_plain_parts _) Hp) as (Ha & Hb & Hs & Hst).
  rewrite !extract_username_text, (extract_plain _ Hp). auto 10.
Qed.

Lemma before_first_app (c : ascii) (u d : string) :
  PyStr.has_char c u = false -> Spec.before_first c (u ++ String c d) = u.
Proof.
  induction u as [|a u IH]; cbn [append Spec.before_first PyStr.has_char].
  - rewrite Ascii.eqb_refl. reflexivity.
  - intros H. apply orb_false_iff in H. destruct H as [Ha Hu].
    rewrite Ha, (IH Hu). reflexivity.
Qed.

Lemma after_last_app (c : ascii) (d u : string) :
  PyStr.has_char c u = false -> Spec.after_last c (d ++ String c u) = u.
Proof.
  intros Hu. induction d as [|a d IH]; cbn [append Spec.after_last].
  - rewrite Hu, Ascii.eqb_refl. reflexivity.
  - rewrite has_char_app. cbn [PyStr.has_char]. rewrite Ascii.eqb_refl.
    rewrite orb_true_r. exact IH.
Qed.

(** X8: a plain user name qualified by a mail domain, a backslash prefix
    or a slash prefix normalizes to the plain name, so all these forms
    are validated as that user. *)
Theorem qualified_names_collapse (user domain : string) :
  Spec.is_plain user = true ->
  PyStr.has_char "@" domain = false ->
  PyStr.has_char "\" domain = false ->
  _extract_username (PStr (user ++ "@" ++ domain)) = Ok (PStr user)
  /\ _extract_username (PStr (domain ++ "\" ++ user)) = Ok (PStr user)
  /\ _extract_username (PStr (domain ++ "/" ++ user)) = Ok (PStr user).
Proof.
  intros Hp Hda Hdb.
  destruct (proj1 (is_plain_parts _) Hp) as (Ha & Hb & Hs & Hst).
  rewrite !extract_username_text.
  unfold Spec.extractUsername, Spec.when_present.
  repeat split.
  - change ("@" ++ domain) with (String "@" domain).
    rewrite has_char_app. cbn [PyStr.has_char]. rewrite Ascii.eqb_refl.
    rewrite orb_true_r, (before_first_app "@" user domain Ha), Hb, Hs, Hst.
    reflexivity.
  - change ("\" ++ user) with (String "\" user).
    rewrite !has_char_app. cbn [PyStr.has_char]. rewrite Hda, Ha.
    cbn [orb Ascii.eqb Bool.eqb]. rewrite !has_char_app. cbn [PyStr.has_char].
    rewrite Ascii.eqb_refl, orb_true_r, (after_last_app "\" domain user Hb).
    rewrite Hs, Hst. reflexivity.
  - change ("/" ++ user) with (String "/" user).
    rewrite !has_char_app. cbn [PyStr.has_char]. rewrite Hda, Ha.
    cbn [orb Ascii.eqb Bool.eqb]. rewrite !has_char_app. cbn [PyStr.has_char].
    rewrite Hdb, Hb. cbn [orb Ascii.eqb Bool.eqb].
    rewrite !has_char_app. cbn [PyStr.has_char].
    rewrite Ascii.eqb_refl, orb_true_r, (after_last_app "/" domain user Hs).
    rewrite Hst. reflexivity.
Qed.

Lemma qualified_names_collapse_witness :
  _extract_username (PStr ("octocat" ++ "@" ++ "example.com"))
  = Ok (PStr "octocat")
  /\ _extract_username (PStr ("example.com" ++ "\" ++ "octocat"))
     = Ok (PStr "octocat")
  /\ _extract_username (PStr ("example.com" ++ "/" ++ "octocat"))
     = Ok (PStr "octocat").
Proof.
  apply (@qualified_names_collapse "octocat" "example.com"); reflexivity.
Defined.

(* ===================================================================== *)
(** * The validator: its answers and its use of the gateway              *)
(* ===================================================================== *)

Section ValidatorAnswers.

Variable net : network.
Variable github_client : GitHubClient.
Variable authorized_user : string.

(** X9: [validate_deployment_user] never raises and has two kinds of
    answer: for a resolution that yields a non-empty text, the verdict on
    that text; in every other case (nothing resolved, a resolved value
    that is no text, an exception on a malformed payload) the record with
    [is_valid] false, [initiated_by] [Unknown] and an [error] message. *)
Theorem validate_answers (payload : pyval) :
  (exists s run_id t,
     resolve_initiator net github_client payload = (Ok (PStr s, run_id), t)
     /\ s <> ""
     /\ validate_deployment_user net github_client authorized_user payload
        = (Ok (PDict ([ ("is_valid",
                         PBool (Spec.same_user (Spec.extractUsername s)
                                  (Spec.extractUsername authorized_user)));
                        ("initiated_by", PStr s);
                        ("username_checked", PStr (Spec.extractUsername s)) ]
                      ++ (if Py.truthy run_id then [("run_id", run_id)]
                          else []))), t))
  \/ (exists msg t,
        validate_deployment_user net github_client authorized_user payload
        = (Ok (PDict [ ("is_valid", PBool false);
                       ("initiated_by", PStr "Unknown");
                       ("error", PStr msg) ]), t)).
Proof.
  destruct (resolve_initiator net github_client payload) as [[[v run_id]|e] t]
    eqn:Hr.
  2: { right. exists (exn_str e), t. unfold validate_deployment_user.
       rewrite Hr. cbn. rewrite app_nil_r. reflexivity. }
  destruct (Py.truthy v) eqn:Ht.
  2: { right. exists "Could not determine deployment initiator", t.
       apply (@validate_after_resolution net github_client authorized_user
                payload (v, run_id) t _ Hr).
       apply decide_user_empty. exact Ht. }
  destruct v as [|b|z|f|s|l|d].
  5: { left. exists s, run_id, t.
       assert (Hs : s <> "") by (intros ->; discriminate).
       split; [reflexivity|]. split; [exact Hs|].
       apply (@validate_after_resolution net github_client authorized_user
                payload (PStr s, run_id) t _ Hr).
       apply decide_user_text. exact Hs. }
  all: right;
    match goal with
    | Hr : _ = (Ok (?v, _), _) |- _ =>
        destruct (@extract_username_non_text v Ht) as [e He];
          [intros s; discriminate|];
        exists (exn_str e), t; unfold validate_deployment_user;
        rewrite Hr; unfold bind, lift, decide_user; cbn [fst snd];
        rewrite Ht, He; cbn; rewrite ?app_nil_r; reflexivity
    end.
Qed.

(** X10: for user names as GitHub has them (no [@], backslash or slash,
    no white space around), validation is equality without regard to
    case of the resolved initiator and the authorized user. *)
Theorem plain_logins_compare_by_case (payload : pyval) (s : string)
  (run_id : pyval) (t : list gateway_call) :
  resolve_initiator net github_client payload = (Ok (PStr s, run_id), t) ->
  s <> "" ->
  Spec.is_plain s = true ->
  Spec.is_plain authorized_user = true ->
  validate_deployment_user net github_client authorized_user payload
  = (Ok (PDict ([ ("is_valid",
                   PBool (String.eqb (PyStr.lower s)
                            (PyStr.lower authorized_user)));
                  ("initiated_by", PStr s);
                  ("username_checked", PStr s) ]
                ++ (if Py.truthy run_id then [("run_id", run_id)] else []))),
     t).
Proof.
  intros Hr Hs Hp Ha.
  pose proof (@validate_after_resolution net github_client authorized_user
                payload (PStr s, run_id) t _ Hr
                (@decide_user_text authorized_user s run_id Hs)) as Hv.
  unfold Spec.same_user in Hv.
  rewrite (extract_plain _ Hp), (extract_plain _ Ha) in Hv. exact Hv.
Qed.

End ValidatorAnswers.

Lemma plain_logins_compare_by_case_witness :
  validate_deployment_user Sample.offline Sample.client "OctoCat"
    (PDict (Sample.event_of "octocat"))
  = (Ok (PDict [ ("is_valid", PBool true);
                 ("initiated_by", PStr "octocat");
                 ("username_checked", PStr "octocat");
                 ("run_id", PInt 7) ]), []).
Proof.
  apply (@plain_logins_compare_by_case Sample.offline Sample.client "OctoCat"
           (PDict (Sample.event_of "octocat")) "octocat" (PInt 7) []).
  - reflexivity.
  - discriminate.
  - reflexivity.
  - reflexivity.
Defined.

Lemma bind_snd {A B} (m : M A) (f : A -> M B) :
  snd (bind m f)
  = (snd m ++ match fst m with
              | Ok a => snd (f a)
              | Raise _ => []
              end)%list.
Proof.
  unfold bind. destruct m as [[a|e] t]; cbn [fst snd].
  - destruct (f a). reflexivity.
  - rewrite app_nil_r. reflexivity.
Qed.

Lemma validate_snd (net : network) (client : GitHubClient) (auth : string)
  (payload : pyval) :
  snd (validate_deployment_user net client auth payload)
  = snd (resolve_initiator net client payload).
Proof.
  unfold validate_deployment_user, try_except, bind, lift.
  destruct (resolve_initiator net client payload) as [[r|e] t]; cbn.
  - destruct (decide_user auth (fst r) (snd r)); cbn; rewrite ?app_nil_r;
      reflexivity.
  - rewrite app_nil_r. reflexivity.
Qed.

Lemma method4_fetch (net : network) (client : GitHubClient)
  (payload run_id i : pyval) :
  snd (method4 net client payload run_id i) = []
  \/ exists body r o,
       payload = PDict body
       /\ Spec.field "repository" body (PDict []) = PDict r
       /\ Spec.field "owner" r (PDict []) = PDict o
       /\ Py.truthy i = false /\ Py.truthy run_id = true
       /\ Py.truthy (Spec.field "login" o PNone) = true
       /\ Py.truthy (Spec.field "name" r PNone) = true
       /\ snd (method4 net client payload run_id i)
          = [GetWorkflowRun (Spec.field "login" o PNone)
               (Spec.field "name" r PNone) run_id].
Proof.
  unfold method4.
  destruct (Py.truthy i) eqn:Ti; [left; reflexivity|].
  destruct (Py.truthy run_id) eqn:Tr; [|left; reflexivity].
  cbn [negb andb]. rewrite bind_lift.
  destruct payload as [| | | | | |body]; try (left; reflexivity).
  cbn [Py.get]. fold (Spec.field "repository" body (PDict [])).
  rewrite bind_lift.
  destruct (Spec.field "repository" body (PDict [])) as [| | | | | |r] eqn:Hrepo;
    try (left; reflexivity).
  cbn [Py.get]. fold (Spec.field "owner" r (PDict [])).
  rewrite bind_lift.
  destruct (Spec.field "owner" r (PDict [])) as [| | | | | |o] eqn:Ho;
    try (left; reflexivity).
  cbn [Py.get]. fold (Spec.field "login" o PNone) (Spec.field "name" r PNone).
  rewrite !bind_lift.
  destruct (Py.truthy (Spec.field "login" o PNone)) eqn:Tl;
    [|left; reflexivity].
  destruct (Py.truthy (Spec.field "name" r PNone)) eqn:Tn;
    [|left; reflexivity].
  right. exists body, r, o. repeat split; try assumption; try reflexivity.
  cbn [andb]. rewrite bind_snd. unfold get_workflow_run.
  rewrite bind_snd. cbn [tell fst snd lift app].
  destruct (get_workflow_run_body net client (Spec.field "login" o PNone)
              (Spec.field "name" r PNone) run_id); reflexivity.
Qed.

Lemma resolve_fetch (net : network) (client : GitHubClient) (payload : pyval) :
  snd (resolve_initiator net client payload) = []
  \/ exists body r o w,
       payload = PDict body
       /\ Spec.field "repository" body (PDict []) = PDict r
       /\ Spec.field "owner" r (PDict []) = PDict o
       /\ Spec.field "workflow" body (PDict []) = PDict w
       /\ snd (resolve_initiator net client payload)
          = [GetWorkflowRun (Spec.field "login" o PNone)
               (Spec.field "name" r PNone) (Spec.field "id" w PNone)].
Proof.
  unfold resolve_initiator.
  destruct payload as [| | | | | |body]; try (left; reflexivity).
  cbn [Py.get]. rewrite !bind_lift.
  fold (Spec.field "workflow" body (PDict [])).
  destruct (Spec.field "workflow" body (PDict [])) as [| | | | | |w] eqn:Hw;
    try (left; reflexivity).
  cbn [Py.get]. fold (Spec.field "id" w PNone).
  rewrite bind_lift.
  match goal with |- context [method1 ?d ?i] =>
    destruct (method1 d i) as [i1|e]
  end; [|left; reflexivity].
  rewrite bind_lift.
  destruct (method2 (PDict w) i1) as [i2|e]; [|left; reflexivity].
  rewrite bind_lift.
  match goal with |- context [method3 ?sd ?i] =>
    destruct (method3 sd i) as [i3|e]
  end; [|left; reflexivity].
  rewrite bind_snd.
  assert (Htail : forall m : M pyval,
            match fst m with
            | Ok a => snd (ret (a, Spec.field "id" w PNone))
            | Raise _ => []
            end = (@nil gateway_call)).
  { intros m. destruct (fst m); reflexivity. }
  rewrite Htail, app_nil_r.
  destruct (method4_fetch net client (PDict body) (Spec.field "id" w PNone) i3)
    as [H|(body' & r & o & Hb & Hr & Ho & _ & _ & _ & _ & H)]; [left; exact H|].
  right. inversion Hb; subst body'. exists body, r, o, w. auto.
Qed.

(** X11: the validator uses the gateway at most once, and only to fetch
    the run the payload names: the owner login and the name of its
    repository and the id of its workflow. *)
Theorem validate_fetches_own_run (net : network) (client : GitHubClient)
  (auth : string) (payload : pyval) :
  snd (validate_deployment_user net client auth payload) = []
  \/ exists body r o w,
       payload = PDict body
       /\ Spec.field "repository" body (PDict []) = PDict r
       /\ Spec.field "owner" r (PDict []) = PDict o
       /\ Spec.field "workflow" body (PDict []) = PDict w
       /\ snd (validate_deployment_user net client auth payload)
          = [GetWorkflowRun (Spec.field "login" o PNone)
               (Spec.field "name" r PNone) (Spec.field "id" w PNone)].
Proof. rewrite validate_snd. apply resolve_fetch. Qed.

(** The fetch happens when the payload itself names nobody. *)
Example validate_fetches_when_needed :
  validate_deployment_user
    (Sample.answering "{}"
       (PDict [("triggering_actor", PDict [("login", PStr "carol")])]))
    Sample.client "carol" Sample.event_without_sender
  = (Ok (PDict [ ("is_valid", PBool true);
                 ("initiated_by", PStr "carol");
                 ("username_checked", PStr "carol");
                 ("run_id", PInt 7) ]),
     [GetWorkflowRun (PStr "octo") (PStr "app") (PInt 7)]).
Proof. reflexivity. Qed.

(* ===================================================================== *)
(** * The handler: when and how it uses the gateway                       *)
(* ===================================================================== *)

(** Before anything else the handler reads fields off the repository, the
    owner, the deployment and the workflow: unless all four are objects it
    raises at once. *)
Lemma process_cases (net : network) (tok auth : string)
  (req_body url deployment repository workflow : pyval) :
  (exists e,
     process_deployment net tok auth req_body url deployment repository
       workflow = (Raise e, []))
  \/ (exists d r o w,
        deployment = PDict d /\ repository = PDict r
        /\ Spec.field "owner" r (PDict []) = PDict o /\ workflow = PDict w).
Proof.
  unfold process_deployment.
  destruct repository as [| | | | | |r]; try (left; eexists; reflexivity).
  cbn [Py.get]. rewrite !bind_lift. fold (Spec.field "owner" r (PDict [])).
  destruct (Spec.field "owner" r (PDict [])) as [| | | | | |o] eqn:Ho;
    try (left; eexists; reflexivity).
  cbn [Py.get]. rewrite !bind_lift.
  destruct deployment as [| | | | | |d]; try (left; eexists; reflexivity).
  cbn [Py.get]. rewrite !bind_lift.
  destruct workflow as [| | | | | |w]; try (left; eexists; reflexivity).
  right. exists d, r, o, w. auto.
Qed.

(** A request that starts no gateway operation, or one that reaches the
    decision. *)
Lemma webhook_try_stage (env : environ) (net : network) (req : HttpRequest) :
  snd (approval_webhook_try env net req) = []
  \/ exists body tok, Spec.reaches_decision env req body tok.
Proof.
  destruct (get_json req) as [msg|v] eqn:HJ.
  { left. unfold approval_webhook_try, request_json. rewrite HJ. reflexivity. }
  destruct (check_signature env req) as [[|]|e] eqn:HS.
  2,3: left; unfold approval_webhook_try, request_json;
       rewrite HJ, bind_lift, HS, ?bind_lift; reflexivity.
  destruct (GITHUB_TOKEN env) as [[|a tok]|] eqn:HT.
  1,3: left; unfold approval_webhook_try, request_json;
       rewrite HJ, bind_lift, HS, bind_lift, HT; reflexivity.
  destruct v as [| | | | |l|body].
  1-6: left; unfold approval_webhook_try, request_json;
       rewrite HJ, bind_lift, HS, bind_lift, HT; reflexivity.
  rewrite (@webhook_try_on_object env net req body _ HJ HS HT) by discriminate.
  destruct (headers_get req "X-GitHub-Event") as [ev|] eqn:HE;
    [|left; reflexivity].
  destruct (String.eqb ev "deployment_protection_rule") eqn:E1;
    [|left; reflexivity].
  destruct (Py.eq_str (Spec.field "action" body PNone) "requested") eqn:E2;
    [|left; reflexivity].
  right. exists body, (String a tok).
  apply String.eqb_eq in E1. subst ev. apply eq_str_true in E2.
  repeat split; try assumption; try discriminate.
  unfold Spec.field in E2. destruct (Py.lookup "action" body); congruence.
Qed.

(** X12: the handler starts a gateway operation only for a request that
    parsed, passed the signature step, found a token and passed the event
    filter, and whose event holds the objects it reads: the deployment,
    the workflow, the repository and its owner. *)
Theorem calls_need_well_formed_event (env : environ) (net : network)
  (req : HttpRequest) (c : gateway_call) :
  In c (snd (approval_webhook env net req)) ->
  exists body tok,
    Spec.reaches_decision env req body tok /\ Spec.well_formed body.
Proof.
  rewrite webhook_calls. intros Hc.
  destruct (webhook_try_stage env net req) as [H|(body & tok & Hreach)].
  { rewrite H in Hc. destruct Hc. }
  exists body, tok. split; [exact Hreach|].
  rewrite (webhook_past_filter net Hreach) in Hc.
  match type of Hc with
  | In _ (snd (process_deployment ?n ?t ?a ?b ?u ?d ?r ?w)) =>
      destruct (process_cases n t a b u d r w)
        as [(e & He)|(d' & r' & o & w' & Hd & Hr & Ho & Hw)]
  end.
  { rewrite He in Hc. destruct Hc. }
  unfold Spec.well_formed. eauto 10.
Qed.

Lemma calls_need_well_formed_event_witness :
  exists body tok,
    Spec.reaches_decision Sample.env_default
      (Sample.protection_request (Sample.event_of "mallory")) body tok
    /\ Spec.well_formed body.
Proof.
  apply (@calls_need_well_formed_event Sample.env_default Sample.offline
           (Sample.protection_request (Sample.event_of "mallory"))
           (RejectDeployment (PStr "https://api.github.com/cb/1")
              (rejection_message (PStr "production")))).
  cbn. left. reflexivity.
Defined.

(** X13: with a webhook secret configured, a request whose signature
    header is not exactly the expected signature of its raw body starts
    no gateway operation. *)
Theorem unsigned_request_starts_nothing (env : environ) (net : network)
  (req : HttpRequest) (secret : string) :
  GITHUB_WEBHOOK_SECRET env = Some secret -> secret <> "" ->
  headers_get req "X-Hub-Signature-256"
  <> Some (Spec.expected_signature (get_body req) secret) ->
  snd (approval_webhook env net req) = [].
Proof.
  intros Hsec Hne Hsig. rewrite webhook_calls.
  destruct (webhook_try_stage env net req) as [H|(body & tok & Hreach)];
    [exact H|].
  exfalso. apply Hsig.
  destruct Hreach as (_ & HS & _). unfold check_signature in HS.
  rewrite Hsec in HS.
  destruct (String.eqb secret "") eqn:E;
    [apply String.eqb_eq in E; contradiction|].
  cbn [negb] in HS.
  destruct (headers_get req "X-Hub-Signature-256") as [h|]; [|discriminate].
  f_equal. apply (verify_signature_true_iff (get_body req) secret h). exact HS.
Qed.

Lemma unsigned_request_starts_nothing_witness :
  snd (approval_webhook Sample.env_secret Sample.offline
         (Sample.signed_request "sha256=00")) = [].
Proof.
  apply (@unsigned_request_starts_nothing Sample.env_secret Sample.offline
           (Sample.signed_request "sha256=00") "s3cret").
  - reflexivity.
  - discriminate.
  - vm_compute. discriminate.
Defined.

Lemma validate_fetch_part (net : network) (client : GitHubClient)
  (auth : string) (payload : pyval) :
  Spec.fetch_part (snd (validate_deployment_user net client auth payload)).
Proof.
  rewrite validate_snd.
  destruct (resolve_fetch net client payload)
    as [H|(body & r & o & w & _ & _ & _ & _ & H)]; rewrite H; constructor.
Qed.

(** X14: in one request the handler uses the gateway in a fixed order
    and at most three times: at most one fetch of the workflow run, then
    exactly one decision (never an approval and a rejection), then, after
    a rejection only, at most one summary step, which carries the comment
    of the rejection. A request that is answered before the decision uses
    the gateway not at all. *)
Theorem handler_trace_shape (env : environ) (net : network)
  (req : HttpRequest) :
  Spec.handler_trace (snd (approval_webhook env net req)).
Proof.
  rewrite webhook_calls.
  destruct (webhook_try_stage env net req) as [H|(body & tok & Hreach)].
  { rewrite H. constructor. }
  rewrite (webhook_past_filter net Hreach).
  match goal with
  | |- Spec.handler_trace (snd (process_deployment ?n ?t ?a ?b ?u ?d ?r ?w)) =>
      destruct (process_cases n t a b u d r w)
        as [(e & He)|(d' & r' & o & w' & Hd & Hr & Ho & Hw)]
  end.
  { rewrite He. constructor. }
  rewrite Hd, Hr, Hw.
  destruct (validate_cases net (new_GitHubClient tok)
              (Spec.authorized_identity env) (PDict body))
    as (b & i & rest & t & Hv & _).
  pose proof (validate_fetch_part net (new_GitHubClient tok)
                (Spec.authorized_identity env) (PDict body)) as Hf.
  rewrite Hv in Hf. cbn [snd] in Hf.
  destruct b.
  - pose proof (@process_approves net tok (Spec.authorized_identity env)
                  (PDict body) (Spec.callback_of body) d' r' o w' Ho
                  true i rest t Hv eq_refl) as Hp.
    cbv zeta in Hp. rewrite Hp. cbn [snd]. constructor. exact Hf.
  - destruct (@process_rejects_calls net tok (Spec.authorized_identity env)
                (PDict body) (Spec.callback_of body) d' r' o w' Ho
                false i rest t Hv eq_refl) as (tail & Hp & [-> | ->]);
      cbv zeta in Hp; rewrite Hp; constructor; exact Hf.
Qed.

(** X15: without a configured secret (unset or empty) the handler looks
    neither at the raw body nor at the signature header: two requests
    with the same decoded body and the same event header get the same
    answer and cause the same gateway operations. *)
Theorem unsigned_mode_ignores_signature (env : environ) (net : network)
  (req req' : HttpRequest) :
  nonempty (GITHUB_WEBHOOK_SECRET env) = false ->
  get_json req = get_json req' ->
  headers_get req "X-GitHub-Event" = headers_get req' "X-GitHub-Event" ->
  approval_webhook env net req = approval_webhook env net req'.
Proof.
  intros Hsec HJ HE.
  assert (HS : forall r, check_signature env r = Ok true).
  { intros r. unfold check_signature.
    destruct (GITHUB_WEBHOOK_SECRET env) as [s|]; [|reflexivity].
    cbn in Hsec. rewrite Hsec. reflexivity. }
  unfold approval_webhook, approval_webhook_try, request_json.
  rewrite !HS, HJ, HE. reflexivity.
Qed.

Lemma unsigned_mode_ignores_signature_witness :
  approval_webhook Sample.env_default Sample.offline
    (Sample.signed_request "sha256=00")
  = approval_webhook Sample.env_default Sample.offline
      (Sample.protection_request []).
Proof.
  apply (@unsigned_mode_ignores_signature Sample.env_default Sample.offline
           (Sample.signed_request "sha256=00") (Sample.protection_request [])).
  - reflexivity.
  - reflexivity.
  - reflexivity.
Defined.

(** X16: for a request that passed the signature step and found a
    token, a body that decodes to a JSON value that is no object (an
    array, a text, a number, [null]) is answered 500 with the message of
    the [AttributeError], whatever the event type, and starts no gateway
    operation: the fields are read before the event filter. *)
Theorem non_object_body_is_an_error (env : environ) (net : network)
  (req : HttpRequest) (v : pyval) :
  get_json req = inr v ->
  (forall body, v <> PDict body) ->
  check_signature env req = Ok true ->
  nonempty (GITHUB_TOKEN env) = true ->
  approval_webhook env net req
  = (json_response
       [("error",
         PStr ("Unexpected error processing webhook: '" ++ Py.type_name v
               ++ "' object has no attribute 'get'"))] 500,
     []).
Proof.
  intros HJ Hv HS HT.
  unfold approval_webhook, approval_webhook_try, request_json.
  rewrite HJ, bind_lift, HS, bind_lift. cbn [negb].
  destruct (GITHUB_TOKEN env) as [[|a tok]|]; try discriminate.
  destruct v; try reflexivity. exfalso. apply (Hv d). reflexivity.
Qed.

Lemma non_object_body_is_an_error_witness :
  approval_webhook Sample.env_default Sample.offline
    {| req_headers := [("x-github-event", "push")];
       get_body := list_byte_of_string "[]";
       get_json := inr (PList []) |}
  = (json_response
       [("error",
         PStr ("Unexpected error processing webhook: '" ++ "list"
               ++ "' object has no attribute 'get'"))] 500,
     []).
Proof.
  apply (@non_object_body_is_an_error Sample.env_default Sample.offline
           {| req_headers := [("x-github-event", "push")];
              get_body := list_byte_of_string "[]";
              get_json := inr (PList []) |} (PList [])).
  - reflexivity.
  - intros body. discriminate.
  - reflexivity.
  - reflexivity.
Defined.

(** X17: a request that passed parsing, signature step and token, and
    whose body is an object, is answered with the 200 "skipping" message
    and starts no gateway operation whenever its event header is not
    [deployment_protection_rule] or its action is not [requested]. *)
Theorem other_events_are_skipped (env : environ) (net : network)
  (req : HttpRequest) (body : list (string * pyval)) :
  get_json req = inr (PDict body) ->
  check_signature env req = Ok true ->
  nonempty (GITHUB_TOKEN env) = true ->
  headers_get req "X-GitHub-Event" <> Some "deployment_protection_rule"
  \/ Py.lookup "action" body <> Some (PStr "requested") ->
  approval_webhook env net req
  = (json_response
       [("message", PStr "Not a deployment protection rule request, skipping")]
       200,
     []).
Proof.
  intros HJ HS HT Hfilter.
  destruct (GITHUB_TOKEN env) as [[|a tok]|] eqn:Htok; try discriminate.
  apply webhook_of_try.
  rewrite (@webhook_try_on_object env net req body _ HJ HS Htok)
    by discriminate.
  destruct (headers_get req "X-GitHub-Event") as [ev|] eqn:HE;
    [|reflexivity].
  destruct (String.eqb ev "deployment_protection_rule") eqn:E1;
    [|reflexivity].
  destruct (Py.eq_str (Spec.field "action" body PNone) "requested") eqn:E2;
    [|reflexivity].
  exfalso. apply String.eqb_eq in E1. subst ev. apply eq_str_true in E2.
  destruct Hfilter as [H|H]; [apply H; reflexivity|].
  apply H. unfold Spec.field in E2.
  destruct (Py.lookup "action" body); congruence.
Qed.

Lemma other_events_are_skipped_witness :
  approval_webhook Sample.env_default Sample.offline
    (Sample.event_request "push" (Sample.event_of "mallory"))
  = (json_response
       [("message", PStr "Not a deployment protection rule request, skipping")]
       200,
     []).
Proof.
  apply (@other_events_are_skipped Sample.env_default Sample.offline
           (Sample.event_request "push" (Sample.event_of "mallory"))
           (Sample.event_of "mallory")).
  - reflexivity.
  - reflexivity.
  - reflexivity.
  - left. discriminate.
Defined.

(** X18: a request that reaches the decision on a well-formed event whose
    resolved initiator matches the authorized identity causes, after the
    validator's fetch if any, one approveDeployment at the callback URL of
    the event, with the success message as comment. When that operation
    returns, the answer is the 200 [approved] body, which repeats the
    message, the initiator as resolved and the environment, and carries
    whatever the gateway returned, be it an error object. When it raises,
    its exception is answered like every exception of the handler: 400
    for a [ValueError], 500 otherwise. *)
Theorem approval_answer (env : environ) (net : network) (req : HttpRequest)
  (body : list (string * pyval)) (tok s : string) (run_id : pyval)
  (t : list gateway_call) :
  Spec.reaches_decision env req body tok ->
  Spec.well_formed body ->
  resolve_initiator net (new_GitHubClient tok) (PDict body)
  = (Ok (PStr s, run_id), t) ->
  s <> "" ->
  Spec.same_user (Spec.extractUsername s)
    (Spec.extractUsername (Spec.authorized_identity env)) = true ->
  let message := success_message (PStr s) (Spec.environment_of body) in
  approval_webhook env net req
  = (match approve_deployment_body net (new_GitHubClient tok)
             (Spec.callback_of body) message with
     | Ok v =>
         Spec.approved_answer message (PStr s) (Spec.environment_of body) v
     | Raise e => Spec.error_answer e
     end,
     (t ++ [ApproveDeployment (Spec.callback_of body) message])%list).
Proof.
  intros Hreach Hwf Hres Hs Hsame message. subst message.
  destruct (well_formed_objects Hwf) as (d & w & r & o & Hd & Hw & Hr & Ho).
  assert (He : Spec.environment_of body = Spec.field "environment" d PNone)
    by (unfold Spec.environment_of; rewrite Hd; reflexivity).
  rewrite He.
  pose proof (webhook_past_filter net Hreach) as Htry.
  rewrite Hd, Hw, Hr in Htry.
  pose proof (@validate_after_resolution net (new_GitHubClient tok)
                (Spec.authorized_identity env) (PDict body) (PStr s, run_id)
                t _ Hres
                (@decide_user_text (Spec.authorized_identity env) s run_id Hs))
    as Hval.
  rewrite Hsame in Hval. cbn [app] in Hval.
  pose proof (@process_approves net tok (Spec.authorized_identity env)
                (PDict body) (Spec.callback_of body) d r o w Ho true (PStr s)
                _ t Hval eq_refl) as Hp.
  cbv zeta in Hp. rewrite Hp in Htry. clear Hp.
  destruct (approve_deployment_body net (new_GitHubClient tok)
              (Spec.callback_of body)
              (success_message (PStr s) (Spec.field "environment" d PNone)))
    as [v|e].
  - apply webhook_of_try. exact Htry.
  - apply webhook_of_raise. exact Htry.
Qed.

Lemma approval_answer_witness :
  let message :=
    success_message (PStr "Carol")
      (Spec.environment_of (Sample.event_of "Carol")) in
  approval_webhook
    (Spec.with_authorized_user Sample.env_default "carol") Sample.offline
    (Sample.protection_request (Sample.event_of "Carol"))
  = (match approve_deployment_body Sample.offline (new_GitHubClient "ghp_token")
             (Spec.callback_of (Sample.event_of "Carol")) message with
     | Ok v =>
         Spec.approved_answer message (PStr "Carol")
           (Spec.environment_of (Sample.event_of "Carol")) v
     | Raise e => Spec.error_answer e
     end,
     ([] ++ [ApproveDeployment
               (Spec.callback_of (Sample.event_of "Carol")) message])%list).
Proof.
  apply (@approval_answer
           (Spec.with_authorized_user Sample.env_default "carol")
           Sample.offline
           (Sample.protection_request (Sample.event_of "Carol"))
           (Sample.event_of "Carol") "ghp_token" "Carol" (PInt 7) []).
  - repeat split. discriminate.
  - split; [|split].
    + eexists. reflexivity.
    + eexists. reflexivity.
    + do 2 eexists. split; reflexivity.
  - reflexivity.
  - discriminate.
  - reflexivity.
Defined.

(** The two ways an approval ends: answered 200 with the error object of
    a network that is down, and answered 400 when the callback address
    has a host label of 64 characters. *)
Example sample_approvals :
  fst (approval_webhook
         (Spec.with_authorized_user Sample.env_default "carol")
         Sample.unreachable
         (Sample.protection_request (Sample.event_of "Carol")))
  = Spec.approved_answer
      "Usuario autorizado: Carol. Despliegue permitido en production"
      (PStr "Carol") (PStr "production")
      (Spec.decision_error "approving" "connection refused")
  /\ fst (approval_webhook
            (Spec.with_authorized_user Sample.env_default "carol")
            Sample.unreachable
            (Sample.protection_request
               (Sample.event_at Sample.long_label_address "Carol")))
     = json_response
         [("error",
           PStr "Invalid request body: Failed to parse: 'aaaaaaaaaaaaaaaaaaaaaaaaaaaaaaaaaaaaaaaaaaaaaaaaaaaaaaaaaaaaaaaa.com', label empty or too long")]
         400.
Proof. vm_compute. split; reflexivity. Qed.

(** X19: a request that reaches the decision on a well-formed event whose
    resolved initiator does not match the authorized identity causes,
    after the validator's fetch if any, one rejectDeployment at the
    callback URL, with the comment that names the environment. When that
    operation returns, the summary step follows exactly when the workflow
    id is non-empty, and when that step returns too (or is skipped) the
    answer is the 200 [rejected] body with the same comment as reason,
    the initiator as resolved, the authorized identity and what the
    rejection returned. When the rejection raises, nothing follows it;
    an exception of either operation is answered like every exception of
    the handler: 400 for a [ValueError], 500 otherwise. *)
Theorem rejection_answer (env : environ) (net : network) (req : HttpRequest)
  (body : list (string * pyval)) (tok s : string) (run_id : pyval)
  (t : list gateway_call) (d w r o : list (string * pyval)) :
  Spec.reaches_decision env req body tok ->
  Spec.field "deployment" body (PDict []) = PDict d ->
  Spec.field "workflow" body (PDict []) = PDict w ->
  Spec.field "repository" body (PDict []) = PDict r ->
  Spec.field "owner" r (PDict []) = PDict o ->
  resolve_initiator net (new_GitHubClient tok) (PDict body)
  = (Ok (PStr s, run_id), t) ->
  s <> "" ->
  Spec.same_user (Spec.extractUsername s)
    (Spec.extractUsername (Spec.authorized_identity env)) = false ->
  let message := rejection_message (Spec.field "environment" d PNone) in
  let summary :=
    AddWorkflowSummaryError (Spec.field "login" o PNone)
      (Spec.field "name" r PNone) (Spec.field "id" w PNone) message in
  approval_webhook env net req
  = match reject_deployment_body net (new_GitHubClient tok)
            (Spec.callback_of body) message with
    | Raise e =>
        (Spec.error_answer e,
         (t ++ [RejectDeployment (Spec.callback_of body) message])%list)
    | Ok v =>
        (match (if Py.truthy (Spec.field "id" w PNone)
                then add_workflow_summary_error_body net (new_GitHubClient tok)
                       (Spec.field "login" o PNone) (Spec.field "name" r PNone)
                       (Spec.field "id" w PNone) message
                else Ok PNone) with
         | Ok _ =>
             Spec.rejected_answer message (PStr s)
               (Spec.authorized_identity env) v
         | Raise e => Spec.error_answer e
         end,
         (t ++ RejectDeployment (Spec.callback_of body) message
               :: (if Py.truthy (Spec.field "id" w PNone)
                   then [summary] else []))%list)
    end.
Proof.
  intros Hreach Hd Hw Hr Ho Hres Hs Hsame message summary.
  pose proof (@validate_after_resolution net (new_GitHubClient tok)
                (Spec.authorized_identity env) (PDict body) (PStr s, run_id)
                t _ Hres
                (@decide_user_text (Spec.authorized_identity env) s run_id Hs))
    as Hval.
  rewrite Hsame in Hval. cbn [app] in Hval.
  apply (@rejection_flow env net req body tok (PStr s) _ t d w r o
           Hreach Hd Hw Hr Ho Hval).
Qed.

Lemma rejection_answer_witness :
  let env := Sample.env_default in
  let net := Sample.offline in
  let body := Sample.event_of "mallory" in
  let req := Sample.protection_request body in
  let message := rejection_message (PStr "production") in
  approval_webhook env net req
  = match reject_deployment_body net (new_GitHubClient "ghp_token")
            (Spec.callback_of body) message with
    | Raise e =>
        (Spec.error_answer e,
         ([] ++ [RejectDeployment (Spec.callback_of body) message])%list)
    | Ok v =>
        (match (if Py.truthy (PInt 7)
                then add_workflow_summary_error_body net
                       (new_GitHubClient "ghp_token")
                       (PStr "octo") (PStr "app") (PInt 7) message
                else Ok PNone) with
         | Ok _ => Spec.rejected_answer message (PStr "mallory") "APZW3PRD_BCP" v
         | Raise e => Spec.error_answer e
         end,
         ([] ++ RejectDeployment (Spec.callback_of body) message
               :: (if Py.truthy (PInt 7)
                   then [AddWorkflowSummaryError (PStr "octo") (PStr "app")
                           (PInt 7) message]
                   else []))%list)
    end.
Proof.
  apply (@rejection_answer Sample.env_default Sample.offline
           (Sample.protection_request (Sample.event_of "mallory"))
           (Sample.event_of "mallory") "ghp_token" "mallory" (PInt 7) []
           [("environment", PStr "production")]
           [("id", PInt 7)]
           [ ("full_name", PStr "octo/app"); ("name", PStr "app");
             ("owner", PDict [("login", PStr "octo")]) ]
           [("login", PStr "octo")]).
  - repeat split. discriminate.
  - reflexivity.
  - reflexivity.
  - reflexivity.
  - reflexivity.
  - reflexivity.
  - discriminate.
  - reflexivity.
Defined.

(** A rejection on a network that is down: both operations return. *)
Example sample_rejection :
  approval_webhook Sample.env_default Sample.offline
    (Sample.protection_request (Sample.event_of "mallory"))
  = (Spec.rejected_answer (rejection_message (PStr "production"))
       (PStr "mallory") "APZW3PRD_BCP"
       (Spec.decision_error "rejecting" "connection refused"),
     [ RejectDeployment (PStr "https://api.github.com/cb/1")
         (rejection_message (PStr "production"));
       AddWorkflowSummaryError (PStr "octo") (PStr "app") (PInt 7)
         (rejection_message (PStr "production")) ]).
Proof. vm_compute. reflexivity. Qed.
